(** * ctprobot: subscription lifecycle engine of [bot.py]

    A shallow embedding of the parts of [bot.py] that decide who may pay
    what and when: the period clock, the payment-option resolver, the
    activation of a subscription, the promo-code discount, the recording of
    promo usage and the expiration sweep.  SQLite tables are lists of rows
    in rowid order; the Telegram collaborator is an oracle for the invite
    link together with a trace of the requests sent to it. *)

From Stdlib Require Import ZArith List String Ascii Bool Lia DecimalString.
Import ListNotations.
Open Scope Z_scope.

(** ** Python values *)

(** [str(n)] for an integer. *)
Definition str_int (n : Z) : string := NilZero.string_of_int (Z.to_int n).

(** [f"{n:02d}"] for [0 <= n]: at least two digits, padded with a zero. *)
Definition fmt_02d (n : Z) : string :=
  if n <? 10 then ("0" ++ str_int n)%string else str_int n.

(** Truthiness of a nullable INTEGER column: [None] and [0] are false. *)
Definition truthy (v : option Z) : bool :=
  match v with
  | Some n => negb (n =? 0)
  | None => false
  end.

(** Truthiness of a nullable TEXT value: [None] and the empty string are
    false. *)
Definition truthy_str (v : option string) : bool :=
  match v with
  | Some EmptyString => false
  | Some _ => true
  | None => false
  end.

(** [str(v)] of a nullable TEXT value inside an f-string. *)
Definition str_opt (v : option string) : string :=
  match v with
  | Some s => s
  | None => "None"
  end.

(** ** Configuration *)

(** [CURRENCY = os.environ.get("CURRENCY", "BYN")], at its default. *)
Definition CURRENCY : string := "BYN".

(** ** Wall clock

    [now_local()] is a [datetime] in Europe/Minsk and [int(time.time())] the
    Unix time of the same instant.  One reading of the clock is the local
    date and time; the Unix time is computed from it. *)

Record datetime : Type := mkdatetime {
  year : Z;
  month : Z;
  day : Z;
  hour : Z;
  minute : Z;
  second : Z
}.

(** Days of the proleptic Gregorian calendar, counted the way civil-date
    algorithms do, with the year starting in March: the days before 1 March
    of year [y'], the days from 1 March to the first of month [m], and the
    days between 1970-01-01 and the date [y]-[m]-[d]. *)
Definition days_before_year (y' : Z) : Z :=
  let era := y' / 400 in
  let yoe := y' - era * 400 in
  era * 146097 + yoe * 365 + yoe / 4 - yoe / 100.

Definition days_before_month (m : Z) : Z := (153 * ((m + 9) mod 12) + 2) / 5.

Definition days_from_civil (y m d : Z) : Z :=
  days_before_year (if m <=? 2 then y - 1 else y) + days_before_month m + d - 1 - 719468.

(** [int(LOCAL_TZ.localize(dt).timestamp())]: Europe/Minsk keeps UTC+3 all
    year (since 2011), so local time is three hours ahead of UTC. *)
Definition timestamp (dt : datetime) : Z :=
  days_from_civil (year dt) (month dt) (day dt) * 86400
  + hour dt * 3600 + minute dt * 60 + second dt - 3 * 3600.

(** [int(time.time())] at the instant [now_local()] returns [now]. *)
Definition time_time (now : datetime) : Z := timestamp now.

Definition get_current_period (now : datetime) : Z * Z :=
  (month now, year now).

Definition get_payment_deadlines (now : datetime) : datetime * datetime :=
  (mkdatetime (year now) (month now) 5 23 59 59,
   mkdatetime (year now) (month now) 20 23 59 59).

Definition is_payment_period_active (now : datetime) : bool :=
  ((1 <=? day now) && (day now <=? 5)) || ((15 <=? day now) && (day now <=? 20)).

Inductive ActivePaymentType : Type :=
  | apt_first
  | apt_second
  | apt_half_month
  | apt_full_anytime.

Definition get_active_payment_type (now : datetime) : ActivePaymentType :=
  if (1 <=? day now) && (day now <=? 5) then apt_first
  else if (15 <=? day now) && (day now <=? 20) then apt_second
  else if day now >=? 21 then apt_half_month
  else apt_full_anytime.

(** ** Helpers *)

Definition price_str_from_cents (cents : option Z) : string :=
  let cents := match cents with Some c => c | None => 0 end in
  (str_int (cents / 100) ++ "." ++ fmt_02d (cents mod 100) ++ " " ++ CURRENCY)%string.

(** ** Tables *)

(** [part_paid TEXT DEFAULT 'none']: the code writes and tests ['first'] and
    ['full'] only. *)
Inductive PartPaid : Type :=
  | pp_none
  | pp_first
  | pp_full.

(** [payment_type]: the values the resolver offers, and ['renewal'] of the
    renewal payload. *)
Inductive PaymentType : Type :=
  | full
  | full_anytime
  | partial
  | second_part
  | second_part_late
  | half_month
  | renewal.

Definition PartPaid_eqb (a b : PartPaid) : bool :=
  match a, b with
  | pp_none, pp_none | pp_first, pp_first | pp_full, pp_full => true
  | _, _ => false
  end.

Definition PaymentType_eqb (a b : PaymentType) : bool :=
  match a, b with
  | full, full | full_anytime, full_anytime | partial, partial
  | second_part, second_part | second_part_late, second_part_late
  | half_month, half_month | renewal, renewal => true
  | _, _ => false
  end.

Record Plan : Type := mkPlan {
  p_id : Z;
  p_title : option string;
  p_price_cents : Z;
  p_group_id : option Z
}.

Record User : Type := mkUser {
  u_user_id : Z;
  u_username : option string
}.

Record Subscription : Type := mkSubscription {
  s_id : Z;
  s_user_id : Z;
  s_plan_id : Z;
  s_start_ts : Z;
  s_end_ts : Z;
  s_active : Z;
  s_invite_link : option string;
  s_removed : Z;
  s_group_id : option Z;
  s_payment_type : PaymentType;
  s_current_period_month : Z;
  s_current_period_year : Z;
  s_part_paid : PartPaid;
  s_next_payment_date : option Z
}.

Record PromoCode : Type := mkPromoCode {
  pc_id : Z;
  pc_code : string;
  pc_discount_percent : option Z;
  pc_discount_fixed_cents : option Z;
  pc_is_active : Z;
  pc_used_count : Z;
  pc_max_uses : option Z;
  pc_expires_ts : option Z
}.

Record PromoUsage : Type := mkPromoUsage {
  pu_id : Z;
  pu_promo_id : Z;
  pu_user_id : Z;
  pu_used_ts : Z
}.

Inductive ManualStatus : Type :=
  | st_pending
  | st_approved.

Record ManualPayment : Type := mkManualPayment {
  mp_id : Z;
  mp_user_id : Z;
  mp_plan_id : Z;
  mp_status : ManualStatus;
  mp_admin_id : option Z;
  mp_reviewed_ts : option Z;
  mp_payment_type : PaymentType;
  mp_promo_id : option Z
}.

(** The database: each table in rowid order, and for the two tables the
    code inserts into, the largest rowid handed out so far (AUTOINCREMENT). *)
Record DB : Type := mkDB {
  plans : list Plan;
  users : list User;
  subscriptions : list Subscription;
  subscriptions_seq : Z;
  promo_codes : list PromoCode;
  promo_usage : list PromoUsage;
  promo_usage_seq : Z;
  manual_payments : list ManualPayment
}.

(** ** Queries *)

(** [SELECT ... FROM plans WHERE id=?] with [fetchone()]. *)
Definition select_plan (db : DB) (pid : Z) : option Plan :=
  find (fun p => p_id p =? pid) (plans db).

(** [ORDER BY end_ts DESC LIMIT 1]: the row with the greatest [end_ts], the
    earliest such row on a tie. *)
Fixpoint latest_by_end_ts (best : option Subscription) (rows : list Subscription)
  : option Subscription :=
  match rows with
  | [] => best
  | r :: rest =>
      match best with
      | None => latest_by_end_ts (Some r) rest
      | Some b =>
          if s_end_ts r >? s_end_ts b then latest_by_end_ts (Some r) rest
          else latest_by_end_ts best rest
      end
  end.

(** [SELECT ... FROM subscriptions WHERE user_id=? AND plan_id=? AND active=?
    ORDER BY end_ts DESC LIMIT 1] with [fetchone()]. *)
Definition select_subscription (db : DB) (uid pid act : Z) : option Subscription :=
  latest_by_end_ts None
    (filter (fun s => (s_user_id s =? uid) && (s_plan_id s =? pid) && (s_active s =? act))
            (subscriptions db)).

(** The title the [LEFT JOIN plans] attaches to a subscription row. *)
Definition joined_title (db : DB) (s : Subscription) : option string :=
  match select_plan db (s_plan_id s) with
  | Some p => p_title p
  | None => None
  end.

(** ** check_existing_active_subscription *)

Definition check_existing_active_subscription (db : DB) (now : datetime)
    (user_id plan_id : Z) : bool * option Subscription * string :=
  let '(current_month, current_year) := get_current_period now in
  let now_ts := time_time now in
  match select_subscription db user_id plan_id 1 with
  | None => (false, None, "Нет активной подписки"%string)
  | Some existing_sub =>
      let plan_title := str_opt (joined_title db existing_sub) in
      let expired := (false, Some existing_sub, "Подписка истекла"%string) in
      if s_end_ts existing_sub >? now_ts then
        if (s_current_period_month existing_sub =? current_month)
           && (s_current_period_year existing_sub =? current_year) then
          match s_part_paid existing_sub with
          | pp_full =>
              (true, Some existing_sub,
               ("У вас уже есть активная подписка на группу '" ++ plan_title
                ++ "' за текущий месяц!")%string)
          | pp_first =>
              (true, Some existing_sub,
               ("У вас уже оплачена первая часть за группу '" ++ plan_title
                ++ "'. Вы можете доплатить вторую часть.")%string)
          | pp_none => expired
          end
        else
          (true, Some existing_sub,
           ("У вас есть активная подписка на группу '" ++ plan_title
            ++ "', но за другой период.")%string)
      else expired
  end.

(** ** get_payment_options *)

Record PaymentOption : Type := mkOption {
  o_type : PaymentType;
  o_price : Z;
  o_text : string;
  o_description : string
}.

Definition sub_info_part_paid_is (sub_info : option Subscription) (pp : PartPaid) : bool :=
  match sub_info with
  | Some s => PartPaid_eqb (s_part_paid s) pp
  | None => false
  end.

Definition get_payment_options (db : DB) (now : datetime) (user_id plan_id : Z)
  : list PaymentOption :=
  let '(has_active_sub, sub_info, _) :=
    check_existing_active_subscription db now user_id plan_id in
  if has_active_sub && sub_info_part_paid_is sub_info pp_full then []
  else
    let active_type := get_active_payment_type now in
    match select_plan db plan_id with
    | None => []
    | Some plan =>
        let price_cents := p_price_cents plan in
        let first_part_price := price_cents / 2 in
        let second_part_price := first_part_price in
        let has_paid_first_part :=
          has_active_sub && sub_info_part_paid_is sub_info pp_first in
        let until_5th := "Доступ до 5 числа следующего месяца"%string in
        if day now >=? 21 then
          if has_paid_first_part then
            [mkOption second_part_late second_part_price
               "💳 Доплатить вторую часть" until_5th]
          else
            [mkOption half_month first_part_price
               "💳 Оплатить половину месяца" until_5th]
        else
          match active_type with
          | apt_first =>
              if has_paid_first_part then
                [mkOption second_part second_part_price
                   "💳 Доплатить вторую часть"
                   "Оплачивается 15-20 числа, доступ до 5 числа следующего месяца"]
              else
                [mkOption full price_cents "💳 Полная оплата" until_5th;
                 mkOption partial first_part_price "💳 Оплатить первой частью"
                   ("Вторая часть " ++ price_str_from_cents (Some second_part_price)
                    ++ " оплачивается 15-20 числа")%string]
          | apt_second =>
              if has_paid_first_part then
                [mkOption second_part second_part_price
                   "💳 Доплатить вторую часть" until_5th]
              else
                [mkOption full price_cents "💳 Полная оплата" until_5th]
          | _ =>
              if has_paid_first_part then
                [mkOption second_part_late second_part_price
                   "💳 Доплатить вторую часть"
                   "Доступ до 5 числа следующего месяца (восстановление доступа)"]
              else
                [mkOption full price_cents "💳 Полная оплата" until_5th]
          end
    end.

(** The two fields of an option the decision table speaks of. *)
Definition option_kind (o : PaymentOption) : PaymentType * Z :=
  (o_type o, o_price o).

(** ** Telegram collaborator

    Requests sent to the Bot API, in the order they are sent.  Every request
    of the code modelled here is wrapped so that a failure is logged and the
    caller goes on; only the invite link is read back. *)
Inductive Request : Type :=
  | unban_chat_member (chat_id : option Z) (user_id : Z)
  | createChatInviteLink (chat_id : option Z) (expire_seconds member_limit : Z)
  | ban_chat_member (chat_id : option Z) (user_id until_date : Z)
  | send_message (chat_id : Z) (text : string).

(** ** activate_subscription *)

(** What a call of [activate_subscription] comes to: [(True, invite_link)],
    [(False, message)], or an exception that leaves the function. *)
Inductive Activation : Type :=
  | Activated (invite_link : string)
  | Refused (message : string)
  | Raised (exception : string).

(** The month after [now.month], with its year; the source spells this
    [if now.month == 12] out at each use. *)
Definition next_month (now : datetime) : Z * Z :=
  if month now =? 12 then (1, year now + 1) else (month now + 1, year now).

Definition period_is (s : Subscription) (m y : Z) : bool :=
  (s_current_period_month s =? m) && (s_current_period_year s =? y).

(** [existing_end_ts] as lines 471-501 leave it.  ([sub_id] is assigned there
    too, and assigned again before each use.) *)
Definition existing_end_ts_of (db : DB) (user_id plan_id : Z)
    (existing_sub : option Subscription) (current_month current_year start_ts : Z) : Z :=
  match existing_sub with
  | None => start_ts
  | Some e =>
      if PartPaid_eqb (s_part_paid e) pp_full && period_is e current_month current_year then
        match select_subscription db user_id plan_id 0 with
        | Some inactive_sub => s_end_ts inactive_sub
        | None => start_ts
        end
      else s_end_ts e
  end.

(** [end_ts] and [part_paid] by payment type; no branch binds them for
    ['renewal']. *)
Definition end_ts_and_part_paid (now : datetime) (payment_type : PaymentType)
    (has_existing : bool) (existing_end_ts start_ts : Z) : option (Z * PartPaid) :=
  match payment_type with
  | half_month =>
      let '(next_m, next_y) := next_month now in
      Some (timestamp (mkdatetime next_y next_m 5 23 59 59), pp_full)
  | full | full_anytime =>
      let '(next_m, next_y) :=
        if has_existing && (existing_end_ts >? start_ts) then next_month now
        else next_month now in
      Some (timestamp (mkdatetime next_y next_m 5 23 59 59), pp_full)
  | partial =>
      Some (timestamp (mkdatetime (year now) (month now) 15 23 59 59), pp_first)
  | second_part | second_part_late =>
      let '(next_m, next_y) := next_month now in
      Some (timestamp (mkdatetime next_y next_m 5 23 59 59), pp_full)
  | renewal => None
  end.

(** [UPDATE subscriptions SET payment_type=?, part_paid=?, end_ts=?,
    invite_link=?, active=1, removed=0 WHERE id=?]. *)
Definition update_current_period (rows : list Subscription) (sub_id : Z)
    (payment_type : PaymentType) (part_paid : PartPaid) (end_ts : Z)
    (invite_link : string) : list Subscription :=
  map (fun s =>
         if s_id s =? sub_id then
           mkSubscription (s_id s) (s_user_id s) (s_plan_id s) (s_start_ts s) end_ts 1
             (Some invite_link) 0 (s_group_id s) payment_type
             (s_current_period_month s) (s_current_period_year s) part_paid
             (s_next_payment_date s)
         else s) rows.

(** The same with [current_period_month=?, current_period_year=?]. *)
Definition update_new_period (rows : list Subscription) (sub_id : Z)
    (payment_type : PaymentType) (part_paid : PartPaid)
    (current_month current_year end_ts : Z) (invite_link : string)
  : list Subscription :=
  map (fun s =>
         if s_id s =? sub_id then
           mkSubscription (s_id s) (s_user_id s) (s_plan_id s) (s_start_ts s) end_ts 1
             (Some invite_link) 0 (s_group_id s) payment_type
             current_month current_year part_paid (s_next_payment_date s)
         else s) rows.

Definition with_subscriptions (db : DB) (rows : list Subscription) (seq : Z) : DB :=
  mkDB (plans db) (users db) rows seq (promo_codes db) (promo_usage db)
       (promo_usage_seq db) (manual_payments db).

Definition activate_subscription (db : DB) (now : datetime) (invite : option string)
    (user_id plan_id : Z) (payment_type : PaymentType) (group_id : option Z)
  : Activation * DB * list Request :=
  match select_plan db plan_id with
  | None => (Refused "Тариф не найден", db, [])
  | Some plan =>
      let plan_group_id := p_group_id plan in
      let '(current_month, current_year) := get_current_period now in
      let target_group_id := if truthy plan_group_id then plan_group_id else group_id in
      if negb (truthy target_group_id) then
        (Refused "Не указана группа для подписки", db, [])
      else
        let start_ts := time_time now in
        let existing_sub := select_subscription db user_id plan_id 1 in
        let existing_end_ts :=
          existing_end_ts_of db user_id plan_id existing_sub current_month current_year
            start_ts in
        let bound :=
          end_ts_and_part_paid now payment_type
            (match existing_sub with Some _ => true | None => false end)
            existing_end_ts start_ts in
        let sent :=
          [unban_chat_member target_group_id user_id;
           createChatInviteLink target_group_id (7 * 24 * 3600) 1] in
        if negb (truthy_str invite) then
          (Refused "Не удалось создать пригласительную ссылку", db, sent)
        else
          let invite_link := match invite with Some l => l | None => EmptyString end in
          match bound with
          | None => (Raised "UnboundLocalError", db, sent)
          | Some (end_ts, part_paid) =>
              match existing_sub with
              | Some e =>
                  if period_is e current_month current_year then
                    (Activated invite_link,
                     with_subscriptions db
                       (update_current_period (subscriptions db) (s_id e) payment_type
                          part_paid end_ts invite_link)
                       (subscriptions_seq db),
                     sent)
                  else
                    (Activated invite_link,
                     with_subscriptions db
                       (update_new_period (subscriptions db) (s_id e) payment_type
                          part_paid current_month current_year end_ts invite_link)
                       (subscriptions_seq db),
                     sent)
              | None =>
                  let new_id := subscriptions_seq db + 1 in
                  (Activated invite_link,
                   with_subscriptions db
                     (subscriptions db ++
                      [mkSubscription new_id user_id plan_id start_ts end_ts 1
                         (Some invite_link) 0 target_group_id payment_type
                         current_month current_year part_paid (Some end_ts)])
                     new_id,
                   sent)
              end
          end
  end.

(** ** Promo codes *)

(** [SELECT ... FROM promo_codes WHERE code=?] with [fetchone()]. *)
Definition get_promo_code (db : DB) (code : string) : option PromoCode :=
  find (fun p => String.eqb (pc_code p) code) (promo_codes db).

(** [SELECT ... FROM promo_codes WHERE id=?] with [fetchone()]. *)
Definition get_promo_code_by_id (db : DB) (promo_id : Z) : option PromoCode :=
  find (fun p => pc_id p =? promo_id) (promo_codes db).

(** [SELECT id FROM promo_usage WHERE promo_id=? AND user_id=?]. *)
Definition select_promo_usage (db : DB) (promo_id user_id : Z) : list PromoUsage :=
  filter (fun u => (pu_promo_id u =? promo_id) && (pu_user_id u =? user_id))
         (promo_usage db).

Definition can_use_promo_code (db : DB) (now : datetime) (promo_id user_id : Z)
  : bool * string :=
  match select_promo_usage db promo_id user_id with
  | _ :: _ => (false, "Вы уже использовали этот промокод"%string)
  | [] =>
      match get_promo_code_by_id db promo_id with
      | None => (false, "Промокод не найден"%string)
      | Some promo =>
          if pc_is_active promo =? 0 then (false, "Промокод неактивен"%string)
          else if truthy (pc_max_uses promo)
                  && (pc_used_count promo >=?
                      match pc_max_uses promo with Some m => m | None => 0 end) then
            (false, "Промокод уже использован максимальное количество раз"%string)
          else if truthy (pc_expires_ts promo)
                  && (match pc_expires_ts promo with Some e => e | None => 0 end
                      <? time_time now) then
            (false, "Срок действия промокода истек"%string)
          else (true, "OK"%string)
      end
  end.

(** The integer nearest to [n / d], a tie going to the even one ([0 <= n],
    [0 < d]). *)
Definition round_half_even (n d : Z) : Z :=
  let q := n / d in
  let r := n mod d in
  if 2 * r <? d then q
  else if d <? 2 * r then q + 1
  else if Z.even q then q else q + 1.

(** [int(p / 100)] for an integer [0 <= p].  [/] is true division: its
    result is the double nearest to the exact quotient, a tie going to the
    even significand.  A double has 53 significant bits: for [2^k <= p / 100
    < 2^(k+1)] the doubles are the multiples of [2^(k-52)].  [int] drops
    the fraction.  (A quotient of [2^1024] or more raises [OverflowError];
    the product of two INTEGER columns stays far below.) *)
Definition int_div_100 (p : Z) : Z :=
  if p <? 100 then 0
  else
    let k := Z.log2 (p / 100) in
    if k <=? 52 then round_half_even (p * 2 ^ (52 - k)) 100 / 2 ^ (52 - k)
    else round_half_even p (100 * 2 ^ (k - 52)) * 2 ^ (k - 52).

(** [int(a * b / 100)]: the product is an exact integer, the division
    rounds, and [int] truncates towards zero. *)
Definition int_percent_of (a b : Z) : Z :=
  let p := a * b in
  if p <? 0 then - int_div_100 (- p) else int_div_100 p.

Definition apply_promo_code (price_cents : Z) (promo_data : PromoCode) : Z * string :=
  let code := pc_code promo_data in
  if truthy (pc_discount_percent promo_data) then
    let discount_percent :=
      match pc_discount_percent promo_data with Some v => v | None => 0 end in
    let discount := int_percent_of price_cents discount_percent in
    let new_price := Z.max 0 (price_cents - discount) in
    (new_price,
     ("Промокод " ++ code ++ " применен! Скидка " ++ str_int discount_percent ++ "%")%string)
  else if truthy (pc_discount_fixed_cents promo_data) then
    let discount_fixed_cents :=
      match pc_discount_fixed_cents promo_data with Some v => v | None => 0 end in
    let new_price := Z.max 0 (price_cents - discount_fixed_cents) in
    (new_price,
     ("Промокод " ++ code ++ " применен! Скидка "
      ++ price_str_from_cents (Some discount_fixed_cents))%string)
  else (price_cents, "Ошибка применения промокода"%string).

(** What [handle_promo_value] stores for the value an administrator typed:
    a percent from 1 to 100 with a zero fixed amount, or a positive fixed
    amount with a zero percent; anything else is refused. *)
Definition handle_promo_value (percent_type : bool) (value : Z) : option (Z * Z) :=
  if percent_type then
    if (value <=? 0) || (value >? 100) then None else Some (value, 0)
  else
    if value <=? 0 then None else Some (0, value).

(** [INSERT INTO promo_usage (promo_id, user_id, used_ts) VALUES (?, ?, ?)]
    followed by [UPDATE promo_codes SET used_count = used_count + 1 WHERE
    id=?], as both payment handlers run them. *)
Definition record_promo_usage (db : DB) (now : datetime) (promo_id user_id : Z) : DB :=
  let new_id := promo_usage_seq db + 1 in
  mkDB (plans db) (users db) (subscriptions db) (subscriptions_seq db)
       (map (fun p =>
               if pc_id p =? promo_id then
                 mkPromoCode (pc_id p) (pc_code p) (pc_discount_percent p)
                   (pc_discount_fixed_cents p) (pc_is_active p) (pc_used_count p + 1)
                   (pc_max_uses p) (pc_expires_ts p)
               else p) (promo_codes db))
       (promo_usage db ++ [mkPromoUsage new_id promo_id user_id (time_time now)])
       new_id (manual_payments db).

(** ** Payment handlers *)

(** The fields [got_payment] reads out of the invoice payload
    [plan:<id>:user:<id>:type:<t>:month:<m>:year:<y>:promo:<id>:<ts>];
    [pl_promo_id] is [None] when the promo field is [0]. *)
Record Payload : Type := mkPayload {
  pl_plan_id : Z;
  pl_payment_type : PaymentType;
  pl_period_month : Z;
  pl_period_year : Z;
  pl_promo_id : option Z
}.

(** [got_payment] for a regular payload, up to the recording of the promo
    usage; the referral cashback and the confirmation message that follow
    touch neither the subscriptions nor the promo tables. *)
Definition got_payment (db : DB) (now : datetime) (invite : option string)
    (user_id : Z) (payload : Payload) : DB * list Request :=
  let '(result, db1, sent) :=
    activate_subscription db now invite user_id (pl_plan_id payload)
      (pl_payment_type payload) None in
  match result with
  | Activated _ =>
      match pl_promo_id payload with
      | Some promo_id =>
          if negb (promo_id =? 0) && (promo_id >? 0) then
            (record_promo_usage db1 now promo_id user_id, sent)
          else (db1, sent)
      | None => (db1, sent)
      end
  | Refused message =>
      (db1, sent ++ [send_message user_id ("❌ Ошибка активации подписки: " ++ message)%string])
  | Raised _ => (db1, sent)
  end.

(** [SELECT ... FROM manual_payments mp WHERE mp.id = ? AND mp.status =
    'pending'] with [fetchone()]. *)
Definition select_pending_payment (db : DB) (payment_id : Z) : option ManualPayment :=
  find (fun m =>
          (mp_id m =? payment_id)
          && match mp_status m with st_pending => true | st_approved => false end)
       (manual_payments db).

(** [UPDATE manual_payments SET status='approved', admin_id=?, reviewed_ts=?
    WHERE id=?]. *)
Definition approve_manual_payment (db : DB) (payment_id admin_id reviewed_ts : Z) : DB :=
  mkDB (plans db) (users db) (subscriptions db) (subscriptions_seq db)
       (promo_codes db) (promo_usage db) (promo_usage_seq db)
       (map (fun m =>
               if mp_id m =? payment_id then
                 mkManualPayment (mp_id m) (mp_user_id m) (mp_plan_id m) st_approved
                   (Some admin_id) (Some reviewed_ts) (mp_payment_type m) (mp_promo_id m)
               else m) (manual_payments db)).

Definition newline : string := String (ascii_of_nat 10) EmptyString.

(** [callback_approve_payment]: the ledger and promo tables after the
    callback, and the messages sent to the user (the answers to the
    administrator's callback are left out of the trace). *)
Definition callback_approve_payment (ADMIN_IDS : list Z) (db : DB) (now : datetime)
    (invite : option string) (from_user payment_id : Z) : DB * list Request :=
  if negb (existsb (Z.eqb from_user) ADMIN_IDS) then (db, [])
  else
    match select_pending_payment db payment_id with
    | None => (db, [])
    | Some payment =>
        let user_id := mp_user_id payment in
        let plan_id := mp_plan_id payment in
        let '(result, db1, sent) :=
          activate_subscription db now invite user_id plan_id (mp_payment_type payment)
            None in
        match result with
        | Activated link =>
            let db2 := approve_manual_payment db1 payment_id from_user (time_time now) in
            let db3 :=
              if truthy (mp_promo_id payment) then
                record_promo_usage db2 now
                  (match mp_promo_id payment with Some p => p | None => 0 end) user_id
              else db2 in
            match select_plan db3 plan_id with
            | Some p =>
                (db3,
                 sent ++
                 [send_message user_id
                    ("✅ Ваша заявка на оплату группы '" ++ str_opt (p_title p)
                     ++ "' одобрена!" ++ newline ++ newline
                     ++ "🔗 Ваша приватная ссылка для входа в чат (одноразовая):"
                     ++ newline ++ link)%string])
            | None => (db3, sent)
            end
        | _ => (db1, sent)
        end
    end.

(** ** SQL statements

    [cursor.execute(sql, params)] has SQLite compile the text before any
    row is read.  SQLite knows the remarks [-- ...] and [/* ... */]; a [#]
    outside a quoted literal starts no token of its grammar, and the
    statement is refused with [sqlite3.OperationalError] ([unrecognized
    token: "#"]). *)
Fixpoint unrecognized_token (quoted : bool) (sql : string) : bool :=
  match sql with
  | EmptyString => false
  | String c rest =>
      if Ascii.eqb c "'" then unrecognized_token (negb quoted) rest
      else if negb quoted && Ascii.eqb c "#" then true
      else unrecognized_token quoted rest
  end.

(** What [cursor.execute] followed by [cursor.fetchall()] comes to: the rows
    the statement selects, or the exception. *)
Inductive Fetched : Type :=
  | Rows (rows : list Subscription)
  | OperationalError.

Definition execute (sql : string) (selected : list Subscription) : Fetched :=
  if unrecognized_token false sql then OperationalError else Rows selected.

(** The lines of a statement text, put together again. *)
Definition unlines (lines : list string) : string := String.concat newline lines.

(** ** check_expirations_loop

    One pass of the loop body from [current_month, current_year =
    get_current_period()] on.  (The reminder block before it fires at 10:00
    and 18:00 only, the sweeps at 00:00 and 01:00.)  The body runs inside
    [try: ... except Exception], which logs the exception and sleeps: a
    statement that raises ends the pass with nothing revoked. *)

(** The texts of the three SELECT statements (lines 4212, 4257 and 4303),
    line by line without the indentation. *)
Definition day6_statement : string :=
  unlines
    ["SELECT s.id, s.user_id, s.group_id, s.plan_id, p.title, u.username";
     "FROM subscriptions s";
     "JOIN plans p ON s.plan_id = p.id";
     "JOIN users u ON s.user_id = u.user_id";
     "WHERE s.active = 1 ";
     "AND (s.current_period_month != ? OR s.current_period_year != ?)";
     "AND s.part_paid = 'none'  # Удаляем только тех, у кого ВООБЩЕ ничего не оплачено"]%string.

Definition day21_statement : string :=
  unlines
    ["SELECT s.id, s.user_id, s.group_id, s.plan_id, p.title, u.username";
     "FROM subscriptions s";
     "JOIN plans p ON s.plan_id = p.id";
     "JOIN users u ON s.user_id = u.user_id";
     "WHERE s.active = 1 ";
     "AND s.payment_type = 'partial' ";
     "AND s.part_paid = 'first'  # Только первую часть оплатили";
     "AND s.current_period_month = ? AND s.current_period_year = ?"]%string.

Definition daily_statement : string :=
  unlines
    ["SELECT s.id, s.user_id, s.group_id, s.plan_id, p.title, u.username";
     "FROM subscriptions s";
     "JOIN plans p ON s.plan_id = p.id";
     "JOIN users u ON s.user_id = u.user_id";
     "WHERE s.active = 1 AND s.end_ts < ?"]%string.

(** [JOIN plans p ON s.plan_id = p.id JOIN users u ON s.user_id = u.user_id]:
    the subscription rows that have both. *)
Definition select_user (db : DB) (uid : Z) : option User :=
  find (fun u => u_user_id u =? uid) (users db).

Definition joined (db : DB) (s : Subscription) : bool :=
  match select_plan db (s_plan_id s), select_user db (s_user_id s) with
  | Some _, Some _ => true
  | _, _ => false
  end.

(** The rows that meet the conditions of the day-6 statement: [WHERE
    s.active = 1 AND (s.current_period_month != ? OR s.current_period_year
    != ?) AND s.part_paid = 'none']. *)
Definition select_unpaid (db : DB) (current_month current_year : Z) : list Subscription :=
  filter (fun s =>
            joined db s
            && (s_active s =? 1)
            && (negb (s_current_period_month s =? current_month)
                || negb (s_current_period_year s =? current_year))
            && PartPaid_eqb (s_part_paid s) pp_none)
         (subscriptions db).

(** The rows that meet the conditions of the day-21 statement: [WHERE
    s.active = 1 AND s.payment_type = 'partial' AND s.part_paid = 'first'
    AND s.current_period_month = ? AND s.current_period_year = ?]. *)
Definition select_first_part_only (db : DB) (current_month current_year : Z)
  : list Subscription :=
  filter (fun s =>
            joined db s
            && (s_active s =? 1)
            && PaymentType_eqb (s_payment_type s) partial
            && PartPaid_eqb (s_part_paid s) pp_first
            && (s_current_period_month s =? current_month)
            && (s_current_period_year s =? current_year))
         (subscriptions db).

(** The rows that meet the conditions of the daily statement: [WHERE
    s.active = 1 AND s.end_ts < ?]. *)
Definition select_expired (db : DB) (now_ts : Z) : list Subscription :=
  filter (fun s => joined db s && (s_active s =? 1) && (s_end_ts s <? now_ts))
         (subscriptions db).

(** [UPDATE subscriptions SET active = 0, removed = 1 WHERE id = ?]. *)
Definition deactivate (rows : list Subscription) (sub_id : Z) : list Subscription :=
  map (fun s =>
         if s_id s =? sub_id then
           mkSubscription (s_id s) (s_user_id s) (s_plan_id s) (s_start_ts s) (s_end_ts s)
             0 (s_invite_link s) 1 (s_group_id s) (s_payment_type s)
             (s_current_period_month s) (s_current_period_year s) (s_part_paid s)
             (s_next_payment_date s)
         else s) rows.

(** The [for] loop over the fetched rows: ban when the row has a group,
    deactivate, and tell the user when the sweep has a text for it. *)
Fixpoint revoke_all (db : DB) (now : datetime) (notice : option (string -> string))
    (fetched : list Subscription) : DB * list Request :=
  match fetched with
  | [] => (db, [])
  | s :: rest =>
      let ban :=
        if truthy (s_group_id s)
        then [ban_chat_member (s_group_id s) (s_user_id s) (time_time now + 30)]
        else [] in
      let db1 :=
        with_subscriptions db (deactivate (subscriptions db) (s_id s))
          (subscriptions_seq db) in
      let told :=
        match notice with
        | Some text => [send_message (s_user_id s) (text (str_opt (joined_title db s)))]
        | None => []
        end in
      let '(db2, sent) := revoke_all db1 now notice rest in
      (db2, ban ++ told ++ sent)
  end.

Definition notice_unpaid (plan_title : string) : string :=
  ("❌ Доступ к группе '" ++ plan_title ++ "' приостановлен." ++ newline ++ newline
   ++ "Вы не оплатили подписку за текущий месяц. "
   ++ "Для восстановления доступа оплатите подписку в разделе '📋 Группы обучения'.")%string.

Definition notice_first_part_only (plan_title : string) : string :=
  ("❌ Доступ к группе '" ++ plan_title ++ "' приостановлен." ++ newline ++ newline
   ++ "Вы не оплатили вторую часть подписки. "
   ++ "Для восстановления доступа оплатите вторую часть в разделе '📋 Группы обучения'.")%string.

Definition check_expirations_pass (db : DB) (now : datetime) : DB * list Request :=
  let '(current_month, current_year) := get_current_period now in
  if (day now =? 6) && (hour now =? 0) && (minute now =? 0) then
    match execute day6_statement (select_unpaid db current_month current_year) with
    | Rows expired_subs => revoke_all db now (Some notice_unpaid) expired_subs
    | OperationalError => (db, [])
    end
  else if (day now =? 21) && (hour now =? 0) && (minute now =? 0) then
    match execute day21_statement (select_first_part_only db current_month current_year) with
    | Rows expired_partial_subs =>
        revoke_all db now (Some notice_first_part_only) expired_partial_subs
    | OperationalError => (db, [])
    end
  else if (hour now =? 1) && (minute now =? 0) then
    match execute daily_statement (select_expired db (time_time now)) with
    | Rows expired_subs => revoke_all db now None expired_subs
    | OperationalError => (db, [])
    end
  else (db, []).

(** ** Vocabulary of the statements *)

(** The row the resolver looks at has the given payment state: the active
    row of the pair (the one ending last, were there several). *)
Definition active_row (db : DB) (user_id plan_id : Z) : option Subscription :=
  select_subscription db user_id plan_id 1.

Definition in_current_period (s : Subscription) (now : datetime) : Prop :=
  s_current_period_month s = month now /\ s_current_period_year s = year now.

(** The resolver in terms of the two facts it takes from the ledger. *)
Definition options_for (price_cents : Z) (now : datetime) (has_paid_first_part : bool)
  : list (PaymentType * Z) :=
  if day now >=? 21 then
    if has_paid_first_part then [(second_part_late, price_cents / 2)]
    else [(half_month, price_cents / 2)]
  else if (1 <=? day now) && (day now <=? 5) then
    if has_paid_first_part then [(second_part, price_cents / 2)]
    else [(full, price_cents); (partial, price_cents / 2)]
  else if (15 <=? day now) && (day now <=? 20) then
    if has_paid_first_part then [(second_part, price_cents / 2)]
    else [(full, price_cents)]
  else
    if has_paid_first_part then [(second_part_late, price_cents / 2)]
    else [(full, price_cents)].

(** ** Sample data for the closed statements *)

Definition sample_plan : Plan := mkPlan 1 (Some "Python")%string 1000 (Some (-1001234567890)).

Definition sample_user : User := mkUser 42 (Some "@student")%string.

Definition sample_link : string := "https://t.me/+AbCdEf".

(** A database with one plan of price 1000, one user and no subscription. *)
Definition sample_db : DB := mkDB [sample_plan] [sample_user] [] 0 [] [] 0 [].

(** A moment of November 2026. *)
Definition nov2026 (d h mi : Z) : datetime := mkdatetime 2026 11 d h mi 0.

(** A subscription row of user 42 for the sample plan. *)
Definition sample_row (id end_ts active : Z) (payment_type : PaymentType)
    (m y : Z) (part_paid : PartPaid) : Subscription :=
  mkSubscription id 42 1 1793000000 end_ts active (Some sample_link) 0
    (Some (-1001234567890)) payment_type m y part_paid (Some end_ts).

Definition sample_db_with (rows : list Subscription) : DB :=
  mkDB [sample_plan] [sample_user] rows (Z.of_nat (List.length rows)) [] [] 0 [].

(** The month after the current one, as a date: day 5, 23:59:59. *)
Definition day5_next_month (now : datetime) : datetime :=
  mkdatetime (snd (next_month now)) (fst (next_month now)) 5 23 59 59.

(** Day 15 of the current month, 23:59:59. *)
Definition day15_this_month (now : datetime) : datetime :=
  mkdatetime (year now) (month now) 15 23 59 59.


(** The rows a call has written: those of the new table that the old one
    does not hold. *)
Definition committed (db db' : DB) (r : Subscription) : Prop :=
  In r (subscriptions db') /\ ~ In r (subscriptions db).

(** What the activation rules ask of a written row, by payment type. *)
Definition as_activation_rules (now : datetime) (payment_type : PaymentType)
    (r : Subscription) : Prop :=
  match payment_type with
  | partial =>
      s_end_ts r = timestamp (day15_this_month now) /\ s_part_paid r = pp_first
  | full | full_anytime | half_month | second_part | second_part_late =>
      s_end_ts r = timestamp (day5_next_month now) /\ s_part_paid r = pp_full
  | renewal => True
  end.

(** The sample database with the plan's group removed. *)
Definition sample_db_no_group : DB :=
  mkDB [mkPlan 1 (Some "Python")%string 1000 None] [sample_user]
       [sample_row 1 1794776399 1 partial 11 2026 pp_first] 1 [] [] 0 [].

(** The ledger after user 42 has paid the sample plan in full on 10 October
    2026, and the row that payment has written: credited for October, running
    until 5 November 2026, 23:59:59. *)
Definition sample_db_paid_october : DB :=
  snd (fst (activate_subscription sample_db (mkdatetime 2026 10 10 12 0 0)
              (Some sample_link) 42 1 full None)).


(** [apply] in the words of the specification: the price less the discount,
    not below zero; the discount is the floor of [price * percent / 100] for
    a percent code and the fixed amount for a fixed code. *)
Definition apply_as_specified (price : Z) (promo : PromoCode) : Z :=
  let discount :=
    if truthy (pc_discount_percent promo) then
      price * match pc_discount_percent promo with Some v => v | None => 0 end / 100
    else
      match pc_discount_fixed_cents promo with Some v => v | None => 0 end in
  Z.max 0 (price - discount).

(** The discount fields of a code are not negative, as [handle_promo_value]
    stores them. *)
Definition discount_not_negative (promo : PromoCode) : Prop :=
  match pc_discount_percent promo with Some v => 0 <= v | None => True end
  /\ match pc_discount_fixed_cents promo with Some v => 0 <= v | None => True end.

Definition sample_percent_code : PromoCode :=
  mkPromoCode 7 "WELCOME10" (Some 10) (Some 0) 1 0 None None.

Definition sample_fixed_code : PromoCode :=
  mkPromoCode 8 "MINUS150" (Some 0) (Some 150) 1 0 None None.

Definition sample_percent_99 : PromoCode :=
  mkPromoCode 9 "ALMOSTFREE" (Some 99) (Some 0) 1 0 None None.

(** The rows of [promo_usage] for one code and one user. *)
Definition usage_count (db : DB) (promo_id user_id : Z) : nat :=
  List.length (select_promo_usage db promo_id user_id).

(** User 42 has entered the code [WELCOME10] in two checkouts before either
    was settled: two pending manual payments carry promo 7, and no usage is
    recorded yet. *)
Definition sample_db_two_pending : DB :=
  mkDB [sample_plan] [sample_user] [] 0 [sample_percent_code] [] 0
       [mkManualPayment 1 42 1 st_pending None None full (Some 7);
        mkManualPayment 2 42 1 st_pending None None full (Some 7)].

(** The same code in two card invoices. *)
Definition sample_db_promo : DB :=
  mkDB [sample_plan] [sample_user] [] 0 [sample_percent_code] [] 0 [].

Definition sample_payload : Payload := mkPayload 1 full 11 2026 (Some 7).

(** A subscription row after [SET active = 0, removed = 1]. *)
Definition revoked (s : Subscription) : Subscription :=
  mkSubscription (s_id s) (s_user_id s) (s_plan_id s) (s_start_ts s) (s_end_ts s)
    0 (s_invite_link s) 1 (s_group_id s) (s_payment_type s)
    (s_current_period_month s) (s_current_period_year s) (s_part_paid s)
    (s_next_payment_date s).

(** The condition of the day-21 statement on a subscription row. *)
Definition first_part_only (db : DB) (now : datetime) (s : Subscription) : Prop :=
  joined db s = true
  /\ s_active s = 1
  /\ s_payment_type s = partial
  /\ s_part_paid s = pp_first
  /\ in_current_period s now.

(** The row [activate_subscription] writes for a first part paid in November
    2026. *)
Definition sample_db_first_part : DB :=
  sample_db_with [sample_row 1 1794776399 1 partial 11 2026 pp_first].

(** A clock reading with its fields in range. *)
Definition valid_clock (now : datetime) : Prop :=
  1 <= month now <= 12 /\ 1 <= day now <= 31
  /\ 0 <= hour now <= 23 /\ 0 <= minute now <= 59 /\ 0 <= second now <= 59.

(** ** Calendar, in the words of the specification *)

Definition is_leap (y : Z) : bool :=
  (y mod 4 =? 0) && (negb (y mod 100 =? 0) || (y mod 400 =? 0)).

Definition days_in_month (y m : Z) : Z :=
  if m =? 2 then (if is_leap y then 29 else 28)
  else if (m =? 4) || (m =? 6) || (m =? 9) || (m =? 11) then 30
  else 31.

(** A clock reading that is a date of the calendar. *)
Definition calendar_date (now : datetime) : Prop :=
  valid_clock now /\ day now <= days_in_month (year now) (month now).

(** The first of the current month, 00:00:00. *)
Definition first_of_month (now : datetime) : datetime :=
  mkdatetime (year now) (month now) 1 0 0 0.


(** Day 5 of the next calendar month at 23:59:59, counted in seconds from
    the first of the current month: the days of the current month and five
    more, less one second. *)
Definition day5_of_next_calendar_month (now : datetime) : Z :=
  timestamp (first_of_month now)
  + (days_in_month (year now) (month now) + 5) * 86400 - 1.

(** Day 15 of the current calendar month at 23:59:59, counted the same way. *)
Definition day15_of_calendar_month (now : datetime) : Z :=
  timestamp (first_of_month now) + 15 * 86400 - 1.

(** What the specification asks of a row written by an activation at [now],
    by payment type. *)
Definition ends_as_specified (now : datetime) (payment_type : PaymentType)
    (r : Subscription) : Prop :=
  match payment_type with
  | partial =>
      s_end_ts r = day15_of_calendar_month now /\ s_part_paid r = pp_first
  | full | full_anytime | half_month | second_part | second_part_late =>
      s_end_ts r = day5_of_next_calendar_month now /\ s_part_paid r = pp_full
  | renewal => True
  end.




(** * Further functions of [bot.py] *)

From Stdlib Require Import DecimalZ Sorted.

(** ** Python strings

    The text handled by the functions below is ASCII (digits, signs,
    separators): a character of a [string] stands for one character of the
    Python text. *)

(** [c.isspace()] for an ASCII character: tab to carriage return, the four
    separators 28-31 and the space. *)
Definition is_space (c : ascii) : bool :=
  let n := nat_of_ascii c in
  ((9 <=? n) && (n <=? 13) || (28 <=? n) && (n <=? 32))%nat.

Definition is_digit (c : ascii) : bool :=
  let n := nat_of_ascii c in
  ((48 <=? n) && (n <=? 57))%nat.

Fixpoint string_forallb (p : ascii -> bool) (s : string) : bool :=
  match s with
  | EmptyString => true
  | String c r => p c && string_forallb p r
  end.

(** [s.lstrip()], [s.rstrip()] and [s.strip()]. *)
Fixpoint lstrip (s : string) : string :=
  match s with
  | EmptyString => EmptyString
  | String c r => if is_space c then lstrip r else s
  end.

Fixpoint rstrip (s : string) : string :=
  match s with
  | EmptyString => EmptyString
  | String c r =>
      match rstrip r with
      | EmptyString => if is_space c then EmptyString else String c EmptyString
      | r' => String c r'
      end
  end.

Definition strip (s : string) : string := rstrip (lstrip s).

(** [sep in s] and [s.split(sep)] for a one-character separator. *)
Fixpoint contains_char (sep : ascii) (s : string) : bool :=
  match s with
  | EmptyString => false
  | String c r => Ascii.eqb c sep || contains_char sep r
  end.

Fixpoint split (sep : ascii) (s : string) : list string :=
  match s with
  | EmptyString => [EmptyString]
  | String c r =>
      if Ascii.eqb c sep then EmptyString :: split sep r
      else match split sep r with
           | h :: t => String c h :: t
           | [] => [String c EmptyString]
           end
  end.

(** [s[:n]] for [0 <= n] and [s.ljust(n, fill)]. *)
Fixpoint take (n : nat) (s : string) : string :=
  match n, s with
  | S n', String c r => String c (take n' r)
  | _, _ => EmptyString
  end.

Fixpoint ljust (n : nat) (fill : ascii) (s : string) : string :=
  match n, s with
  | O, _ => s
  | S n', EmptyString => String fill (ljust n' fill EmptyString)
  | S n', String c r => String c (ljust n' fill r)
  end.

(** The digits of [int(s)]: decimal digits, single underscores allowed
    between two digits. *)
Fixpoint digits_of (after_digit : bool) (s : string) : option string :=
  match s with
  | EmptyString => if after_digit then Some EmptyString else None
  | String c r =>
      if is_digit c then option_map (String c) (digits_of true r)
      else if Ascii.eqb c "_" && after_digit then digits_of false r
      else None
  end.

Definition uint_of_digits (s : string) : option Decimal.uint :=
  match digits_of false s with
  | Some d => NilZero.uint_of_string d
  | None => None
  end.

(** [int(s)] for a text: surrounding whitespace is dropped, one sign may
    lead, the rest are digits; [None] stands for the [ValueError]. *)
Definition python_int (s : string) : option Z :=
  match strip s with
  | EmptyString => None
  | String c r =>
      if Ascii.eqb c "-" then
        option_map (fun d => Z.of_int (Decimal.Neg d)) (uint_of_digits r)
      else if Ascii.eqb c "+" then
        option_map (fun d => Z.of_int (Decimal.Pos d)) (uint_of_digits r)
      else
        option_map (fun d => Z.of_int (Decimal.Pos d)) (uint_of_digits (String c r))
  end.

(** ** cents_from_str *)

(** [cents_from_str]: [None] is what the [except] clause returns. *)
Definition cents_from_str (s : string) : option Z :=
  let s := strip s in
  if contains_char "." s then
    match split "." s with
    | whole :: frac :: _ =>
        match python_int whole, python_int (ljust 2 "0" (take 2 frac)) with
        | Some w, Some f => Some (w * 100 + f)
        | _, _ => None
        end
    | _ => None
    end
  else
    match python_int s with
    | Some w => Some (w * 100)
    | None => None
    end.

(** ** Python text

    A text of the bot (a caption, a title) is held as its UTF-8 bytes.  A
    character of the Python text begins at every byte that is not a
    continuation byte [10xxxxxx]; [len] and slices count characters. *)
Definition is_continuation (c : ascii) : bool :=
  let n := nat_of_ascii c in
  ((128 <=? n) && (n <? 192))%nat.

(** [len(text)]. *)
Fixpoint len (text : string) : nat :=
  match text with
  | EmptyString => O
  | String c r => if is_continuation c then len r else S (len r)
  end.

(** [text[:n]] for [0 <= n]: the bytes before character [n] begins. *)
Fixpoint chars_to (n : nat) (text : string) : string :=
  match text with
  | EmptyString => EmptyString
  | String c r =>
      if is_continuation c then String c (chars_to n r)
      else match n with
           | O => EmptyString
           | S n' => String c (chars_to n' r)
           end
  end.

(** [text[:k]] for any integer [k]: a negative [k] counts from the end. *)
Definition slice_to (k : Z) (text : string) : string :=
  if k <? 0 then chars_to (Z.to_nat (Z.of_nat (len text) + k)) text
  else chars_to (Z.to_nat k) text.

Definition safe_caption (text : option string) (limit : Z) : option string :=
  if negb (truthy_str text) then None
  else
    let text := match text with Some t => t | None => EmptyString end in
    if Z.of_nat (len text) <=? limit then Some text
    else Some (slice_to (limit - 3) text ++ "...")%string.

(** ** Invoice payload *)

Definition payment_type_str (t : PaymentType) : string :=
  match t with
  | full => "full"
  | full_anytime => "full_anytime"
  | partial => "partial"
  | second_part => "second_part"
  | second_part_late => "second_part_late"
  | half_month => "half_month"
  | renewal => "renewal"
  end.

(** The payment type a text names; [None] for a text the code has no
    branch for. *)
Definition payment_type_of_str (s : string) : option PaymentType :=
  find (fun t => String.eqb (payment_type_str t) s)
       [full; full_anytime; partial; second_part; second_part_late; half_month; renewal].

(** [promo_id or 0]. *)
Definition or_zero (v : option Z) : Z :=
  match v with
  | Some n => n
  | None => 0
  end.

(** The payload [process_card_payment] stores with the invoice and sends to
    Telegram. *)
Definition process_card_payment_payload (now : datetime) (pid user_id : Z)
    (payment_type : string) (promo_id renewal_end_ts : option Z) : string :=
  if String.eqb payment_type "renewal" && truthy renewal_end_ts then
    ("renewal:" ++ str_int pid ++ ":user:" ++ str_int user_id ++ ":end_ts:"
     ++ str_int (or_zero renewal_end_ts) ++ ":promo:" ++ str_int (or_zero promo_id)
     ++ ":" ++ str_int (time_time now))%string
  else
    let '(current_month, current_year) := get_current_period now in
    ("plan:" ++ str_int pid ++ ":user:" ++ str_int user_id ++ ":type:" ++ payment_type
     ++ ":month:" ++ str_int current_month ++ ":year:" ++ str_int current_year
     ++ ":promo:" ++ str_int (or_zero promo_id) ++ ":" ++ str_int (time_time now))%string.

(** What [got_payment] (line 882) reads out of a payload, the payment type
    still a text. *)
Record PayloadFields : Type := mkPayloadFields {
  pf_plan_id : Z;
  pf_payment_type : string;
  pf_period_month : Z;
  pf_period_year : Z;
  pf_promo_id : option Z
}.

(** The parsing at the head of [got_payment]; [None] stands for the
    [IndexError] or [ValueError] that leaves the handler. *)
Definition parse_payload (payload : string) : option PayloadFields :=
  let parts := split ":" payload in
  match nth_error parts 1, nth_error parts 5, nth_error parts 7, nth_error parts 9 with
  | Some p1, Some p5, Some p7, Some p9 =>
      match python_int p1, python_int p7, python_int p9 with
      | Some plan_id, Some period_month, Some period_year =>
          match nth_error parts 11 with
          | Some p11 =>
              if String.eqb p11 "0" then
                Some (mkPayloadFields plan_id p5 period_month period_year None)
              else
                match python_int p11 with
                | Some promo_id =>
                    Some (mkPayloadFields plan_id p5 period_month period_year (Some promo_id))
                | None => None
                end
          | None => Some (mkPayloadFields plan_id p5 period_month period_year None)
          end
      | _, _, _ => None
      end
  | _, _, _, _ => None
  end.

(** The fields of a payload put together with a separator between them. *)
Fixpoint join (sep : ascii) (fields : list string) : string :=
  match fields with
  | [] => EmptyString
  | [x] => x
  | x :: rest => (x ++ String sep (join sep rest))%string
  end.

(** ** can_user_pay_partial *)

(** [SELECT id FROM subscriptions WHERE user_id=? AND plan_id=? AND
    current_period_month=? AND current_period_year=? AND part_paid='first'],
    and whether [fetchone()] finds a row. *)
Definition can_user_pay_partial (db : DB) (now : datetime) (user_id plan_id : Z) : bool :=
  let '(month, year) := get_current_period now in
  existsb (fun s =>
             (s_user_id s =? user_id) && (s_plan_id s =? plan_id)
             && (s_current_period_month s =? month)
             && (s_current_period_year s =? year)
             && PartPaid_eqb (s_part_paid s) pp_first)
          (subscriptions db).

(** ** Vocabulary of the further statements *)

(** The ids of the subscription rows are distinct and none exceeds the
    AUTOINCREMENT counter, as SQLite keeps them. *)
Definition ids_fresh (db : DB) : Prop :=
  NoDup (map s_id (subscriptions db))
  /\ forall s, In s (subscriptions db) -> s_id s <= subscriptions_seq db.

(** The active rows of a user for a plan. *)
Definition active_rows (db : DB) (user_id plan_id : Z) : list Subscription :=
  filter (fun s => (s_user_id s =? user_id) && (s_plan_id s =? plan_id) && (s_active s =? 1))
         (subscriptions db).

(** The payment fields of a row, which no revocation touches. *)
Definition payment_state (s : Subscription)
  : Z * Z * Z * Z * Z * PaymentType * Z * Z * PartPaid :=
  (s_id s, s_user_id s, s_plan_id s, s_start_ts s, s_end_ts s, s_payment_type s,
   s_current_period_month s, s_current_period_year s, s_part_paid s).

(** A row after the loop over the fetched ids. *)
Definition revoke_if (ids : list Z) (s : Subscription) : Subscription :=
  if existsb (Z.eqb (s_id s)) ids then revoked s else s.

(** The payment types that buy the whole month. *)
Definition pays_in_full (t : PaymentType) : Prop :=
  t = full \/ t = full_anytime \/ t = half_month \/ t = second_part
  \/ t = second_part_late.

(** ** Managed groups *)

Record Group : Type := mkGroup {
  g_chat_id : Z;
  g_title : option string;
  g_is_default : Z;
  g_type : string;
  g_added_date : option Z
}.

(** [get_default_group]: the first group marked default, else the first
    group, else [None]. *)
Definition get_default_group (managed_groups : list Group) : option Z :=
  match find (fun g => g_is_default g =? 1) managed_groups with
  | Some g => Some (g_chat_id g)
  | None =>
      match managed_groups with
      | g :: _ => Some (g_chat_id g)
      | [] => None
      end
  end.

(** [set_default_group]: [UPDATE managed_groups SET is_default=0], then
    [UPDATE managed_groups SET is_default=1 WHERE chat_id=?]. *)
Definition set_default_group (managed_groups : list Group) (chat_id : Z) : list Group :=
  map (fun g =>
         mkGroup (g_chat_id g) (g_title g) (if g_chat_id g =? chat_id then 1 else 0)
           (g_type g) (g_added_date g))
      managed_groups.

(** [INSERT OR REPLACE INTO managed_groups (chat_id, title, type,
    added_date)]: the row with that [chat_id] is replaced, or the new row
    takes its place in the order of [chat_id] (the key of the table);
    [is_default] falls to its default 0. *)
Fixpoint insert_or_replace (g : Group) (rows : list Group) : list Group :=
  match rows with
  | [] => [g]
  | h :: t =>
      if g_chat_id g <? g_chat_id h then g :: rows
      else if g_chat_id g =? g_chat_id h then g :: t
      else h :: insert_or_replace g t
  end.

(** [add_group_to_db]: the group is stored, and made the default when it
    is the only one. *)
Definition add_group_to_db (managed_groups : list Group) (now : datetime) (chat_id : Z)
    (title : option string) (chat_type : string) : list Group :=
  let rows :=
    insert_or_replace (mkGroup chat_id title 0 chat_type (Some (time_time now)))
      managed_groups in
  if (List.length rows =? 1)%nat then
    map (fun g =>
           if g_chat_id g =? chat_id then
             mkGroup (g_chat_id g) (g_title g) 1 (g_type g) (g_added_date g)
           else g) rows
  else rows.

(** The rows of [managed_groups] come in the order of their key
    [chat_id INTEGER PRIMARY KEY]. *)
Definition chat_ids_increasing (managed_groups : list Group) : Prop :=
  StronglySorted Z.lt (map g_chat_id managed_groups).

(** ** Vocabulary of the statements *)

(** The characters of a printed integer. *)
Definition plain (c : ascii) : bool := is_digit c || Ascii.eqb c "-".

(** The two-digit print of a number below one hundred has two digits and
    reads back as the number. *)
Definition fmt_02d_ok (r : Z) : bool :=
  (String.length (fmt_02d r) =? 2)%nat
  && string_forallb is_digit (fmt_02d r)
  && match python_int (fmt_02d r) with Some v => v =? r | None => false end.

(** An update of the row with a given id, as both UPDATE statements of
    the activation are. *)
Definition rewrite_row (sub_id : Z) (g : Subscription -> Subscription)
    (s : Subscription) : Subscription :=
  if s_id s =? sub_id then g s else s.

Definition keeps_identity (g : Subscription -> Subscription) : Prop :=
  forall s, s_id (g s) = s_id s /\ s_user_id (g s) = s_user_id s
            /\ s_plan_id (g s) = s_plan_id s /\ s_active (g s) = 1.

(** ** The ledger the bot can have

    The subscriptions table starts empty and is written by the statements of
    [bot.py] alone: the INSERT and the UPDATEs of [activate_subscription]
    (lines 572-599), and the UPDATEs of [active] and [removed] (4237, 4283,
    4328), of [invite_link] (4159) and of [last_notification_ts] (3961), which
    leave the payment fields of every row as they are.  The other tables
    change freely, and the clock does not run backwards. *)
Inductive ledger_history : DB -> datetime -> Prop :=
  | history_start db now :
      subscriptions db = [] -> calendar_date now -> ledger_history db now
  | history_clock db now later :
      ledger_history db now ->
      calendar_date later -> time_time now <= time_time later ->
      ledger_history db later
  | history_activation db now invite user_id plan_id payment_type group_id :
      ledger_history db now ->
      ledger_history
        (snd (fst (activate_subscription db now invite user_id plan_id payment_type
                     group_id)))
        now
  | history_other db db' now :
      ledger_history db now ->
      map payment_state (subscriptions db') = map payment_state (subscriptions db) ->
      subscriptions_seq db' = subscriptions_seq db ->
      ledger_history db' now.

(** The payment fields of a row are those an activation at some earlier
    reading [paid] of the clock has written: the period of that reading, and
    the first part until day 15 of its month or the full payment until day 5
    of the month after. *)
Definition written_by_activation (now : datetime) (s : Subscription) : Prop :=
  exists paid : datetime,
    calendar_date paid /\ time_time paid <= time_time now
    /\ s_current_period_month s = month paid /\ s_current_period_year s = year paid
    /\ ((s_part_paid s = pp_first /\ s_end_ts s = timestamp (day15_this_month paid))
        \/ (s_part_paid s = pp_full /\ s_end_ts s = timestamp (day5_next_month paid))).

(** * Properties *)

(** ** Sanity checks of the helpers *)

Example price_str_1050 : price_str_from_cents (Some 1050) = "10.50 BYN"%string.
Proof. reflexivity. Qed.

Example price_str_5 : price_str_from_cents (Some 5) = "0.05 BYN"%string.
Proof. reflexivity. Qed.

Example timestamp_2026_11_15 :
  timestamp (mkdatetime 2026 11 15 23 59 59) = 1794776399.
Proof. reflexivity. Qed.

Example timestamp_leap_day :
  timestamp (mkdatetime 2024 2 29 12 0 0) = 1709197200.
Proof. reflexivity. Qed.

Example timestamp_2027_01_05 :
  timestamp (mkdatetime 2027 1 5 23 59 59) = 1799182799.
Proof. reflexivity. Qed.

Example timestamp_2000_03_01 :
  timestamp (mkdatetime 2000 3 1 0 0 0) = 951858000.
Proof. reflexivity. Qed.

(** ** Tactics *)

(** Split on every integer comparison of the goal and close the cases that
    contradict the hypotheses. *)
Ltac split_cmp :=
  repeat match goal with
    | |- context [?a <=? ?b] => destruct (Z.leb_spec a b)
    | |- context [?a <? ?b] => destruct (Z.ltb_spec a b)
    | |- context [?a >=? ?b] => rewrite (Z.geb_leb a b)
    | |- context [?a >? ?b] => rewrite (Z.gtb_ltb a b)
    | |- context [?a =? ?b] => destruct (Z.eqb_spec a b)
    end;
  cbn [andb orb negb]; try lia.

Lemma period_is_true s now :
  in_current_period s now -> period_is s (month now) (year now) = true.
Proof.
  intros [Hm Hy]. unfold period_is. rewrite Hm, Hy, !Z.eqb_refl. reflexivity.
Qed.


(** What [check_existing_active_subscription] answers for a row that is
    still running. *)
Lemma check_running db now uid pid r :
  active_row db uid pid = Some r ->
  s_end_ts r > time_time now ->
  fst (fst (check_existing_active_subscription db now uid pid))
  = (if period_is r (month now) (year now)
     then negb (PartPaid_eqb (s_part_paid r) pp_none) else true)
  /\ snd (fst (check_existing_active_subscription db now uid pid)) = Some r.
Proof.
  unfold active_row, check_existing_active_subscription, get_current_period, period_is.
  intros -> Hend.
  assert (Hgt : (s_end_ts r >? time_time now) = true) by (apply Z.gtb_lt; lia).
  rewrite Hgt.
  destruct ((s_current_period_month r =? month now)
            && (s_current_period_year r =? year now)); [|split; reflexivity].
  destruct (s_part_paid r); split; reflexivity.
Qed.

(** ... and for a row whose [end_ts] has passed, or for no row. *)
Lemma check_lapsed db now uid pid r :
  active_row db uid pid = Some r ->
  s_end_ts r <= time_time now ->
  fst (fst (check_existing_active_subscription db now uid pid)) = false.
Proof.
  unfold active_row, check_existing_active_subscription, get_current_period.
  intros -> Hend.
  assert (Hgt : (s_end_ts r >? time_time now) = false)
    by (rewrite Z.gtb_ltb; apply Z.ltb_ge; lia).
  rewrite Hgt. reflexivity.
Qed.

Lemma get_payment_options_kinds db now uid pid :
  map option_kind (get_payment_options db now uid pid)
  = let chk := check_existing_active_subscription db now uid pid in
    let has_active_sub := fst (fst chk) in
    let sub_info := snd (fst chk) in
    if has_active_sub && sub_info_part_paid_is sub_info pp_full then []
    else match select_plan db pid with
         | None => []
         | Some plan =>
             options_for (p_price_cents plan) now
               (has_active_sub && sub_info_part_paid_is sub_info pp_first)
         end.
Proof.
  unfold get_payment_options.
  destruct (check_existing_active_subscription db now uid pid) as [[has info] msg].
  cbn [fst snd].
  destruct (has && sub_info_part_paid_is info pp_full); [reflexivity|].
  destruct (select_plan db pid) as [plan|]; [|reflexivity].
  unfold options_for, get_active_payment_type.
  destruct (day now >=? 21); [destruct (has && _); reflexivity|].
  destruct ((1 <=? day now) && (day now <=? 5)); [destruct (has && _); reflexivity|].
  destruct ((15 <=? day now) && (day now <=? 20)); [destruct (has && _); reflexivity|].
  destruct (has && _); reflexivity.
Qed.

(** ** The active row of a pair *)

Lemma latest_by_end_ts_single r rows : forall best,
  (forall x, In x rows -> x = r) ->
  (best = Some r \/ (best = None /\ rows <> [])) ->
  latest_by_end_ts best rows = Some r.
Proof.
  induction rows as [|x rest IH]; intros best Hall Hbest; cbn.
  - destruct Hbest as [->|[_ Hne]]; [reflexivity | contradiction].
  - assert (Hx : x = r) by (apply Hall; left; reflexivity). subst x.
    assert (Hrest : forall y, In y rest -> y = r) by (intros y Hy; apply Hall; right; exact Hy).
    destruct Hbest as [->|[-> _]].
    + destruct (s_end_ts r >? s_end_ts r); apply IH; auto.
    + apply IH; auto.
Qed.

(** When the ledger holds one active row for the pair, as the data model
    asks, that row is the one the lookup returns. *)
Lemma active_row_of_single db uid pid r :
  In r (subscriptions db) ->
  s_user_id r = uid -> s_plan_id r = pid -> s_active r = 1 ->
  (forall r', In r' (subscriptions db) ->
              s_user_id r' = uid -> s_plan_id r' = pid -> s_active r' = 1 -> r' = r) ->
  active_row db uid pid = Some r.
Proof.
  intros Hin Hu Hp Ha Honly. unfold active_row, select_subscription.
  apply latest_by_end_ts_single.
  - intros x Hx. apply filter_In in Hx. destruct Hx as [Hxin Hf].
    apply andb_true_iff in Hf. destruct Hf as [Hf Hxa].
    apply andb_true_iff in Hf. destruct Hf as [Hxu Hxp].
    apply Honly; [exact Hxin | | |]; apply Z.eqb_eq; assumption.
  - right. split; [reflexivity|]. intros Hnil.
    assert (Hr : In r (filter (fun s => (s_user_id s =? uid) && (s_plan_id s =? pid)
                                        && (s_active s =? 1)) (subscriptions db))).
    { apply filter_In. split; [exact Hin|].
      rewrite Hu, Hp, Ha, !Z.eqb_refl. reflexivity. }
    rewrite Hnil in Hr. destruct Hr.
Qed.

(** ** Payment options *)

(** C3: a user without prior payment state (no active row, or an active row
    with [part_paid = 'none']) is offered, for a plan of price [P]: on days
    1-5 the full payment at [P] followed by the first part at [P / 2]; on
    days 6-14 and 15-20 the full payment at [P] alone; from day 21 on the
    half month at [P / 2] alone. *)
Theorem C3_options_without_prior_payment db now uid pid plan :
  select_plan db pid = Some plan ->
  match active_row db uid pid with
  | None => True
  | Some r => s_part_paid r = pp_none
  end ->
  let P := p_price_cents plan in
  let offered := map option_kind (get_payment_options db now uid pid) in
  (1 <= day now <= 5 -> offered = [(full, P); (partial, P / 2)])
  /\ (6 <= day now <= 14 -> offered = [(full, P)])
  /\ (15 <= day now <= 20 -> offered = [(full, P)])
  /\ (21 <= day now -> offered = [(half_month, P / 2)]).
Proof.
  intros Hplan Hrow P offered. subst offered.
  rewrite get_payment_options_kinds. cbn zeta. rewrite Hplan.
  assert (Hfull :
    fst (fst (check_existing_active_subscription db now uid pid))
    && sub_info_part_paid_is (snd (fst (check_existing_active_subscription db now uid pid)))
         pp_full = false
    /\ fst (fst (check_existing_active_subscription db now uid pid))
       && sub_info_part_paid_is (snd (fst (check_existing_active_subscription db now uid pid)))
            pp_first = false).
  { unfold active_row in Hrow.
    unfold check_existing_active_subscription, get_current_period.
    destruct (select_subscription db uid pid 1) as [r|]; [|split; reflexivity].
    destruct (s_end_ts r >? time_time now); [|split; reflexivity].
    destruct ((s_current_period_month r =? month now)
              && (s_current_period_year r =? year now));
      rewrite ?Hrow; cbn; rewrite ?Hrow; split; reflexivity. }
  destruct Hfull as [-> ->].
  unfold options_for. fold P.
  repeat split; intros Hday; split_cmp; reflexivity.
Qed.

Lemma C3_options_without_prior_payment_witness :
  map option_kind (get_payment_options sample_db (nov2026 3 10 0) 42 1)
  = [(full, 1000); (partial, 500)]
  /\ map option_kind (get_payment_options sample_db (nov2026 25 10 0) 42 1)
     = [(half_month, 500)].
Proof.
  split.
  - apply (C3_options_without_prior_payment sample_db (nov2026 3 10 0) 42 1 sample_plan);
      [reflexivity | exact I | cbn; lia].
  - apply (C3_options_without_prior_payment sample_db (nov2026 25 10 0) 42 1 sample_plan);
      [reflexivity | exact I | cbn; lia].
Defined.

(** A running active row marked fully paid suppresses every option, whatever
    period it is credited for. *)
Lemma full_paid_running_no_options db now uid pid r :
  active_row db uid pid = Some r ->
  s_part_paid r = pp_full ->
  s_end_ts r > time_time now ->
  get_payment_options db now uid pid = [].
Proof.
  intros Hrow Hpp Hend.
  apply (map_eq_nil option_kind).
  rewrite get_payment_options_kinds. cbn zeta.
  destruct (check_running db now uid pid r Hrow Hend) as [-> ->].
  unfold sub_info_part_paid_is. rewrite Hpp.
  destruct (period_is r (month now) (year now)); reflexivity.
Qed.

(** C10: an active row of the pair that is credited for another period, is
    marked fully paid and has its [end_ts] still ahead suppresses every
    option, renewal included. *)
Theorem C10_running_prior_period_row_suppresses_options db now uid pid r :
  active_row db uid pid = Some r ->
  ~ in_current_period r now ->
  s_part_paid r = pp_full ->
  s_end_ts r > time_time now ->
  get_payment_options db now uid pid = [].
Proof.
  intros Hrow _ Hpp Hend. exact (full_paid_running_no_options db now uid pid r Hrow Hpp Hend).
Qed.

Lemma C10_running_prior_period_row_suppresses_options_witness :
  get_payment_options
    (sample_db_with [sample_row 1 (timestamp (nov2026 5 23 59)) 1 full 10 2026 pp_full])
    (nov2026 3 10 0) 42 1 = [].
Proof.
  apply (C10_running_prior_period_row_suppresses_options _ _ _ _
           (sample_row 1 (timestamp (nov2026 5 23 59)) 1 full 10 2026 pp_full));
    [reflexivity | | reflexivity | vm_compute; reflexivity].
  intros [Hm _]. discriminate Hm.
Defined.

(** While the first-part row is still running, the resolver offers the
    second part alone: never the full payment, and in the second window
    exactly the second part at half the price. *)
Lemma first_part_running_options db now uid pid r plan :
  select_plan db pid = Some plan ->
  active_row db uid pid = Some r ->
  s_part_paid r = pp_first ->
  in_current_period r now ->
  s_end_ts r > time_time now ->
  map option_kind (get_payment_options db now uid pid)
  = options_for (p_price_cents plan) now true
  /\ (forall o, In o (get_payment_options db now uid pid) -> o_type o <> full)
  /\ (15 <= day now <= 20 ->
      map option_kind (get_payment_options db now uid pid)
      = [(second_part, p_price_cents plan / 2)]).
Proof.
  intros Hplan Hrow Hpp Hper Hend.
  assert (Hk : map option_kind (get_payment_options db now uid pid)
               = options_for (p_price_cents plan) now true).
  { rewrite get_payment_options_kinds. cbn zeta.
    destruct (check_running db now uid pid r Hrow Hend) as [-> ->].
    rewrite (period_is_true r now Hper).
    unfold sub_info_part_paid_is. rewrite Hpp, Hplan. reflexivity. }
  split; [exact Hk|]. split.
  - intros o Ho Hfull.
    assert (Hin : In (option_kind o) (options_for (p_price_cents plan) now true)).
    { rewrite <- Hk. apply in_map. exact Ho. }
    unfold option_kind in Hin. rewrite Hfull in Hin.
    unfold options_for in Hin.
    destruct (day now >=? 21), ((1 <=? day now) && (day now <=? 5)),
      ((15 <=? day now) && (day now <=? 20));
      cbn in Hin; destruct Hin as [Hin|[]]; discriminate Hin.
  - intros Hday. rewrite Hk. unfold options_for. split_cmp; reflexivity.
Qed.

(** Once the [end_ts] of the first-part row has passed, the row no longer
    counts: from day 15 to day 20 the full payment at the full price is the
    only option. *)
Lemma first_part_lapsed_options db now uid pid r plan :
  select_plan db pid = Some plan ->
  active_row db uid pid = Some r ->
  s_end_ts r <= time_time now ->
  15 <= day now <= 20 ->
  map option_kind (get_payment_options db now uid pid) = [(full, p_price_cents plan)].
Proof.
  intros Hplan Hrow Hend Hday.
  rewrite get_payment_options_kinds. cbn zeta.
  rewrite (check_lapsed db now uid pid r Hrow Hend), Hplan. cbn [andb].
  unfold options_for. split_cmp; reflexivity.
Qed.

(** The first part buys access until day 15, 23:59:59: on any later day of
    the same month that [end_ts] has passed. *)
Lemma first_part_end_ts_passed now0 now :
  year now = year now0 -> month now = month now0 ->
  16 <= day now -> 0 <= hour now -> 0 <= minute now -> 0 <= second now ->
  timestamp (mkdatetime (year now0) (month now0) 15 23 59 59) <= time_time now.
Proof.
  intros Hy Hm Hd Hh Hmi Hs.
  unfold time_time, timestamp, days_from_civil. cbn [year month day hour minute second].
  rewrite Hy, Hm. lia.
Qed.

Lemma days_before_year_step y : days_before_year y - days_before_year (y - 1) >= 365.
Proof. unfold days_before_year. Z.to_euclidean_division_equations; lia. Qed.

(** Day 5 of the next month lies at least two days after any day of the
    current month. *)
Lemma day5_next_month_days y m d :
  1 <= m <= 12 -> d <= 31 ->
  days_from_civil (snd (next_month (mkdatetime y m d 0 0 0)))
                  (fst (next_month (mkdatetime y m d 0 0 0))) 5
  - days_from_civil y m d >= 2.
Proof.
  intros Hm Hd. unfold next_month. cbn [month year].
  pose proof (days_before_year_step y) as Hstep.
  assert (Hcases : m = 1 \/ m = 2 \/ m = 3 \/ m = 4 \/ m = 5 \/ m = 6 \/ m = 7
                   \/ m = 8 \/ m = 9 \/ m = 10 \/ m = 11 \/ m = 12) by lia.
  unfold days_from_civil.
  repeat (destruct Hcases as [->|Hcases]); try subst m;
    cbn [Z.eqb Pos.eqb fst snd];
    repeat match goal with
      | |- context [days_before_month ?a] =>
          let v := eval vm_compute in (days_before_month a) in
          change (days_before_month a) with v
      end;
    repeat match goal with
      | |- context [?a <=? 2] =>
          let v := eval vm_compute in (a <=? 2) in change (a <=? 2) with v
      end;
    cbv iota; replace (y + 1 - 1) with y by lia; lia.
Qed.

(** The access a full payment buys outlasts the month it is paid in. *)
Lemma full_access_outlasts_period now0 now :
  year now = year now0 -> month now = month now0 -> valid_clock now ->
  timestamp (day5_next_month now0) > time_time now.
Proof.
  intros Hy Hm (Hmonth & Hday & Hh & Hmi & Hs).
  pose proof (day5_next_month_days (year now) (month now) (day now) Hmonth
                ltac:(lia)) as H.
  unfold day5_next_month, time_time, timestamp, next_month in *.
  cbn [year month day hour minute second fst snd] in *.
  rewrite <- Hy, <- Hm.
  destruct (month now =? 12); cbn [fst snd] in *; lia.
Qed.

(** ** The calendar *)

(** A year is 366 days long when it is a leap year, else 365. *)
Lemma days_before_year_leap y :
  days_before_year y - days_before_year (y - 1) = if is_leap y then 366 else 365.
Proof.
  unfold days_before_year, is_leap.
  destruct (Z.eqb_spec (y mod 4) 0), (Z.eqb_spec (y mod 100) 0), (Z.eqb_spec (y mod 400) 0);
    cbn [andb orb negb]; Z.to_euclidean_division_equations; lia.
Qed.

(** The first of the next month comes the days of the current month after
    the first of the current one. *)
Lemma next_month_start y m d h mi s :
  1 <= m <= 12 ->
  days_from_civil (snd (next_month (mkdatetime y m d h mi s)))
                  (fst (next_month (mkdatetime y m d h mi s))) 1
  = days_from_civil y m 1 + days_in_month y m.
Proof.
  intros Hm. unfold next_month. cbn [month year].
  pose proof (days_before_year_leap y) as Hleap.
  assert (Hcases : m = 1 \/ m = 2 \/ m = 3 \/ m = 4 \/ m = 5 \/ m = 6 \/ m = 7
                   \/ m = 8 \/ m = 9 \/ m = 10 \/ m = 11 \/ m = 12) by lia.
  unfold days_from_civil, days_in_month.
  repeat (destruct Hcases as [->|Hcases]); try subst m;
    cbn [Z.eqb Pos.eqb fst snd orb];
    repeat match goal with
      | |- context [days_before_month ?a] =>
          let v := eval vm_compute in (days_before_month a) in
          change (days_before_month a) with v
      end;
    repeat match goal with
      | |- context [?a <=? 2] =>
          let v := eval vm_compute in (a <=? 2) in change (a <=? 2) with v
      end;
    cbv iota; replace (y + 1 - 1) with y by lia;
    try destruct (is_leap y); lia.
Qed.


(** Day 5 of the month the code calls the next one is day 5 of the next
    calendar month. *)
Lemma day5_next_month_as_specified now :
  1 <= month now <= 12 ->
  timestamp (day5_next_month now) = day5_of_next_calendar_month now.
Proof.
  intros Hm.
  pose proof (next_month_start (year now) (month now) (day now) (hour now) (minute now)
                (second now) Hm) as Hstep.
  destruct now as [y m d h mi s]. cbn [year month day hour minute second] in *.
  unfold day5_of_next_calendar_month, day5_next_month, first_of_month, timestamp.
  cbn [year month day hour minute second].
  set (nm := next_month (mkdatetime y m d h mi s)) in *.
  unfold days_from_civil in *. lia.
Qed.

Lemma day15_this_month_as_specified now :
  timestamp (day15_this_month now) = day15_of_calendar_month now.
Proof.
  unfold day15_of_calendar_month, day15_this_month, first_of_month, timestamp, days_from_civil.
  cbn [year month day hour minute second]. lia.
Qed.







(** A row with the first part paid, as an activation writes it, is offered
    the full payment at the full price from day 16 to day 20 of its month. *)
Lemma first_part_row_offered_full_price db now uid pid r plan :
  select_plan db pid = Some plan ->
  active_row db uid pid = Some r ->
  in_current_period r now ->
  s_end_ts r = timestamp (day15_this_month now) ->
  valid_clock now ->
  16 <= day now <= 20 ->
  map option_kind (get_payment_options db now uid pid) = [(full, p_price_cents plan)].
Proof.
  intros Hplan Hrow _ Hend (_ & _ & Hh & Hmi & Hs) Hday.
  apply (first_part_lapsed_options db now uid pid r plan Hplan Hrow); [|lia].
  rewrite Hend. apply (first_part_end_ts_passed now now); lia.
Qed.

(** A row paid in full, as an activation writes it, suppresses every option
    for the rest of its month. *)
Lemma full_row_no_options_this_period db now0 now uid pid r :
  active_row db uid pid = Some r ->
  s_part_paid r = pp_full ->
  s_end_ts r = timestamp (day5_next_month now0) ->
  year now = year now0 -> month now = month now0 -> valid_clock now ->
  get_payment_options db now uid pid = [].
Proof.
  intros Hrow Hpp Hend Hy Hm Hclock.
  apply (full_paid_running_no_options db now uid pid r Hrow Hpp).
  rewrite Hend. apply full_access_outlasts_period; assumption.
Qed.

(** C1 at the failing input: user 42 pays the first part of the sample plan
    (price 1000) on 3 November 2026; the row is written with [part_paid =
    'first'] for November and access until 15 November.  On 17 November the
    row is still the active row of the pair and still says [first] for the
    current period, and the resolver offers the full payment at 1000, not the
    second part at 500.  The same is offered when the daily pass of 16
    November, 01:00 has run in between and has revoked the row. *)
Theorem C1_full_price_offered_after_first_part :
  let out :=
    activate_subscription sample_db (nov2026 3 10 0) (Some sample_link) 42 1 partial None in
  let db1 := snd (fst out) in
  let db2 := fst (check_expirations_pass db1 (nov2026 16 1 0)) in
  let now := nov2026 17 12 0 in
  fst (fst out) = Activated sample_link
  /\ (exists r, active_row db1 42 1 = Some r
                /\ s_part_paid r = pp_first
                /\ in_current_period r now
                /\ s_end_ts r = timestamp (mkdatetime 2026 11 15 23 59 59))
  /\ map option_kind (get_payment_options db1 now 42 1) = [(full, 1000)]
  /\ map option_kind (get_payment_options db2 now 42 1) = [(full, 1000)].
Proof.
  cbv zeta. split; [vm_compute; reflexivity|]. split.
  - eexists. split; [vm_compute; reflexivity|]. repeat split; reflexivity.
  - split; vm_compute; reflexivity.
Qed.

(** ** Activation *)

Lemma latest_by_end_ts_in rows : forall best r,
  latest_by_end_ts best rows = Some r -> best = Some r \/ In r rows.
Proof.
  induction rows as [|x rest IH]; intros best r H; cbn in H.
  - left. exact H.
  - destruct best as [b|].
    + destruct (s_end_ts x >? s_end_ts b).
      * destruct (IH _ _ H) as [E|E]; [injection E as ->; right; left; reflexivity
                                      |right; right; exact E].
      * destruct (IH _ _ H) as [E|E]; [left; exact E | right; right; exact E].
    + destruct (IH _ _ H) as [E|E]; [injection E as ->; right; left; reflexivity
                                    |right; right; exact E].
Qed.

(** The row a lookup returns is a row of the table, of that user, plan and
    activity flag. *)
Lemma select_subscription_sound db uid pid act r :
  select_subscription db uid pid act = Some r ->
  In r (subscriptions db) /\ s_user_id r = uid /\ s_plan_id r = pid /\ s_active r = act.
Proof.
  unfold select_subscription. intros H.
  destruct (latest_by_end_ts_in _ _ _ H) as [E|E]; [discriminate E|].
  apply filter_In in E. destruct E as [Hin Hf].
  apply andb_true_iff in Hf. destruct Hf as [Hf Ha].
  apply andb_true_iff in Hf. destruct Hf as [Hu Hp].
  repeat split; [exact Hin | | |]; apply Z.eqb_eq; assumption.
Qed.

Lemma end_ts_and_part_paid_eq now payment_type has_existing existing_end_ts start_ts :
  end_ts_and_part_paid now payment_type has_existing existing_end_ts start_ts
  = match payment_type with
    | partial => Some (timestamp (day15_this_month now), pp_first)
    | renewal => None
    | _ => Some (timestamp (day5_next_month now), pp_full)
    end.
Proof.
  unfold end_ts_and_part_paid, day5_next_month, day15_this_month.
  destruct payment_type, (next_month now) as [m y],
    (has_existing && (existing_end_ts >? start_ts)); reflexivity.
Qed.

(** The table a successful activation leaves behind. *)
Lemma activate_subscription_success db now invite uid pid payment_type gid link db' sent :
  activate_subscription db now invite uid pid payment_type gid = (Activated link, db', sent) ->
  exists plan end_ts part_paid,
    select_plan db pid = Some plan
    /\ invite = Some link
    /\ end_ts_and_part_paid now payment_type
         (match active_row db uid pid with Some _ => true | None => false end)
         (existing_end_ts_of db uid pid (active_row db uid pid) (month now) (year now)
            (time_time now))
         (time_time now) = Some (end_ts, part_paid)
    /\ subscriptions db'
       = match active_row db uid pid with
         | Some e =>
             if period_is e (month now) (year now)
             then update_current_period (subscriptions db) (s_id e) payment_type part_paid
                    end_ts link
             else update_new_period (subscriptions db) (s_id e) payment_type part_paid
                    (month now) (year now) end_ts link
         | None =>
             subscriptions db ++
             [mkSubscription (subscriptions_seq db + 1) uid pid (time_time now) end_ts 1
                (Some link) 0
                (if truthy (p_group_id plan) then p_group_id plan else gid)
                payment_type (month now) (year now) part_paid (Some end_ts)]
         end.
Proof.
  unfold activate_subscription, active_row, get_current_period.
  destruct (select_plan db pid) as [plan|]; [|discriminate].
  destruct (negb (truthy (if truthy (p_group_id plan) then p_group_id plan else gid)));
    [discriminate|].
  destruct invite as [l|]; cbn [truthy_str negb]; [|discriminate].
  destruct l as [|c l]; cbn [negb]; [discriminate|].
  destruct (end_ts_and_part_paid now payment_type _ _ _) as [[end_ts part_paid]|] eqn:Hb;
    [|discriminate].
  intros H. exists plan, end_ts, part_paid.
  destruct (select_subscription db uid pid 1) as [e|].
  - destruct (period_is e (month now) (year now));
      injection H as <- <- _; repeat split; reflexivity.
  - injection H as <- <- _; repeat split; reflexivity.
Qed.

Lemma rules_of_bound now payment_type has_existing existing_end_ts start_ts end_ts part_paid r :
  end_ts_and_part_paid now payment_type has_existing existing_end_ts start_ts
  = Some (end_ts, part_paid) ->
  s_end_ts r = end_ts -> s_part_paid r = part_paid ->
  as_activation_rules now payment_type r.
Proof.
  rewrite end_ts_and_part_paid_eq. unfold as_activation_rules.
  destruct payment_type; intros H He Hp;
    try exact I; injection H as <- <-; split; assumption.
Qed.

(** After a successful activation the row of the pair is active and carries
    the payment type, and every row the call has written has the [end_ts]
    and [part_paid] the function computes for the payment type. *)
Lemma activation_committed_rows db now invite uid pid payment_type gid link db' sent :
  activate_subscription db now invite uid pid payment_type gid = (Activated link, db', sent) ->
  (exists r, In r (subscriptions db')
             /\ s_user_id r = uid /\ s_plan_id r = pid /\ s_active r = 1
             /\ s_payment_type r = payment_type
             /\ as_activation_rules now payment_type r)
  /\ (forall r, committed db db' r -> as_activation_rules now payment_type r).
Proof.
  intros H.
  destruct (activate_subscription_success _ _ _ _ _ _ _ _ _ _ H)
    as (plan & end_ts & part_paid & Hplan & Hinv & Hb & Hrows).
  pose proof (fun r => rules_of_bound _ _ _ _ _ _ _ r Hb) as Hrules.
  destruct (active_row db uid pid) as [e|] eqn:He.
  - destruct (select_subscription_sound _ _ _ _ _ He) as (Hin & Hu & Hp & _).
    destruct (period_is e (month now) (year now)).
    + split.
      * exists (mkSubscription (s_id e) (s_user_id e) (s_plan_id e) (s_start_ts e) end_ts 1
                  (Some link) 0 (s_group_id e) payment_type
                  (s_current_period_month e) (s_current_period_year e) part_paid
                  (s_next_payment_date e)).
        rewrite Hrows. split.
        { unfold update_current_period. apply in_map_iff. exists e.
          rewrite Z.eqb_refl. split; [reflexivity | exact Hin]. }
        cbn. repeat split; try assumption. apply Hrules; reflexivity.
      * intros r [Hr Hnew]. rewrite Hrows in Hr. unfold update_current_period in Hr.
        apply in_map_iff in Hr. destruct Hr as (s & Hs & Hsin).
        destruct (s_id s =? s_id e); [|subst r; contradiction].
        subst r. apply Hrules; reflexivity.
    + split.
      * exists (mkSubscription (s_id e) (s_user_id e) (s_plan_id e) (s_start_ts e) end_ts 1
                  (Some link) 0 (s_group_id e) payment_type
                  (month now) (year now) part_paid (s_next_payment_date e)).
        rewrite Hrows. split.
        { unfold update_new_period. apply in_map_iff. exists e.
          rewrite Z.eqb_refl. split; [reflexivity | exact Hin]. }
        cbn. repeat split; try assumption. apply Hrules; reflexivity.
      * intros r [Hr Hnew]. rewrite Hrows in Hr. unfold update_new_period in Hr.
        apply in_map_iff in Hr. destruct Hr as (s & Hs & Hsin).
        destruct (s_id s =? s_id e); [|subst r; contradiction].
        subst r. apply Hrules; reflexivity.
  - split.
    + eexists. rewrite Hrows. split; [apply in_or_app; right; left; reflexivity|].
      cbn. repeat split. apply Hrules; reflexivity.
    + intros r [Hr Hnew]. rewrite Hrows in Hr. apply in_app_or in Hr.
      destruct Hr as [Hr|[Hr|[]]]; [contradiction|].
      subst r. apply Hrules; reflexivity.
Qed.

(** The ends the function computes are those of the specification: day 15
    of the current calendar month, and day 5 of the next calendar month. *)
Lemma rules_as_specified now payment_type r :
  1 <= month now <= 12 ->
  as_activation_rules now payment_type r -> ends_as_specified now payment_type r.
Proof.
  intros Hm. unfold as_activation_rules, ends_as_specified.
  rewrite <- day5_next_month_as_specified by exact Hm.
  rewrite <- day15_this_month_as_specified.
  destruct payment_type; exact (fun H => H).
Qed.

(** The calendar count against known dates: from any day of November 2026
    to 5 December 2026, of December 2026 to 5 January 2027, of February 2024
    (29 days) to 5 March 2024 and of February 2026 (28 days) to 5 March 2026,
    each at 23:59:59 Minsk time. *)
Example day5_of_next_calendar_month_dates :
  day5_of_next_calendar_month (mkdatetime 2026 11 3 10 0 0) = 1796504399
  /\ day5_of_next_calendar_month (mkdatetime 2026 12 31 23 59 59) = 1799182799
  /\ day5_of_next_calendar_month (mkdatetime 2024 2 29 12 0 0) = 1709672399
  /\ day5_of_next_calendar_month (mkdatetime 2026 2 1 0 0 0) = 1772744399.
Proof. repeat split; reflexivity. Qed.

(** C4: after a successful activation the row of the pair is active and
    carries the payment type, and every row the call has written ends on day
    15 of the current calendar month at 23:59:59 with [part_paid = 'first']
    for [partial], and on day 5 of the next calendar month at 23:59:59 with
    [part_paid = 'full'] for [full], [full_anytime], [half_month],
    [second_part] and [second_part_late].  The ends are counted on the
    calendar from the first of the current month: 15 days less a second, and
    the days of the current month and 5 more less a second. *)
Theorem C4_committed_row_by_payment_type db now invite uid pid payment_type gid link db' sent :
  1 <= month now <= 12 ->
  activate_subscription db now invite uid pid payment_type gid = (Activated link, db', sent) ->
  (exists r, In r (subscriptions db')
             /\ s_user_id r = uid /\ s_plan_id r = pid /\ s_active r = 1
             /\ s_payment_type r = payment_type
             /\ ends_as_specified now payment_type r)
  /\ (forall r, committed db db' r -> ends_as_specified now payment_type r).
Proof.
  intros Hm H.
  destruct (activation_committed_rows _ _ _ _ _ _ _ _ _ _ H) as [(r & Hr) Hall].
  split.
  - exists r. destruct Hr as (Hin & Hu & Hp & Ha & Ht & Hrules).
    repeat split; try assumption. apply rules_as_specified; assumption.
  - intros r' Hr'. apply rules_as_specified; [exact Hm | apply Hall; exact Hr'].
Qed.

(** An activation goes through whenever the plan exists, a target group
    resolves, the invite link is issued and the payment type is one the
    function computes an end for. *)
Lemma activate_subscription_succeeds db now link uid pid payment_type gid plan :
  select_plan db pid = Some plan ->
  truthy (if truthy (p_group_id plan) then p_group_id plan else gid) = true ->
  link <> EmptyString ->
  payment_type <> renewal ->
  fst (fst (activate_subscription db now (Some link) uid pid payment_type gid))
  = Activated link.
Proof.
  intros Hplan Hg Hl Hpt. unfold activate_subscription, get_current_period.
  rewrite Hplan, Hg. cbn [negb].
  destruct link as [|c l]; [contradiction|]. cbn [truthy_str negb].
  rewrite end_ts_and_part_paid_eq.
  destruct payment_type; try contradiction;
    destruct (select_subscription db uid pid 1) as [e|];
    try destruct (period_is e (month now) (year now)); reflexivity.
Qed.

Lemma C4_committed_row_by_payment_type_witness :
  exists r,
    In r (subscriptions
            (snd (fst (activate_subscription sample_db (nov2026 3 10 0) (Some sample_link)
                         42 1 full None))))
    /\ s_user_id r = 42 /\ s_plan_id r = 1 /\ s_active r = 1
    /\ s_payment_type r = full
    /\ ends_as_specified (nov2026 3 10 0) full r.
Proof.
  exact (proj1 (C4_committed_row_by_payment_type sample_db (nov2026 3 10 0)
                  (Some sample_link) 42 1 full None sample_link _ _
                  ltac:(cbn; lia) eq_refl)).
Defined.

(** C6: an activation that fails leaves the database as it was.  Without a
    target group (neither the plan's nor the caller's) the call is refused
    before anything is sent or written; when the invite link is not issued
    the call is refused after the two requests to Telegram, with no row
    written. *)
Theorem C6_failed_activation_changes_nothing db now invite uid pid payment_type gid plan :
  select_plan db pid = Some plan ->
  (truthy (if truthy (p_group_id plan) then p_group_id plan else gid) = false ->
   activate_subscription db now invite uid pid payment_type gid
   = (Refused "Не указана группа для подписки", db, []))
  /\ (truthy (if truthy (p_group_id plan) then p_group_id plan else gid) = true ->
      truthy_str invite = false ->
      fst (activate_subscription db now invite uid pid payment_type gid)
      = (Refused "Не удалось создать пригласительную ссылку", db)).
Proof.
  intros Hplan. unfold activate_subscription, get_current_period. rewrite Hplan.
  split.
  - intros ->. reflexivity.
  - intros -> ->. reflexivity.
Qed.

Lemma C6_failed_activation_changes_nothing_witness :
  activate_subscription sample_db_no_group (nov2026 17 12 0) (Some sample_link) 42 1
    second_part None
  = (Refused "Не указана группа для подписки", sample_db_no_group, [])
  /\ fst (activate_subscription sample_db (nov2026 17 12 0) None 42 1 second_part None)
     = (Refused "Не удалось создать пригласительную ссылку", sample_db).
Proof.
  split.
  - apply (proj1 (C6_failed_activation_changes_nothing sample_db_no_group (nov2026 17 12 0)
                    (Some sample_link) 42 1 second_part None
                    (mkPlan 1 (Some "Python")%string 1000 None) eq_refl)).
    reflexivity.
  - apply (proj2 (C6_failed_activation_changes_nothing sample_db (nov2026 17 12 0)
                    None 42 1 second_part None sample_plan eq_refl));
      reflexivity.
Defined.

(** Whatever the outcome, only a successful activation writes. *)
Lemma activate_subscription_writes_only_on_success db now invite uid pid payment_type gid :
  (forall link,
     fst (fst (activate_subscription db now invite uid pid payment_type gid))
     <> Activated link) ->
  snd (fst (activate_subscription db now invite uid pid payment_type gid)) = db.
Proof.
  unfold activate_subscription, get_current_period.
  destruct (select_plan db pid) as [plan|]; [|reflexivity].
  destruct (negb (truthy _)); [reflexivity|].
  destruct (negb (truthy_str invite)); [reflexivity|].
  destruct (end_ts_and_part_paid _ _ _ _ _) as [[end_ts part_paid]|]; [|reflexivity].
  destruct (select_subscription db uid pid 1) as [e|];
    [destruct (period_is e (month now) (year now))|];
    intros H; exfalso; exact (H _ eq_refl).
Qed.

(** The end an activation computes takes nothing from the row it renews:
    with or without an existing row, whatever its [end_ts], the result is the
    same. *)
Lemma end_ts_ignores_existing_row now payment_type b1 e1 b2 e2 start_ts :
  end_ts_and_part_paid now payment_type b1 e1 start_ts
  = end_ts_and_part_paid now payment_type b2 e2 start_ts.
Proof. rewrite !end_ts_and_part_paid_eq. reflexivity. Qed.

(** ** Promo codes *)

(** The values the creation dialogue accepts are not negative. *)
Lemma handle_promo_value_not_negative percent_type value percent fixed code :
  handle_promo_value percent_type value = Some (percent, fixed) ->
  discount_not_negative (mkPromoCode 0 code (Some percent) (Some fixed) 1 0 None None).
Proof.
  unfold handle_promo_value, discount_not_negative. cbn.
  destruct percent_type.
  - destruct (Z.leb_spec value 0) as [Hle|Hgt]; cbn; [discriminate|].
    destruct (value >? 100); [discriminate|]. intros E. injection E as <- <-. lia.
  - destruct (Z.leb_spec value 0) as [Hle|Hgt]; [discriminate|].
    intros E. injection E as <- <-. lia.
Qed.

Lemma round_half_even_bounds n d :
  0 <= n -> 0 < d ->
  n / d <= round_half_even n d <= n / d + 1
  /\ (round_half_even n d = n / d + 1 -> d <= 2 * (n mod d)).
Proof.
  intros Hn Hd. unfold round_half_even.
  destruct (Z.ltb_spec (2 * (n mod d)) d); [lia|].
  destruct (Z.ltb_spec d (2 * (n mod d))); [lia|].
  destruct (Z.even (n / d)); lia.
Qed.

Lemma round_half_even_nonneg n d : 0 <= n -> 0 < d -> 0 <= round_half_even n d.
Proof.
  intros Hn Hd. destruct (round_half_even_bounds n d Hn Hd) as [[H _] _].
  pose proof (Z.div_pos n d Hn Hd). lia.
Qed.

Lemma int_div_100_nonneg p : 0 <= p -> 0 <= int_div_100 p.
Proof.
  intros Hp. unfold int_div_100.
  destruct (p <? 100); [lia|].
  destruct (Z.leb_spec (Z.log2 (p / 100)) 52) as [Hk|Hk].
  - assert (HP : 0 < 2 ^ (52 - Z.log2 (p / 100))) by (apply Z.pow_pos_nonneg; lia).
    apply Z.div_pos; [|exact HP].
    apply round_half_even_nonneg; nia.
  - assert (HP : 0 < 2 ^ (Z.log2 (p / 100) - 52)) by (apply Z.pow_pos_nonneg; lia).
    assert (0 <= round_half_even p (100 * 2 ^ (Z.log2 (p / 100) - 52)))
      by (apply round_half_even_nonneg; lia).
    nia.
Qed.

(** Below [100 * 2^47] the doubles lie closer than a fiftieth apart, the
    rounded quotient stays under the next integer, and [int(p / 100)] is the
    floor of the quotient. *)
Lemma int_div_100_exact p : 0 <= p < 100 * 2 ^ 47 -> int_div_100 p = p / 100.
Proof.
  intros [Hp Hlt]. unfold int_div_100.
  destruct (Z.ltb_spec p 100) as [Hs|Hs]; [symmetry; apply Z.div_small; lia|].
  assert (Hq1 : 1 <= p / 100) by (apply Z.div_le_lower_bound; lia).
  assert (Hq2 : p / 100 < 2 ^ 47) by (apply Z.div_lt_upper_bound; lia).
  assert (Hk : Z.log2 (p / 100) < 47) by (apply Z.log2_lt_pow2; lia).
  pose proof (Z.log2_nonneg (p / 100)) as Hk0.
  destruct (Z.leb_spec (Z.log2 (p / 100)) 52) as [_|]; [|lia].
  set (P := 2 ^ (52 - Z.log2 (p / 100))).
  assert (HP : 2 ^ 6 <= P) by (apply Z.pow_le_mono_r; lia).
  change (2 ^ 6) with 64 in HP.
  destruct (round_half_even_bounds (p * P) 100 ltac:(nia) ltac:(lia)) as [[Hlo Hhi] Hup].
  set (m := round_half_even (p * P) 100) in *.
  pose proof (Z.div_mod p 100 ltac:(lia)) as Ep.
  pose proof (Z.mod_pos_bound p 100 ltac:(lia)) as Rp.
  pose proof (Z.div_mod (p * P) 100 ltac:(lia)) as En.
  pose proof (Z.mod_pos_bound (p * P) 100 ltac:(lia)) as Rn.
  set (q0 := p / 100) in *. set (r0 := p mod 100) in *.
  set (f := p * P / 100) in *. set (r := (p * P) mod 100) in *.
  assert (EA : p * P = 100 * (q0 * P) + r0 * P) by (rewrite Ep; ring).
  assert (HB : 0 <= r0 * P <= 99 * P) by nia.
  set (A := q0 * P) in *. set (B := r0 * P) in *.
  assert (Hm : A <= m < A + P).
  { split; [lia|].
    destruct (Z.eq_dec m (f + 1)) as [E|E]; [specialize (Hup E)|]; lia. }
  symmetry. apply (Z.div_unique m P q0 (m - A)); [lia|]. unfold A. ring.
Qed.

(** The bound is the least one: at [100 * 2^47 + 99] the doubles lie 1/32
    apart and the quotient, 99 hundredths above [2^47], is rounded up. *)
Example int_div_100_above_bound :
  int_div_100 (100 * 2 ^ 47 + 99) = 2 ^ 47 + 1
  /\ (100 * 2 ^ 47 + 99) / 100 = 2 ^ 47.
Proof. split; vm_compute; reflexivity. Qed.

(** For a price that is not negative and a code whose discount fields are
    not negative, the result of [apply_promo_code] is neither negative nor
    above the price. *)
Lemma apply_promo_code_bounds price promo :
  0 <= price ->
  discount_not_negative promo ->
  0 <= fst (apply_promo_code price promo) <= price.
Proof.
  intros Hprice [Hpct Hfix].
  unfold apply_promo_code, int_percent_of, truthy.
  destruct (pc_discount_percent promo) as [pct|].
  - destruct (Z.eqb_spec pct 0) as [->|Hnz]; cbn [negb fst].
    + destruct (pc_discount_fixed_cents promo) as [fx|]; cbn [fst].
      * destruct (Z.eqb_spec fx 0) as [->|Hfz]; cbn [negb fst]; lia.
      * lia.
    + assert (Hprod : 0 <= price * pct) by nia.
      destruct (Z.ltb_spec (price * pct) 0); [lia|].
      pose proof (int_div_100_nonneg (price * pct) Hprod). lia.
  - destruct (pc_discount_fixed_cents promo) as [fx|]; cbn [fst].
    + destruct (Z.eqb_spec fx 0) as [->|Hfz]; cbn [negb fst]; lia.
    + lia.
Qed.

(** While [price * percent] stays below [100 * 2^47], [apply_promo_code]
    returns what the specification says: the price less the discount and not
    below zero, the discount being the floor of [price * percent / 100] for a
    percent code and the fixed amount for a fixed code. *)
Lemma apply_promo_code_as_specified price promo :
  0 <= price ->
  discount_not_negative promo ->
  (forall percent, pc_discount_percent promo = Some percent ->
                   price * percent < 100 * 2 ^ 47) ->
  fst (apply_promo_code price promo) = apply_as_specified price promo.
Proof.
  intros Hprice [Hpct Hfix] Hbound.
  unfold apply_promo_code, apply_as_specified, int_percent_of, truthy.
  destruct (pc_discount_percent promo) as [pct|].
  - destruct (Z.eqb_spec pct 0) as [->|Hnz]; cbn [negb fst].
    + destruct (pc_discount_fixed_cents promo) as [fx|]; cbn [fst].
      * destruct (Z.eqb_spec fx 0) as [->|Hfz]; cbn [negb fst]; lia.
      * lia.
    + assert (Hprod : 0 <= price * pct) by nia.
      destruct (Z.ltb_spec (price * pct) 0); [lia|].
      rewrite int_div_100_exact by (split; [exact Hprod | apply Hbound; reflexivity]).
      reflexivity.
  - destruct (pc_discount_fixed_cents promo) as [fx|]; cbn [fst].
    + destruct (Z.eqb_spec fx 0) as [->|Hfz]; cbn [negb fst]; lia.
    + lia.
Qed.

(** The two examples of the specification: 10% off 1000 and 150 off 1000. *)
Example apply_promo_code_examples :
  fst (apply_promo_code 1000 sample_percent_code) = 900
  /\ fst (apply_promo_code 1000 sample_fixed_code) = 850.
Proof. split; reflexivity. Qed.

(** C8 at the failing input: a plan priced 200000000000001 minor units and
    a code of 99 percent.  The product 19800000000000099 divided by 100 is
    198000000000000.99; the doubles of that size lie 1/32 apart, so the true
    division rounds it to 198000000000001.0, [int] gives 198000000000001, and
    the price returned is 2000000000000.  The specification takes the floor
    198000000000000 as the discount and gives 2000000000001. *)
Theorem C8_percent_discount_rounds_up :
  let price := 200000000000001 in
  let promo := sample_percent_99 in
  0 <= price
  /\ discount_not_negative promo
  /\ int_percent_of price 99 = 198000000000001
  /\ price * 99 / 100 = 198000000000000
  /\ fst (apply_promo_code price promo) = 2000000000000
  /\ apply_as_specified price promo = 2000000000001.
Proof.
  cbv zeta. split; [lia|]. split; [split; cbn; lia|].
  repeat split; vm_compute; reflexivity.
Qed.

(** Recording a usage appends a row for the pair, whether or not the pair
    has one already. *)
Lemma record_promo_usage_appends db now promo_id user_id :
  usage_count (record_promo_usage db now promo_id user_id) promo_id user_id
  = S (usage_count db promo_id user_id).
Proof.
  unfold usage_count, select_promo_usage, record_promo_usage. cbn [promo_usage].
  rewrite filter_app, length_app. cbn. rewrite !Z.eqb_refl. cbn. lia.
Qed.

(** [can_use_promo_code] does refuse a code the user has a usage row for. *)
Lemma can_use_promo_code_refuses_used db now promo_id user_id :
  (usage_count db promo_id user_id > 0)%nat ->
  fst (can_use_promo_code db now promo_id user_id) = false.
Proof.
  unfold usage_count, can_use_promo_code.
  destruct (select_promo_usage db promo_id user_id); cbn; [lia | reflexivity].
Qed.

(** C9 at the failing input: user 42 has two pending manual payments that
    carry promo 7, both entered while [can_use_promo_code] still allowed the
    code.  The administrator approves both; each approval records a usage,
    and the pair (7, 42) ends with two usage rows and a counter of 2.  Two
    card payments with the same promo do the same through [got_payment]. *)
Theorem C9_promo_usage_recorded_twice :
  let admins := [1000] in
  let db0 := sample_db_two_pending in
  let db1 := fst (callback_approve_payment admins db0 (nov2026 3 10 0)
                    (Some sample_link) 1000 1) in
  let db2 := fst (callback_approve_payment admins db1 (nov2026 3 11 0)
                    (Some sample_link) 1000 2) in
  let db2' := fst (got_payment
                     (fst (got_payment sample_db_promo (nov2026 3 10 0) (Some sample_link)
                             42 sample_payload))
                     (nov2026 3 11 0) (Some sample_link) 42 sample_payload) in
  can_use_promo_code db0 (nov2026 3 9 0) 7 42 = (true, "OK"%string)
  /\ usage_count db0 7 42 = 0%nat
  /\ usage_count db1 7 42 = 1%nat
  /\ usage_count db2 7 42 = 2%nat
  /\ map pc_used_count (promo_codes db2) = [2]
  /\ usage_count db2' 7 42 = 2%nat.
Proof.
  vm_compute. repeat split; reflexivity.
Qed.

(** ** Expiration sweep *)








Lemma select_first_part_only_iff db now s :
  In s (select_first_part_only db (month now) (year now))
  <-> In s (subscriptions db) /\ first_part_only db now s.
Proof.
  unfold select_first_part_only, first_part_only, in_current_period.
  rewrite filter_In, !andb_true_iff, !Z.eqb_eq.
  destruct (s_payment_type s), (s_part_paid s); cbn; intuition congruence.
Qed.

(** SQLite refuses the texts of the day-6 and the day-21 statement, which
    carry a [#] after the [part_paid] condition, and takes the daily one. *)
Lemma sweep_statements rows :
  execute day6_statement rows = OperationalError
  /\ execute day21_statement rows = OperationalError
  /\ execute daily_statement rows = Rows rows.
Proof.
  unfold execute.
  assert (H6 : unrecognized_token false day6_statement = true) by (vm_compute; reflexivity).
  assert (H21 : unrecognized_token false day21_statement = true) by (vm_compute; reflexivity).
  assert (H1 : unrecognized_token false daily_statement = false) by (vm_compute; reflexivity).
  rewrite H6, H21, H1. repeat split.
Qed.

(** On day 21 at 00:00 the statement of the sweep raises, and the pass ends
    with the database as it was and nothing sent, whatever rows there are. *)
Lemma day_21_pass_does_nothing db now :
  day now = 21 -> hour now = 0 -> minute now = 0 ->
  check_expirations_pass db now = (db, []).
Proof.
  intros Hd Hh Hm.
  unfold check_expirations_pass, get_current_period. rewrite Hd, Hh, Hm.
  cbn [Z.eqb andb]. change ((21 =? 6) && true && true) with false. cbn iota.
  change (Pos.eqb 21 21) with true. cbn iota.
  destruct (sweep_statements (select_first_part_only db (month now) (year now)))
    as (_ & -> & _).
  reflexivity.
Qed.

(** C7 at the failing input: user 42 pays the first part of the sample plan
    on 3 November 2026 and nothing more.  On 21 November at 00:00 the row is
    still active, with [payment_type = 'partial'] and [part_paid = 'first']
    for November, its plan and user exist and it has a group: it meets every
    condition of the sweep's statement.  The pass leaves the database as it
    was and requests no ban: the statement is refused by SQLite for the [#]
    in its text, and the exception ends the pass. *)
Theorem C7_day_21_sweep_revokes_nothing :
  let out :=
    activate_subscription sample_db (nov2026 3 10 0) (Some sample_link) 42 1 partial None in
  let db1 := snd (fst out) in
  let now := nov2026 21 0 0 in
  fst (fst out) = Activated sample_link
  /\ (exists s, subscriptions db1 = [s]
                /\ first_part_only db1 now s
                /\ In s (select_first_part_only db1 (month now) (year now))
                /\ truthy (s_group_id s) = true)
  /\ execute day21_statement (select_first_part_only db1 (month now) (year now))
     = OperationalError
  /\ check_expirations_pass db1 now = (db1, []).
Proof.
  cbv zeta. split; [vm_compute; reflexivity|]. split; [|split].
  - eexists. split; [vm_compute; reflexivity|].
    split; [repeat split; reflexivity|]. split; [vm_compute; left; reflexivity | reflexivity].
  - apply sweep_statements.
  - apply day_21_pass_does_nothing; reflexivity.
Qed.


(** * Properties of the further functions *)

(** ** Texts and numbers *)

Lemma string_forallb_impl (p q : ascii -> bool) s :
  (forall c, p c = true -> q c = true) ->
  string_forallb p s = true -> string_forallb q s = true.
Proof.
  intros Hpq. induction s as [|c r IH]; cbn; [reflexivity|].
  intros H. apply andb_true_iff in H. destruct H as [Hc Hr].
  rewrite (Hpq c Hc), (IH Hr). reflexivity.
Qed.

Lemma string_forallb_app p s t :
  string_forallb p (s ++ t) = string_forallb p s && string_forallb p t.
Proof.
  induction s as [|c r IH]; cbn; [reflexivity|]. rewrite IH, andb_assoc. reflexivity.
Qed.

Lemma rstrip_no_space s :
  string_forallb (fun c => negb (is_space c)) s = true -> rstrip s = s.
Proof.
  induction s as [|c r IH]; cbn; [reflexivity|].
  intros H. apply andb_true_iff in H. destruct H as [Hc Hr].
  rewrite (IH Hr). destruct r; [|reflexivity].
  apply negb_true_iff in Hc. rewrite Hc. reflexivity.
Qed.

(** A text without whitespace is its own [strip()]. *)
Lemma strip_no_space s :
  string_forallb (fun c => negb (is_space c)) s = true -> strip s = s.
Proof.
  intros H. unfold strip.
  assert (Hl : lstrip s = s).
  { destruct s as [|c r]; [reflexivity|]. cbn in *.
    apply andb_true_iff in H. destruct H as [Hc _].
    apply negb_true_iff in Hc. rewrite Hc. reflexivity. }
  rewrite Hl. apply rstrip_no_space. exact H.
Qed.

Lemma digit_facts c :
  is_digit c = true ->
  is_space c = false /\ Ascii.eqb c "-" = false /\ Ascii.eqb c "+" = false
  /\ Ascii.eqb c "_" = false /\ Ascii.eqb c "." = false /\ Ascii.eqb c ":" = false.
Proof.
  intros H.
  repeat split;
    try (destruct (Ascii.eqb_spec c "-") as [->|]; [discriminate H | reflexivity]);
    try (destruct (Ascii.eqb_spec c "+") as [->|]; [discriminate H | reflexivity]);
    try (destruct (Ascii.eqb_spec c "_") as [->|]; [discriminate H | reflexivity]);
    try (destruct (Ascii.eqb_spec c ".") as [->|]; [discriminate H | reflexivity]);
    try (destruct (Ascii.eqb_spec c ":") as [->|]; [discriminate H | reflexivity]).
  unfold is_digit, is_space in *.
  destruct (nat_of_ascii c) as [|n]; [discriminate H|].
  apply andb_true_iff in H. destruct H as [H1 H2].
  apply Nat.leb_le in H1. apply Nat.leb_le in H2.
  apply orb_false_iff. split; apply andb_false_iff.
  - right. apply Nat.leb_gt. lia.
  - right. apply Nat.leb_gt. lia.
Qed.

Lemma digits_of_digits s :
  string_forallb is_digit s = true ->
  digits_of true s = Some s /\ (s <> EmptyString -> digits_of false s = Some s).
Proof.
  induction s as [|c r IH]; cbn.
  - intros _. split; [reflexivity | intros H; contradiction].
  - intros H. apply andb_true_iff in H. destruct H as [Hc Hr].
    rewrite Hc. destruct (IH Hr) as [-> _]. split; [reflexivity | intros _; reflexivity].
Qed.

Lemma string_of_uint_digits u :
  string_forallb is_digit (NilEmpty.string_of_uint u) = true.
Proof. induction u; cbn; try rewrite IHu; reflexivity. Qed.

(** The text [str] prints for a natural number is a non-empty run of
    digits, and reads back as that number. *)
Lemma string_of_uint_facts u :
  let s := NilZero.string_of_uint u in
  string_forallb is_digit s = true
  /\ s <> EmptyString
  /\ exists u', NilZero.uint_of_string s = Some u' /\ Z.of_uint u' = Z.of_uint u.
Proof.
  cbn zeta. destruct u;
    try (split; [exact (string_of_uint_digits _)|]; split; [discriminate|];
         eexists; split; [apply NilZero.usu; discriminate | reflexivity]).
  split; [reflexivity|]. split; [discriminate|].
  eexists. split; reflexivity.
Qed.

(** [str_int] prints an optional minus sign and digits. *)
Lemma str_int_shape n :
  exists d, string_forallb is_digit d = true /\ d <> EmptyString
            /\ (str_int n = d \/ str_int n = String "-" d).
Proof.
  unfold str_int. destruct (Z.to_int n) as [u|u]; cbn [NilZero.string_of_int];
    destruct (string_of_uint_facts u) as (Hd & Hne & _);
    exists (NilZero.string_of_uint u); auto.
Qed.

Lemma str_int_plain n : string_forallb plain (str_int n) = true.
Proof.
  destruct (str_int_shape n) as (d & Hd & _ & [-> | ->]); cbn;
    apply (string_forallb_impl is_digit plain); try exact Hd;
    intros c Hc; unfold plain; rewrite Hc; reflexivity.
Qed.

Lemma plain_facts c :
  plain c = true ->
  is_space c = false /\ Ascii.eqb c "." = false /\ Ascii.eqb c ":" = false.
Proof.
  unfold plain. intros H. apply orb_true_iff in H. destruct H as [H|H].
  - destruct (digit_facts c H) as (H1 & _ & _ & _ & H2 & H3). auto.
  - apply Ascii.eqb_eq in H. subst c. repeat split; reflexivity.
Qed.

(** [int(str(n)) == n]. *)
Lemma python_int_str_int n : python_int (str_int n) = Some n.
Proof.
  unfold python_int.
  rewrite strip_no_space.
  2:{ apply (string_forallb_impl plain); [|apply str_int_plain].
      intros c Hc. destruct (plain_facts c Hc) as (-> & _). reflexivity. }
  rewrite <- (DecimalZ.of_to n) at 2.
  unfold str_int. destruct (Z.to_int n) as [u|u]; cbn [NilZero.string_of_int];
    destruct (string_of_uint_facts u) as (Hd & Hne & u' & Hu & Hz).
  - destruct (NilZero.string_of_uint u) as [|c r] eqn:Hs; [contradiction|].
    assert (Hc : is_digit c = true)
      by (cbn in Hd; apply andb_true_iff in Hd; tauto).
    destruct (digit_facts c Hc) as (_ & -> & -> & _).
    unfold uint_of_digits.
    destruct (digits_of_digits _ Hd) as [_ Hf]. rewrite (Hf ltac:(discriminate)).
    rewrite Hu. cbn. rewrite Hz. reflexivity.
  - cbn [Ascii.eqb]. change (Ascii.eqb "-" "-") with true. cbn iota.
    unfold uint_of_digits.
    destruct (digits_of_digits _ Hd) as [_ Hf]. rewrite (Hf Hne).
    rewrite Hu. cbn. rewrite Hz. reflexivity.
Qed.

Lemma rstrip_app a b :
  b <> EmptyString -> rstrip b = b -> rstrip (a ++ b) = (a ++ b)%string.
Proof.
  intros Hne Hb. induction a as [|c r IH]; cbn; [exact Hb|].
  rewrite IH. destruct (r ++ b)%string eqn:E; [|reflexivity].
  destruct r; cbn in E; [contradiction | discriminate E].
Qed.

Lemma contains_char_app sep a b :
  contains_char sep (a ++ b) = contains_char sep a || contains_char sep b.
Proof.
  induction a as [|c r IH]; cbn; [reflexivity|]. rewrite IH, orb_assoc. reflexivity.
Qed.

Lemma contains_char_forallb sep (p : ascii -> bool) s :
  (forall c, p c = true -> Ascii.eqb c sep = false) ->
  string_forallb p s = true -> contains_char sep s = false.
Proof.
  intros Hp. induction s as [|c r IH]; cbn; [reflexivity|].
  intros H. apply andb_true_iff in H. destruct H as [Hc Hr].
  rewrite (Hp c Hc), (IH Hr). reflexivity.
Qed.

(** A text without the separator is the only part of its [split]. *)
Lemma split_no_sep sep s : contains_char sep s = false -> split sep s = [s].
Proof.
  induction s as [|c r IH]; cbn; [reflexivity|].
  intros H. apply orb_false_iff in H. destruct H as [Hc Hr].
  rewrite Hc, (IH Hr). reflexivity.
Qed.

(** [split] cuts at the first separator. *)
Lemma split_app sep a b :
  contains_char sep a = false ->
  split sep (a ++ String sep b) = a :: split sep b.
Proof.
  induction a as [|c r IH]; cbn.
  - intros _. rewrite Ascii.eqb_refl. reflexivity.
  - intros H. apply orb_false_iff in H. destruct H as [Hc Hr].
    rewrite Hc, (IH Hr). reflexivity.
Qed.

Lemma take_app a b : take (String.length a) (a ++ b) = a.
Proof. induction a as [|c r IH]; cbn; [destruct b|rewrite IH]; reflexivity. Qed.

Lemma ljust_full n fill s : String.length s = n -> ljust n fill s = s.
Proof.
  revert s. induction n as [|n IH]; intros s H; cbn; [reflexivity|].
  destruct s as [|c r]; [discriminate H|]. cbn in H. rewrite IH by lia. reflexivity.
Qed.

Lemma fmt_02d_facts r :
  0 <= r < 100 ->
  String.length (fmt_02d r) = 2%nat
  /\ string_forallb is_digit (fmt_02d r) = true
  /\ python_int (fmt_02d r) = Some r.
Proof.
  intros Hr.
  assert (Hall : forallb fmt_02d_ok (map Z.of_nat (seq 0 100)) = true)
    by (vm_compute; reflexivity).
  rewrite forallb_forall in Hall.
  assert (Hin : In r (map Z.of_nat (seq 0 100))).
  { apply in_map_iff. exists (Z.to_nat r). split; [lia|]. apply in_seq. lia. }
  specialize (Hall r Hin). unfold fmt_02d_ok in Hall.
  apply andb_true_iff in Hall. destruct Hall as [Hall Hp].
  apply andb_true_iff in Hall. destruct Hall as [Hl Hd].
  apply Nat.eqb_eq in Hl. repeat split; try assumption.
  destruct (python_int (fmt_02d r)) as [v|]; [|discriminate Hp].
  apply Z.eqb_eq in Hp. subst v. reflexivity.
Qed.

Lemma str_int_not_empty n : str_int n <> EmptyString.
Proof.
  destruct (str_int_shape n) as (d & _ & Hne & [-> | ->]); [exact Hne | discriminate].
Qed.

Lemma lstrip_str_int n t : lstrip (str_int n ++ t) = (str_int n ++ t)%string.
Proof.
  pose proof (str_int_plain n) as Hp. pose proof (str_int_not_empty n) as Hne.
  destruct (str_int n) as [|c r]; [contradiction|]. cbn in *.
  apply andb_true_iff in Hp. destruct Hp as [Hc _].
  destruct (plain_facts c Hc) as (-> & _). reflexivity.
Qed.

(** An amount written as whole units, a dot and two digits reads as that
    many hundreds plus the two digits, whatever follows the digits up to
    the next dot; a negative whole part is not carried to the digits. *)
Lemma cents_from_str_decimal a f tail :
  0 <= f < 100 ->
  contains_char "." tail = false ->
  tail <> EmptyString -> rstrip tail = tail ->
  cents_from_str (str_int a ++ "." ++ fmt_02d f ++ tail) = Some (a * 100 + f).
Proof.
  intros Hf Htail Hne Hrs.
  destruct (fmt_02d_facts f Hf) as (Hlen & Hdig & Hint).
  unfold cents_from_str.
  assert (Hstrip : strip (str_int a ++ "." ++ fmt_02d f ++ tail)
                   = (str_int a ++ "." ++ fmt_02d f ++ tail)%string).
  { unfold strip. rewrite lstrip_str_int.
    change (str_int a ++ "." ++ fmt_02d f ++ tail)%string
      with (str_int a ++ (String "." (fmt_02d f ++ tail)))%string.
    apply rstrip_app; [discriminate|].
    change (String "." (fmt_02d f ++ tail)) with (String "." (fmt_02d f) ++ tail)%string.
    apply rstrip_app; assumption. }
  rewrite Hstrip.
  assert (Hnodot : contains_char "." (str_int a) = false).
  { apply (contains_char_forallb "." plain); [|apply str_int_plain].
    intros c Hc. destruct (plain_facts c Hc) as (_ & -> & _). reflexivity. }
  rewrite contains_char_app. cbn [append contains_char Ascii.eqb].
  change (Ascii.eqb "." ".") with true. rewrite orb_true_r. cbn [orb].
  change (str_int a ++ String "." (fmt_02d f ++ tail))%string
    with (str_int a ++ String "." (fmt_02d f ++ tail))%string.
  rewrite (split_app "." (str_int a) (fmt_02d f ++ tail) Hnodot).
  rewrite split_no_sep.
  2:{ rewrite contains_char_app, Htail, orb_false_r.
      apply (contains_char_forallb "." is_digit); [|exact Hdig].
      intros c Hc. destruct (digit_facts c Hc) as (_ & _ & _ & _ & -> & _). reflexivity. }
  rewrite python_int_str_int.
  assert (Htake : take 2 (fmt_02d f ++ tail) = fmt_02d f)
    by (rewrite <- Hlen; apply take_app).
  rewrite Htake, (ljust_full 2 "0" _ Hlen), Hint. reflexivity.
Qed.

(** X1: the amount [price_str_from_cents] prints reads back through
    [cents_from_str] as the same number of cents, for every integer. *)
Theorem X1_cents_from_str_of_price_str cents :
  cents_from_str (price_str_from_cents (Some cents)) = Some cents.
Proof.
  unfold price_str_from_cents.
  rewrite (cents_from_str_decimal (cents / 100) (cents mod 100) (" " ++ CURRENCY)).
  - f_equal. pose proof (Z.div_mod cents 100 ltac:(lia)). lia.
  - apply Z.mod_pos_bound. lia.
  - reflexivity.
  - discriminate.
  - reflexivity.
Qed.

(** X2: a whole number reads as that many hundreds of cents, with or
    without a dot after it; the empty text and a lone dot read as [None]. *)
Theorem X2_cents_from_str_whole_units n :
  cents_from_str (str_int n) = Some (n * 100)
  /\ cents_from_str ("" : string) = None
  /\ cents_from_str ("." : string) = None
  /\ cents_from_str (str_int n ++ ".") = Some (n * 100).
Proof.
  assert (Hnodot : contains_char "." (str_int n) = false).
  { apply (contains_char_forallb "." plain); [|apply str_int_plain].
    intros c Hc. destruct (plain_facts c Hc) as (_ & -> & _). reflexivity. }
  assert (Hstrip : strip (str_int n) = str_int n).
  { apply strip_no_space. apply (string_forallb_impl plain); [|apply str_int_plain].
    intros c Hc. destruct (plain_facts c Hc) as (-> & _). reflexivity. }
  repeat split; try reflexivity.
  - unfold cents_from_str. rewrite Hstrip, Hnodot, python_int_str_int. reflexivity.
  - unfold cents_from_str.
    assert (Hs : strip (str_int n ++ ".") = (str_int n ++ ".")%string).
    { unfold strip. rewrite lstrip_str_int. apply rstrip_app; [discriminate | reflexivity]. }
    rewrite Hs, contains_char_app. cbn [contains_char].
    change (Ascii.eqb "." ".") with true. rewrite orb_true_r.
    rewrite (split_app "." (str_int n) EmptyString Hnodot). cbn [split].
    rewrite python_int_str_int.
    assert (H0 : python_int (ljust 2 "0" (take 2 EmptyString)) = Some 0) by reflexivity.
    rewrite H0. f_equal. lia.
Qed.

Lemma string_length_take n s : String.length (take n s) = Nat.min n (String.length s).
Proof.
  revert s. induction n as [|n IH]; intros [|c r]; cbn; try reflexivity.
  rewrite IH. reflexivity.
Qed.

Lemma string_length_app a b : String.length (a ++ b) = (String.length a + String.length b)%nat.
Proof. induction a as [|c r IH]; cbn; [|rewrite IH]; reflexivity. Qed.





(** A Cyrillic caption of six characters (twelve bytes) is within a limit of
    ten and comes back whole. *)
Example safe_caption_cyrillic :
  len "Привет" = 6%nat /\ safe_caption (Some "Привет"%string) 10 = Some "Привет"%string.
Proof. split; reflexivity. Qed.

(** ** Invoice payload *)

(** Fields without the separator come back from [split] as they were
    joined. *)
Lemma split_join sep fields :
  fields <> [] ->
  Forall (fun x => contains_char sep x = false) fields ->
  split sep (join sep fields) = fields.
Proof.
  induction fields as [|x rest IH]; intros Hne Hall; [contradiction|].
  inversion Hall as [|? ? Hx Hrest]; subst.
  destruct rest as [|y rest'].
  - cbn. apply split_no_sep. exact Hx.
  - change (join sep (x :: y :: rest')) with (x ++ String sep (join sep (y :: rest')))%string.
    rewrite (split_app sep x _ Hx), IH; [reflexivity | discriminate | exact Hrest].
Qed.

Lemma str_int_no_colon n : contains_char ":" (str_int n) = false.
Proof.
  apply (contains_char_forallb ":" plain); [|apply str_int_plain].
  intros c Hc. destruct (plain_facts c Hc) as (_ & _ & ->). reflexivity.
Qed.

Lemma str_int_zero n : str_int n = "0"%string -> n = 0.
Proof.
  intros H. pose proof (python_int_str_int n) as Hp. rewrite H in Hp.
  injection Hp as <-. reflexivity.
Qed.

Lemma payment_type_of_str_str t : payment_type_of_str (payment_type_str t) = Some t.
Proof. destruct t; reflexivity. Qed.

(** X4: the regular payload [process_card_payment] builds is read back by
    the parsing of [got_payment] with the same plan, payment type and period;
    the promo comes back as the promo id, or as [None] when there was none
    (or its id was 0).  The renewal payload has too few fields and makes
    that parsing raise. *)
Theorem X4_payload_round_trip now pid user_id t promo_id renewal_end_ts :
  (t <> renewal \/ truthy renewal_end_ts = false ->
   parse_payload
     (process_card_payment_payload now pid user_id (payment_type_str t) promo_id
        renewal_end_ts)
   = Some (mkPayloadFields pid (payment_type_str t) (month now) (year now)
             (if truthy promo_id then promo_id else None)))
  /\ (truthy renewal_end_ts = true ->
      parse_payload
        (process_card_payment_payload now pid user_id "renewal" promo_id renewal_end_ts)
      = None).
Proof.
  split.
  - intros Hreg.
    assert (Hform :
      process_card_payment_payload now pid user_id (payment_type_str t) promo_id
        renewal_end_ts
      = join ":" ["plan"%string; str_int pid; "user"%string; str_int user_id;
                  "type"%string; payment_type_str t; "month"%string;
                  str_int (month now); "year"%string; str_int (year now);
                  "promo"%string; str_int (or_zero promo_id); str_int (time_time now)]).
    { unfold process_card_payment_payload, get_current_period.
      destruct Hreg as [Ht | ->]; [|rewrite andb_false_r; reflexivity].
      destruct t; try contradiction; reflexivity. }
    rewrite Hform. unfold parse_payload. rewrite split_join.
    2: discriminate.
    2:{ repeat constructor; try apply str_int_no_colon; try reflexivity.
        destruct t; reflexivity. }
    cbn [nth_error]. rewrite !python_int_str_int.
    destruct promo_id as [p|]; cbn [or_zero truthy]; [|reflexivity].
    destruct (Z.eqb_spec p 0) as [->|Hp]; cbn [negb]; [reflexivity|].
    destruct (String.eqb_spec (str_int p) "0") as [E|_].
    + apply str_int_zero in E. contradiction.
    + reflexivity.
  - intros Hren.
    assert (Hform :
      process_card_payment_payload now pid user_id "renewal" promo_id renewal_end_ts
      = join ":" ["renewal"%string; str_int pid; "user"%string; str_int user_id;
                  "end_ts"%string; str_int (or_zero renewal_end_ts); "promo"%string;
                  str_int (or_zero promo_id); str_int (time_time now)]).
    { unfold process_card_payment_payload. rewrite Hren. reflexivity. }
    rewrite Hform. unfold parse_payload. rewrite split_join.
    2: discriminate.
    2:{ repeat constructor; try apply str_int_no_colon; reflexivity. }
    reflexivity.
Qed.

Lemma X4_payload_round_trip_witness :
  parse_payload
    (process_card_payment_payload (nov2026 3 10 0) 1 42 (payment_type_str partial)
       (Some 7) None)
  = Some (mkPayloadFields 1 (payment_type_str partial) (month (nov2026 3 10 0))
            (year (nov2026 3 10 0)) (if truthy (Some 7) then Some 7 else None)).
Proof.
  apply (proj1 (X4_payload_round_trip (nov2026 3 10 0) 1 42 partial (Some 7) None)).
  left. discriminate.
Defined.

(** ** Period clock *)

(** X5: within a month the first window is the time up to the first
    deadline (day 5, 23:59:59) and the half-month phase the time after the
    second deadline (day 20, 23:59:59); [is_payment_period_active] holds in
    the first and second windows and in no other phase. *)
Theorem X5_phases_and_deadlines now :
  valid_clock now ->
  (get_active_payment_type now = apt_first
   <-> time_time now <= timestamp (fst (get_payment_deadlines now)))
  /\ (get_active_payment_type now = apt_half_month
      <-> time_time now > timestamp (snd (get_payment_deadlines now)))
  /\ (is_payment_period_active now = true
      <-> get_active_payment_type now = apt_first
          \/ get_active_payment_type now = apt_second).
Proof.
  intros (Hm & Hd & Hh & Hmi & Hs).
  unfold get_active_payment_type, is_payment_period_active, get_payment_deadlines,
    time_time, timestamp, days_from_civil.
  cbn [fst snd year month day hour minute second].
  repeat split;
    repeat match goal with
      | |- context [?a <=? ?b] => destruct (Z.leb_spec a b)
      | |- context [?a >=? ?b] => rewrite (Z.geb_leb a b)
      end;
    cbn [andb orb]; intros; try discriminate; try lia; auto;
    try (match goal with H : _ \/ _ |- _ => destruct H; discriminate end).
Qed.

Lemma X5_phases_and_deadlines_witness :
  get_active_payment_type (nov2026 5 23 59) = apt_first
  <-> time_time (nov2026 5 23 59)
      <= timestamp (fst (get_payment_deadlines (nov2026 5 23 59))).
Proof.
  apply (proj1 (X5_phases_and_deadlines (nov2026 5 23 59)
                  ltac:(repeat split; cbn; lia))).
Defined.

(** ** Lookup of the active row *)

Lemma latest_by_end_ts_max rows : forall best r,
  latest_by_end_ts best rows = Some r ->
  (forall b, best = Some b -> s_end_ts b <= s_end_ts r)
  /\ (forall x, In x rows -> s_end_ts x <= s_end_ts r).
Proof.
  induction rows as [|x rest IH]; intros best r H; cbn in H.
  - subst best. split; [intros b [= ->]; lia | intros x []].
  - destruct best as [b|].
    + destruct (Z.gtb_spec (s_end_ts x) (s_end_ts b)) as [Hgt|Hle];
        destruct (IH _ _ H) as [Hb Hall]; split.
      * intros b' [= <-]. specialize (Hb x eq_refl). lia.
      * intros y [<-|Hy]; [apply Hb; reflexivity | apply Hall; exact Hy].
      * exact Hb.
      * intros y [<-|Hy]; [specialize (Hb b eq_refl); lia | apply Hall; exact Hy].
    + destruct (IH _ _ H) as [Hb Hall]. split; [intros b [=]|].
      intros y [<-|Hy]; [apply Hb; reflexivity | apply Hall; exact Hy].
Qed.

Lemma latest_by_end_ts_none rows : forall best,
  latest_by_end_ts best rows = None -> best = None /\ rows = [].
Proof.
  induction rows as [|x rest IH]; intros best H; cbn in H; [auto|].
  destruct best as [b|]; [destruct (s_end_ts x >? s_end_ts b)|];
    destruct (IH _ H) as [E _]; discriminate E.
Qed.

(** X6: the lookup [... WHERE user_id=? AND plan_id=? AND active=? ORDER BY
    end_ts DESC LIMIT 1] answers [None] exactly when no row of the table
    matches, and otherwise a matching row of the table whose [end_ts] no
    matching row exceeds. *)
Theorem X6_select_subscription_latest db uid pid act :
  match select_subscription db uid pid act with
  | None =>
      forall s, In s (subscriptions db) ->
                ~ (s_user_id s = uid /\ s_plan_id s = pid /\ s_active s = act)
  | Some r =>
      In r (subscriptions db)
      /\ s_user_id r = uid /\ s_plan_id r = pid /\ s_active r = act
      /\ forall s, In s (subscriptions db) ->
                   s_user_id s = uid -> s_plan_id s = pid -> s_active s = act ->
                   s_end_ts s <= s_end_ts r
  end.
Proof.
  destruct (select_subscription db uid pid act) as [r|] eqn:H.
  - destruct (select_subscription_sound _ _ _ _ _ H) as (Hin & Hu & Hp & Ha).
    repeat split; try assumption.
    intros s Hs Hsu Hsp Hsa. unfold select_subscription in H.
    apply (proj2 (latest_by_end_ts_max _ _ _ H)).
    apply filter_In. split; [exact Hs|].
    rewrite Hsu, Hsp, Hsa, !Z.eqb_refl. reflexivity.
  - intros s Hs (Hsu & Hsp & Hsa). unfold select_subscription in H.
    destruct (latest_by_end_ts_none _ _ H) as [_ Hnil].
    assert (Hf : In s (filter (fun s => (s_user_id s =? uid) && (s_plan_id s =? pid)
                                        && (s_active s =? act)) (subscriptions db))).
    { apply filter_In. split; [exact Hs|].
      rewrite Hsu, Hsp, Hsa, !Z.eqb_refl. reflexivity. }
    rewrite Hnil in Hf. destruct Hf.
Qed.

(** ** Payment options, for every state of the ledger *)

Lemma covered_iff db now uid pid :
  fst (fst (check_existing_active_subscription db now uid pid))
  && sub_info_part_paid_is (snd (fst (check_existing_active_subscription db now uid pid)))
       pp_full = true
  <-> exists r, active_row db uid pid = Some r
                /\ s_part_paid r = pp_full /\ s_end_ts r > time_time now.
Proof.
  unfold active_row, check_existing_active_subscription, get_current_period.
  destruct (select_subscription db uid pid 1) as [r|]; cbn.
  2:{ split; [discriminate | intros (r & [=] & _)]. }
  destruct (Z.gtb_spec (s_end_ts r) (time_time now)) as [Hgt|Hle].
  - destruct ((s_current_period_month r =? month now)
              && (s_current_period_year r =? year now));
      destruct (s_part_paid r) eqn:Hpp; cbn; rewrite ?Hpp; cbn;
      split; try discriminate;
      try (intros (r' & [= <-] & Hf & _); congruence);
      intros _; exists r; repeat split; try assumption; lia.
  - cbn. split; [discriminate|]. intros (r' & [= <-] & _ & Hend). lia.
Qed.

(** What the resolver returns: nothing, or the list of its decision table
    for the price of the plan. *)
Lemma get_payment_options_cases db now uid pid :
  get_payment_options db now uid pid = []
  \/ exists plan b,
       select_plan db pid = Some plan
       /\ map option_kind (get_payment_options db now uid pid)
          = options_for (p_price_cents plan) now b.
Proof.
  pose proof (get_payment_options_kinds db now uid pid) as H. cbn zeta in H.
  destruct (fst (fst (check_existing_active_subscription db now uid pid))
            && sub_info_part_paid_is
                 (snd (fst (check_existing_active_subscription db now uid pid))) pp_full).
  - left. apply (map_eq_nil option_kind). exact H.
  - destruct (select_plan db pid) as [plan|].
    + right. eexists plan, _. split; [reflexivity | exact H].
    + left. apply (map_eq_nil option_kind). exact H.
Qed.

Lemma options_for_not_empty P now b : options_for P now b <> [].
Proof.
  unfold options_for.
  destruct (day now >=? 21), ((1 <=? day now) && (day now <=? 5)),
    ((15 <=? day now) && (day now <=? 20)), b; discriminate.
Qed.

(** X7: the resolver offers nothing in exactly two cases: the plan does not
    exist, or the active row of the pair is marked fully paid and still
    running.  In every other state at least one option is offered. *)
Theorem X7_no_options_iff_covered db now uid pid :
  get_payment_options db now uid pid = []
  <-> select_plan db pid = None
      \/ exists r, active_row db uid pid = Some r
                   /\ s_part_paid r = pp_full /\ s_end_ts r > time_time now.
Proof.
  pose proof (get_payment_options_kinds db now uid pid) as H. cbn zeta in H.
  pose proof (covered_iff db now uid pid) as Hcov.
  destruct (fst (fst (check_existing_active_subscription db now uid pid))
            && sub_info_part_paid_is
                 (snd (fst (check_existing_active_subscription db now uid pid))) pp_full).
  - split; [intros _; right; apply Hcov; reflexivity|].
    intros _. apply (map_eq_nil option_kind). exact H.
  - destruct (select_plan db pid) as [plan|].
    + split.
      * intros E. rewrite E in H. cbn [map] in H. symmetry in H.
        destruct (options_for_not_empty _ _ _ H).
      * intros [E|E]; [discriminate E|]. apply Hcov in E. discriminate E.
    + split; [intros _; left; reflexivity|].
      intros _. apply (map_eq_nil option_kind). exact H.
Qed.

(** X8: every option the resolver offers is in its phase of the month: the
    first part on days 1-5 only, the half month from day 21 on only, the
    full payment up to day 20 only, the second part in the two payment
    windows only and the late second part outside them only;
    [full_anytime] and [renewal] are never offered. *)
Theorem X8_options_in_their_phase db now uid pid o :
  In o (get_payment_options db now uid pid) ->
  match o_type o with
  | partial => 1 <= day now <= 5
  | half_month => 21 <= day now
  | full => day now <= 20
  | second_part => 1 <= day now <= 5 \/ 15 <= day now <= 20
  | second_part_late => ~ (1 <= day now <= 5) /\ ~ (15 <= day now <= 20)
  | full_anytime | renewal => False
  end.
Proof.
  intros Ho.
  destruct (get_payment_options_cases db now uid pid) as [E|(plan & b & _ & E)].
  - rewrite E in Ho. destruct Ho.
  - assert (Hin : In (option_kind o) (options_for (p_price_cents plan) now b))
      by (rewrite <- E; apply in_map; exact Ho).
    unfold option_kind, options_for in Hin.
    destruct (Z.leb_spec 21 (day now)) as [H21|H21];
      [rewrite (proj2 (Z.geb_le _ _) H21) in Hin
      |assert (Hf : (day now >=? 21) = false)
         by (rewrite Z.geb_leb; apply Z.leb_gt; lia); rewrite Hf in Hin];
      destruct (Z.leb_spec 1 (day now)), (Z.leb_spec (day now) 5),
        (Z.leb_spec 15 (day now)), (Z.leb_spec (day now) 20), b;
      cbn in Hin;
      repeat (destruct Hin as [Hin|Hin]; [injection Hin as <- _; lia|]);
      try destruct Hin.
Qed.

Lemma X8_options_in_their_phase_witness :
  1 <= day (nov2026 3 10 0) <= 5.
Proof.
  apply (X8_options_in_their_phase sample_db (nov2026 3 10 0) 42 1
           (mkOption partial 500 "💳 Оплатить первой частью"
              ("Вторая часть " ++ price_str_from_cents (Some 500)
               ++ " оплачивается 15-20 числа")%string)).
  right. left. reflexivity.
Defined.

(** X9: the price of an offered option is the price of the plan for the
    full payment and the floor of its half for every other option; the two
    halves together are the price, less one unit when the price is odd, and
    for a price that is not negative no option costs more than the plan. *)
Theorem X9_option_prices db now uid pid plan o :
  select_plan db pid = Some plan ->
  In o (get_payment_options db now uid pid) ->
  let P := p_price_cents plan in
  o_price o = (if PaymentType_eqb (o_type o) full then P else P / 2)
  /\ P / 2 + P / 2 = P - P mod 2
  /\ (0 <= P -> 0 <= o_price o <= P).
Proof.
  intros Hplan Ho P.
  assert (Hhalf : P / 2 + P / 2 = P - P mod 2)
    by (pose proof (Z.div_mod P 2 ltac:(lia)); lia).
  assert (Hprice : o_price o = (if PaymentType_eqb (o_type o) full then P else P / 2)).
  { destruct (get_payment_options_cases db now uid pid) as [E|(plan' & b & Hp & E)].
    - rewrite E in Ho. destruct Ho.
    - rewrite Hplan in Hp. injection Hp as <-. fold P in E.
      assert (Hin : In (option_kind o) (options_for P now b))
        by (rewrite <- E; apply in_map; exact Ho).
      unfold option_kind, options_for in Hin.
      destruct (day now >=? 21), ((1 <=? day now) && (day now <=? 5)),
        ((15 <=? day now) && (day now <=? 20)), b; cbn in Hin;
        repeat (destruct Hin as [Hin|Hin];
                [injection Hin as <- <-; reflexivity|]);
        destruct Hin. }
  repeat split; try assumption.
  - rewrite Hprice. destruct (PaymentType_eqb (o_type o) full); [lia|].
    apply Z.div_pos; lia.
  - rewrite Hprice. destruct (PaymentType_eqb (o_type o) full); [lia|].
    pose proof (Z.mod_pos_bound P 2 ltac:(lia)). lia.
Qed.

Lemma X9_option_prices_witness :
  755 / 2 + 755 / 2 = 755 - 755 mod 2.
Proof.
  exact (proj1 (proj2 (X9_option_prices
    (mkDB [mkPlan 1 None 755 (Some 5)] [] [] 0 [] [] 0 []) (nov2026 25 10 0) 42 1
    (mkPlan 1 None 755 (Some 5))
    (mkOption half_month 377 "💳 Оплатить половину месяца"
       "Доступ до 5 числа следующего месяца")
    eq_refl (or_introl eq_refl)))).
Defined.

(** ** Activation and the ledger *)

(** The database a successful activation leaves behind. *)
Lemma activate_subscription_db db now invite uid pid payment_type gid link db' sent :
  activate_subscription db now invite uid pid payment_type gid = (Activated link, db', sent) ->
  exists plan end_ts part_paid,
    select_plan db pid = Some plan
    /\ truthy (if truthy (p_group_id plan) then p_group_id plan else gid) = true
    /\ end_ts_and_part_paid now payment_type
         (match active_row db uid pid with Some _ => true | None => false end)
         (existing_end_ts_of db uid pid (active_row db uid pid) (month now) (year now)
            (time_time now))
         (time_time now) = Some (end_ts, part_paid)
    /\ db'
       = match active_row db uid pid with
         | Some e =>
             with_subscriptions db
               (if period_is e (month now) (year now)
                then update_current_period (subscriptions db) (s_id e) payment_type
                       part_paid end_ts link
                else update_new_period (subscriptions db) (s_id e) payment_type part_paid
                       (month now) (year now) end_ts link)
               (subscriptions_seq db)
         | None =>
             with_subscriptions db
               (subscriptions db ++
                [mkSubscription (subscriptions_seq db + 1) uid pid (time_time now) end_ts 1
                   (Some link) 0
                   (if truthy (p_group_id plan) then p_group_id plan else gid)
                   payment_type (month now) (year now) part_paid (Some end_ts)])
               (subscriptions_seq db + 1)
         end.
Proof.
  unfold activate_subscription, active_row, get_current_period.
  destruct (select_plan db pid) as [plan|]; [|discriminate].
  destruct (truthy (if truthy (p_group_id plan) then p_group_id plan else gid)) eqn:Hg;
    cbn [negb]; [|discriminate].
  destruct invite as [l|]; cbn [truthy_str negb]; [|discriminate].
  destruct l as [|c l]; cbn [negb]; [discriminate|].
  destruct (end_ts_and_part_paid now payment_type _ _ _) as [[end_ts part_paid]|] eqn:Hb;
    [|discriminate].
  intros H. exists plan, end_ts, part_paid.
  destruct (select_subscription db uid pid 1) as [e|].
  - destruct (period_is e (month now) (year now));
      injection H as <- <- _; repeat split; first [exact Hg | reflexivity].
  - injection H as <- <- _; repeat split; first [exact Hg | reflexivity].
Qed.

(** An outcome other than [Activated] leaves the database as it was. *)
Lemma activate_subscription_cases db now invite uid pid payment_type gid :
  snd (fst (activate_subscription db now invite uid pid payment_type gid)) = db
  \/ exists link,
       fst (fst (activate_subscription db now invite uid pid payment_type gid))
       = Activated link.
Proof.
  destruct (fst (fst (activate_subscription db now invite uid pid payment_type gid)))
    as [link|msg|exc] eqn:E.
  - right. exists link. reflexivity.
  - left. apply activate_subscription_writes_only_on_success.
    intros link. rewrite E. discriminate.
  - left. apply activate_subscription_writes_only_on_success.
    intros link. rewrite E. discriminate.
Qed.

Lemma update_current_period_rewrite rows sub_id t pp end_ts link :
  exists g, keeps_identity g
            /\ update_current_period rows sub_id t pp end_ts link
               = map (rewrite_row sub_id g) rows
            /\ forall s, s_part_paid (g s) = pp /\ s_end_ts (g s) = end_ts
                         /\ s_current_period_month (g s) = s_current_period_month s
                         /\ s_current_period_year (g s) = s_current_period_year s.
Proof.
  eexists (fun s => mkSubscription (s_id s) (s_user_id s) (s_plan_id s) (s_start_ts s)
                      end_ts 1 (Some link) 0 (s_group_id s) t
                      (s_current_period_month s) (s_current_period_year s) pp
                      (s_next_payment_date s)).
  split; [intros s; repeat split|]. split; [reflexivity | intros s; repeat split].
Qed.

Lemma update_new_period_rewrite rows sub_id t pp m y end_ts link :
  exists g, keeps_identity g
            /\ update_new_period rows sub_id t pp m y end_ts link
               = map (rewrite_row sub_id g) rows
            /\ forall s, s_part_paid (g s) = pp /\ s_end_ts (g s) = end_ts
                         /\ s_current_period_month (g s) = m
                         /\ s_current_period_year (g s) = y.
Proof.
  eexists (fun s => mkSubscription (s_id s) (s_user_id s) (s_plan_id s) (s_start_ts s)
                      end_ts 1 (Some link) 0 (s_group_id s) t m y pp
                      (s_next_payment_date s)).
  split; [intros s; repeat split|]. split; [reflexivity | intros s; repeat split].
Qed.

Lemma NoDup_map_injective {A B} (f : A -> B) l a b :
  NoDup (map f l) -> In a l -> In b l -> f a = f b -> a = b.
Proof.
  induction l as [|x l IH]; cbn; intros Hnd Ha Hb Hf; [destruct Ha|].
  inversion Hnd as [|? ? Hnot Hnd']; subst.
  destruct Ha as [->|Ha], Hb as [->|Hb]; try reflexivity.
  - exfalso. apply Hnot. rewrite Hf. apply in_map. exact Hb.
  - exfalso. apply Hnot. rewrite <- Hf. apply in_map. exact Ha.
  - apply IH; assumption.
Qed.

Lemma NoDup_snoc {A} (l : list A) x : NoDup l -> ~ In x l -> NoDup (l ++ [x]).
Proof.
  induction l as [|y l IH]; cbn; intros Hnd Hx.
  - constructor; [intros [] | constructor].
  - inversion Hnd as [|? ? Hy Hnd']; subst. constructor.
    + intros Hin. apply in_app_or in Hin. destruct Hin as [Hin|[->|[]]].
      * contradiction.
      * apply Hx. left. reflexivity.
    + apply IH; [exact Hnd'|]. intros Hin. apply Hx. right. exact Hin.
Qed.

Lemma map_rewrite_row_ids sub_id g rows :
  keeps_identity g -> map s_id (map (rewrite_row sub_id g) rows) = map s_id rows.
Proof.
  intros Hg. rewrite map_map. apply map_ext. intros s. unfold rewrite_row.
  destruct (s_id s =? sub_id); [apply Hg | reflexivity].
Qed.

(** The shape of the table after an activation, in one statement: either
    nothing changed, or the row the lookup returned was rewritten, or (no
    active row) a row with the next id was appended. *)
Lemma activate_subscription_rows db now invite uid pid payment_type gid :
  let db' := snd (fst (activate_subscription db now invite uid pid payment_type gid)) in
  db' = db
  \/ (exists e g, active_row db uid pid = Some e /\ keeps_identity g
                  /\ subscriptions db' = map (rewrite_row (s_id e) g) (subscriptions db)
                  /\ subscriptions_seq db' = subscriptions_seq db)
  \/ (exists new, active_row db uid pid = None
                  /\ subscriptions db' = subscriptions db ++ [new]
                  /\ s_id new = subscriptions_seq db + 1
                  /\ s_user_id new = uid /\ s_plan_id new = pid /\ s_active new = 1
                  /\ subscriptions_seq db' = subscriptions_seq db + 1).
Proof.
  cbn zeta.
  destruct (activate_subscription_cases db now invite uid pid payment_type gid)
    as [E|[link E]]; [left; exact E|].
  destruct (activate_subscription db now invite uid pid payment_type gid)
    as [[result db'] sent] eqn:Hact.
  cbn [fst snd] in *. subst result.
  destruct (activate_subscription_db _ _ _ _ _ _ _ _ _ _ Hact)
    as (plan & end_ts & pp & _ & _ & _ & Hdb).
  destruct (active_row db uid pid) as [e|] eqn:He.
  - right. left. destruct (period_is e (month now) (year now)).
    + destruct (update_current_period_rewrite (subscriptions db) (s_id e) payment_type pp
                  end_ts link) as (g & Hg & Hrows & _).
      exists e, g. rewrite Hdb. cbn. rewrite Hrows. auto.
    + destruct (update_new_period_rewrite (subscriptions db) (s_id e) payment_type pp
                  (month now) (year now) end_ts link) as (g & Hg & Hrows & _).
      exists e, g. rewrite Hdb. cbn. rewrite Hrows. auto.
  - right. right. eexists. rewrite Hdb. cbn. repeat split; reflexivity.
Qed.

(** X10: an activation keeps the ids of the subscription rows distinct and
    within the AUTOINCREMENT counter, whatever its outcome. *)
Theorem X10_activation_keeps_ids_fresh db now invite uid pid payment_type gid :
  ids_fresh db ->
  ids_fresh (snd (fst (activate_subscription db now invite uid pid payment_type gid))).
Proof.
  intros [Hnd Hle].
  destruct (activate_subscription_rows db now invite uid pid payment_type gid)
    as [E|[(e & g & He & Hg & Hrows & Hseq)|(new & He & Hrows & Hid & _ & _ & _ & Hseq)]].
  - cbn zeta in E. rewrite E. split; assumption.
  - cbn zeta in *. unfold ids_fresh. rewrite Hrows, Hseq.
    rewrite (map_rewrite_row_ids _ _ _ Hg). split; [exact Hnd|].
    intros s Hs. apply in_map_iff in Hs. destruct Hs as (s0 & <- & Hs0).
    unfold rewrite_row. destruct (s_id s0 =? s_id e).
    + rewrite (proj1 (Hg s0)). apply Hle. exact Hs0.
    + apply Hle. exact Hs0.
  - cbn zeta in *. unfold ids_fresh. rewrite Hrows, Hseq. split.
    + rewrite map_app. cbn [map]. apply NoDup_snoc.
      * exact Hnd.
      * intros Hin. apply in_map_iff in Hin. destruct Hin as (s & Hs & Hsin).
        specialize (Hle s Hsin). lia.
    + intros s Hs. apply in_app_or in Hs. destruct Hs as [Hs|[<-|[]]].
      * specialize (Hle s Hs). lia.
      * lia.
Qed.

Lemma X10_activation_keeps_ids_fresh_witness :
  ids_fresh (snd (fst (activate_subscription sample_db (nov2026 3 10 0) (Some sample_link)
                         42 1 partial None))).
Proof.
  apply X10_activation_keeps_ids_fresh.
  split; [constructor | intros s []].
Defined.

Lemma filter_map_swap {A B} (p : B -> bool) (f : A -> B) l :
  filter p (map f l) = map f (filter (fun x => p (f x)) l).
Proof.
  induction l as [|x l IH]; cbn; [reflexivity|].
  destruct (p (f x)); cbn; rewrite IH; reflexivity.
Qed.

Lemma active_row_none_no_active db uid pid :
  active_row db uid pid = None -> active_rows db uid pid = [].
Proof.
  unfold active_row, select_subscription, active_rows. intros H.
  exact (proj2 (latest_by_end_ts_none _ _ H)).
Qed.

(** An activation does not add to the active rows of any pair that has
    one, and gives the paying pair exactly one when it had none. *)
Lemma activation_active_rows db now invite uid pid payment_type gid u p :
  ids_fresh db ->
  (List.length
     (active_rows (snd (fst (activate_subscription db now invite uid pid payment_type gid)))
        u p)
   <= Nat.max 1 (List.length (active_rows db u p)))%nat.
Proof.
  intros [Hnd _].
  destruct (activate_subscription_rows db now invite uid pid payment_type gid)
    as [E|[(e & g & He & Hg & Hrows & _)|(new & He & Hrows & _ & Hu & Hp & Ha & _)]];
    cbn zeta in *.
  - rewrite E. lia.
  - destruct (select_subscription_sound _ _ _ _ _ He) as (Hin & Heu & Hep & Hea).
    unfold active_rows at 1. rewrite Hrows, filter_map_swap, length_map.
    rewrite (filter_ext_in
               (fun x => (s_user_id (rewrite_row (s_id e) g x) =? u)
                         && (s_plan_id (rewrite_row (s_id e) g x) =? p)
                         && (s_active (rewrite_row (s_id e) g x) =? 1))
               (fun s => (s_user_id s =? u) && (s_plan_id s =? p) && (s_active s =? 1))).
    + fold (active_rows db u p). lia.
    + intros s Hs. unfold rewrite_row.
      destruct (Z.eqb_spec (s_id s) (s_id e)) as [Hid|_]; [|reflexivity].
      assert (s = e) by (apply (NoDup_map_injective s_id (subscriptions db)); assumption).
      subst s. destruct (Hg e) as (_ & -> & -> & ->). rewrite Hea. reflexivity.
  - unfold active_rows at 1. rewrite Hrows, filter_app, length_app. cbn [filter].
    rewrite Hu, Hp, Ha.
    change (filter (fun s => (s_user_id s =? u) && (s_plan_id s =? p) && (s_active s =? 1))
              (subscriptions db)) with (active_rows db u p).
    destruct (Z.eqb_spec uid u) as [->|_]; [|cbn [andb List.length]; lia].
    destruct (Z.eqb_spec pid p) as [->|_]; [|cbn [andb List.length]; lia].
    rewrite (active_row_none_no_active _ _ _ He). cbn. lia.
Qed.

(** X11: when the ids are distinct and no user has more than one active
    row for a plan, the same holds after an activation, whatever its
    outcome: a payment never leaves a pair with two active rows. *)
Theorem X11_activation_keeps_single_active_row db now invite uid pid payment_type gid :
  ids_fresh db ->
  (forall u p, (List.length (active_rows db u p) <= 1)%nat) ->
  forall u p,
    (List.length
       (active_rows (snd (fst (activate_subscription db now invite uid pid payment_type
                                 gid))) u p) <= 1)%nat.
Proof.
  intros Hids Hone u p.
  pose proof (activation_active_rows db now invite uid pid payment_type gid u p Hids) as H.
  specialize (Hone u p). lia.
Qed.

Lemma X11_activation_keeps_single_active_row_witness :
  (List.length
     (active_rows
        (snd (fst (activate_subscription sample_db_first_part (nov2026 17 12 0)
                     (Some sample_link) 42 1 second_part None))) 42 1) <= 1)%nat.
Proof.
  apply X11_activation_keeps_single_active_row.
  - split.
    + constructor; [intros [] | constructor].
    + intros s [<-|[]]. vm_compute. intros H. discriminate H.
  - intros u p. unfold active_rows.
    change (subscriptions sample_db_first_part)
      with [sample_row 1 1794776399 1 partial 11 2026 pp_first].
    cbn [filter]. destruct (_ && _); cbn [List.length]; lia.
Defined.

(** X12: an activation rewrites at most the one row its lookup returned:
    with distinct ids every other row of the table, of this user or another,
    active or revoked, is in the table afterwards as it was.  In particular
    a revoked row is never reactivated; a payment after a revocation
    appends a fresh row. *)
Theorem X12_activation_touches_one_row db now invite uid pid payment_type gid s :
  ids_fresh db ->
  In s (subscriptions db) ->
  active_row db uid pid <> Some s ->
  In s (subscriptions
          (snd (fst (activate_subscription db now invite uid pid payment_type gid)))).
Proof.
  intros [Hnd _] Hs Hne.
  destruct (activate_subscription_rows db now invite uid pid payment_type gid)
    as [E|[(e & g & He & Hg & Hrows & _)|(new & He & Hrows & _)]]; cbn zeta in *.
  - rewrite E. exact Hs.
  - rewrite Hrows. apply in_map_iff. exists s. split; [|exact Hs].
    unfold rewrite_row. destruct (Z.eqb_spec (s_id s) (s_id e)) as [Hid|_]; [|reflexivity].
    destruct (select_subscription_sound _ _ _ _ _ He) as (Hin & _).
    assert (s = e) by (apply (NoDup_map_injective s_id (subscriptions db)); assumption).
    subst s. contradiction.
  - rewrite Hrows. apply in_or_app. left. exact Hs.
Qed.

Lemma X12_activation_touches_one_row_witness :
  let old := revoked (sample_row 1 1794776399 1 partial 11 2026 pp_first) in
  In old (subscriptions
            (snd (fst (activate_subscription (sample_db_with [old]) (nov2026 25 12 0)
                         (Some sample_link) 42 1 half_month None)))).
Proof.
  cbn zeta. apply X12_activation_touches_one_row.
  - split.
    + constructor; [intros [] | constructor].
    + intros s [<-|[]]. vm_compute. intros H. discriminate H.
  - left. reflexivity.
  - discriminate.
Defined.

Lemma period_is_in_current_period e now :
  period_is e (month now) (year now) = true -> in_current_period e now.
Proof.
  unfold period_is, in_current_period. intros H.
  apply andb_true_iff in H. destruct H as [Hm Hy].
  split; apply Z.eqb_eq; assumption.
Qed.

(** The row a successful activation has written for the pair. *)
Lemma activation_written_row db now invite uid pid payment_type gid link db' sent :
  activate_subscription db now invite uid pid payment_type gid = (Activated link, db', sent) ->
  exists r end_ts part_paid,
    In r (subscriptions db')
    /\ s_user_id r = uid /\ s_plan_id r = pid /\ s_active r = 1
    /\ in_current_period r now
    /\ s_end_ts r = end_ts /\ s_part_paid r = part_paid
    /\ end_ts_and_part_paid now payment_type false 0 0 = Some (end_ts, part_paid)
    /\ plans db' = plans db.
Proof.
  intros H.
  destruct (activate_subscription_db _ _ _ _ _ _ _ _ _ _ H)
    as (plan & end_ts & pp & _ & _ & Hb & Hdb).
  rewrite (end_ts_ignores_existing_row now payment_type _ _ false 0) in Hb.
  assert (Hb0 : end_ts_and_part_paid now payment_type false 0 0 = Some (end_ts, pp)).
  { rewrite end_ts_and_part_paid_eq in *. exact Hb. }
  destruct (active_row db uid pid) as [e|] eqn:He.
  - destruct (select_subscription_sound _ _ _ _ _ He) as (Hin & Hu & Hp & _).
    destruct (period_is e (month now) (year now)) eqn:Hper.
    + destruct (update_current_period_rewrite (subscriptions db) (s_id e) payment_type pp
                  end_ts link) as (g & Hg & Hrows & Hf).
      exists (g e), end_ts, pp. rewrite Hdb. cbn [subscriptions with_subscriptions plans].
      rewrite Hrows. destruct (Hg e) as (_ & Hgu & Hgp & Hga).
      destruct (Hf e) as (Hpp & Hend & Hm & Hy).
      destruct (period_is_in_current_period e now Hper) as [Hem Hey].
      repeat split; try congruence.
      apply in_map_iff. exists e. unfold rewrite_row. rewrite Z.eqb_refl. auto.
    + destruct (update_new_period_rewrite (subscriptions db) (s_id e) payment_type pp
                  (month now) (year now) end_ts link) as (g & Hg & Hrows & Hf).
      exists (g e), end_ts, pp. rewrite Hdb. cbn [subscriptions with_subscriptions plans].
      rewrite Hrows. destruct (Hg e) as (_ & Hgu & Hgp & Hga).
      destruct (Hf e) as (Hpp & Hend & Hm & Hy).
      repeat split; try congruence.
      apply in_map_iff. exists e. unfold rewrite_row. rewrite Z.eqb_refl. auto.
  - eexists _, end_ts, pp. rewrite Hdb. cbn [subscriptions with_subscriptions plans].
    split; [apply in_or_app; right; left; reflexivity|].
    repeat split; try reflexivity. exact Hb0.
Qed.

Lemma single_active_row_is_active_row db uid pid r :
  (List.length (active_rows db uid pid) <= 1)%nat ->
  In r (subscriptions db) ->
  s_user_id r = uid -> s_plan_id r = pid -> s_active r = 1 ->
  active_row db uid pid = Some r.
Proof.
  intros Hone Hin Hu Hp Ha.
  assert (Hr : In r (active_rows db uid pid)).
  { apply filter_In. split; [exact Hin|]. rewrite Hu, Hp, Ha, !Z.eqb_refl. reflexivity. }
  unfold active_row, select_subscription. fold (active_rows db uid pid).
  destruct (active_rows db uid pid) as [|x [|y rest]]; cbn in *.
  - destruct Hr.
  - destruct Hr as [->|[]]. reflexivity.
  - lia.
Qed.

(** The active row of the pair after a successful activation, when the pair
    had at most one before. *)
Lemma activation_active_row db now invite uid pid payment_type gid link db' sent :
  ids_fresh db ->
  (List.length (active_rows db uid pid) <= 1)%nat ->
  activate_subscription db now invite uid pid payment_type gid = (Activated link, db', sent) ->
  exists r end_ts part_paid,
    active_row db' uid pid = Some r
    /\ in_current_period r now
    /\ s_end_ts r = end_ts /\ s_part_paid r = part_paid
    /\ end_ts_and_part_paid now payment_type false 0 0 = Some (end_ts, part_paid)
    /\ plans db' = plans db.
Proof.
  intros Hids Hone H.
  destruct (activation_written_row _ _ _ _ _ _ _ _ _ _ H)
    as (r & end_ts & pp & Hin & Hu & Hp & Ha & Hper & Hend & Hpp & Hb & Hplans).
  exists r, end_ts, pp.
  split; [|split; [exact Hper | repeat split; assumption]].
  apply single_active_row_is_active_row; try assumption.
  pose proof (activation_active_rows db now invite uid pid payment_type gid uid pid Hids)
    as Hlen.
  rewrite H in Hlen. cbn [fst snd] in Hlen. lia.
Qed.

(** X13: a user who has paid in full (any of the payment types that buy
    the whole month) is offered nothing for the rest of that month: after
    the successful activation the resolver returns the empty list at every
    moment of the same month and year. *)
Theorem X13_paid_in_full_is_offered_nothing
    db now invite uid pid payment_type gid link db' sent now' :
  ids_fresh db ->
  (List.length (active_rows db uid pid) <= 1)%nat ->
  pays_in_full payment_type ->
  activate_subscription db now invite uid pid payment_type gid = (Activated link, db', sent) ->
  valid_clock now' -> year now' = year now -> month now' = month now ->
  get_payment_options db' now' uid pid = [].
Proof.
  intros Hids Hone Hfull H Hclock Hy Hm.
  destruct (activation_active_row _ _ _ _ _ _ _ _ _ _ Hids Hone H)
    as (r & end_ts & pp & Hrow & _ & Hend & Hpp & Hb & _).
  rewrite end_ts_and_part_paid_eq in Hb.
  assert (Hv : end_ts = timestamp (day5_next_month now) /\ pp = pp_full).
  { destruct Hfull as [->|[->|[->|[->| ->]]]]; injection Hb as <- <-; auto. }
  destruct Hv as [-> ->].
  exact (full_row_no_options_this_period db' now now' uid pid r Hrow Hpp Hend Hy Hm Hclock).
Qed.

Lemma X13_paid_in_full_is_offered_nothing_witness :
  get_payment_options
    (snd (fst (activate_subscription sample_db_first_part (nov2026 15 12 0)
                 (Some sample_link) 42 1 second_part None)))
    (nov2026 28 9 30) 42 1 = [].
Proof.
  apply (X13_paid_in_full_is_offered_nothing sample_db_first_part (nov2026 15 12 0)
           (Some sample_link) 42 1 second_part None sample_link _
           (snd (activate_subscription sample_db_first_part (nov2026 15 12 0)
                   (Some sample_link) 42 1 second_part None))).
  - split.
    + constructor; [intros [] | constructor].
    + intros s [<-|[]]. vm_compute. intros H. discriminate H.
  - vm_compute. lia.
  - right. right. right. left. reflexivity.
  - vm_compute. reflexivity.
  - repeat split; cbn; lia.
  - reflexivity.
  - reflexivity.
Defined.

Lemma options_for_first_part_paid P now :
  options_for P now true
  = [(if is_payment_period_active now then second_part else second_part_late, P / 2)].
Proof.
  unfold options_for, is_payment_period_active.
  destruct (Z.leb_spec 21 (day now)) as [H21|H21].
  - rewrite (proj2 (Z.geb_le _ _) H21).
    destruct (Z.leb_spec (day now) 5), (Z.leb_spec (day now) 20); try lia.
    rewrite !andb_false_r. reflexivity.
  - assert (Hf : (day now >=? 21) = false) by (rewrite Z.geb_leb; apply Z.leb_gt; lia).
    rewrite Hf.
    destruct ((1 <=? day now) && (day now <=? 5)); [reflexivity|].
    destruct ((15 <=? day now) && (day now <=? 20)); reflexivity.
Qed.

(** X14: after a successful payment of the first part, and until the access
    it buys runs out (day 15, 23:59:59), the resolver offers the payer one
    option only, the second part at half the price ([second_part] in the
    payment windows, [second_part_late] between them); and
    [can_user_pay_partial] answers yes at every moment of that month. *)
Theorem X14_first_part_then_second_part
    db now invite uid pid gid link db' sent plan now' :
  ids_fresh db ->
  (List.length (active_rows db uid pid) <= 1)%nat ->
  select_plan db pid = Some plan ->
  activate_subscription db now invite uid pid partial gid = (Activated link, db', sent) ->
  year now' = year now -> month now' = month now ->
  can_user_pay_partial db' now' uid pid = true
  /\ (time_time now' < timestamp (day15_this_month now) ->
      map option_kind (get_payment_options db' now' uid pid)
      = [(if is_payment_period_active now' then second_part else second_part_late,
          p_price_cents plan / 2)]).
Proof.
  intros Hids Hone Hplan H Hy Hm.
  destruct (activation_active_row _ _ _ _ _ _ _ _ _ _ Hids Hone H)
    as (r & end_ts & pp & Hrow & [Hrm Hry] & Hend & Hpp & Hb & Hplans).
  rewrite end_ts_and_part_paid_eq in Hb. injection Hb as <- <-.
  destruct (select_subscription_sound _ _ _ _ _ Hrow) as (Hin & Hu & Hp & _).
  split.
  - unfold can_user_pay_partial, get_current_period. apply existsb_exists.
    exists r. split; [exact Hin|].
    rewrite Hu, Hp, Hrm, Hry, Hm, Hy, Hpp, !Z.eqb_refl. reflexivity.
  - intros Hrun.
    assert (Hplan' : select_plan db' pid = Some plan)
      by (unfold select_plan in *; rewrite Hplans; exact Hplan).
    destruct (first_part_running_options db' now' uid pid r plan Hplan' Hrow Hpp)
      as (Hk & _).
    + split; congruence.
    + rewrite Hend. lia.
    + rewrite Hk. apply options_for_first_part_paid.
Qed.

Lemma X14_first_part_then_second_part_witness :
  can_user_pay_partial
    (snd (fst (activate_subscription sample_db (nov2026 3 10 0) (Some sample_link) 42 1
                 partial None)))
    (nov2026 28 9 30) 42 1 = true.
Proof.
  apply (proj1 (X14_first_part_then_second_part sample_db (nov2026 3 10 0)
                  (Some sample_link) 42 1 None sample_link _
                  (snd (activate_subscription sample_db (nov2026 3 10 0) (Some sample_link)
                          42 1 partial None))
                  sample_plan (nov2026 28 9 30)
                  (conj (NoDup_nil _) (fun s (H : In s []) => match H with end))
                  (Nat.le_0_l 1) eq_refl eq_refl eq_refl eq_refl)).
Defined.

(** X15: for a payment type the function has no branch for (['renewal']),
    an activation that finds the plan, a group and an invite link raises
    after the link has been requested: the unban and the link request are
    sent, no row is written, and [got_payment] records no promo usage. *)
Theorem X15_renewal_type_writes_nothing db now invite uid pid gid plan m y promo :
  select_plan db pid = Some plan ->
  truthy (if truthy (p_group_id plan) then p_group_id plan else gid) = true ->
  truthy_str invite = true ->
  let target := if truthy (p_group_id plan) then p_group_id plan else gid in
  let sent := [unban_chat_member target uid; createChatInviteLink target 604800 1] in
  activate_subscription db now invite uid pid renewal gid
  = (Raised "UnboundLocalError", db, sent)
  /\ (truthy (p_group_id plan) = true ->
      got_payment db now invite uid (mkPayload pid renewal m y promo) = (db, sent)).
Proof.
  intros Hplan Hg Hinv. cbn zeta.
  assert (Hact : forall gid',
    truthy (if truthy (p_group_id plan) then p_group_id plan else gid') = true ->
    activate_subscription db now invite uid pid renewal gid'
    = (Raised "UnboundLocalError", db,
       [unban_chat_member (if truthy (p_group_id plan) then p_group_id plan else gid') uid;
        createChatInviteLink (if truthy (p_group_id plan) then p_group_id plan else gid')
          604800 1])).
  { intros gid' Hg'. unfold activate_subscription, get_current_period.
    rewrite Hplan, Hg', Hinv. reflexivity. }
  split; [apply Hact; exact Hg|].
  intros Hpg. unfold got_payment. cbn [pl_plan_id pl_payment_type].
  rewrite Hact by (rewrite Hpg; exact Hpg).
  rewrite Hpg. reflexivity.
Qed.

Lemma X15_renewal_type_writes_nothing_witness :
  activate_subscription sample_db (nov2026 3 10 0) (Some sample_link) 42 1 renewal None
  = (Raised "UnboundLocalError", sample_db,
     [unban_chat_member (Some (-1001234567890)) 42;
      createChatInviteLink (Some (-1001234567890)) 604800 1]).
Proof.
  exact (proj1 (X15_renewal_type_writes_nothing sample_db (nov2026 3 10 0)
                  (Some sample_link) 42 1 None sample_plan 11 2026 None
                  eq_refl eq_refl eq_refl)).
Defined.

(** ** Expiration sweep, for every pass *)

Lemma with_subscriptions_same db :
  with_subscriptions db (subscriptions db) (subscriptions_seq db) = db.
Proof. destruct db; reflexivity. Qed.

Lemma revoke_if_step rest sub_id rows :
  map (revoke_if rest) (deactivate rows sub_id) = map (revoke_if (sub_id :: rest)) rows.
Proof.
  unfold deactivate. rewrite map_map. apply map_ext. intros s.
  unfold revoke_if. cbn [existsb].
  destruct (s_id s =? sub_id); cbn [orb]; [|reflexivity].
  change (s_id (mkSubscription (s_id s) (s_user_id s) (s_plan_id s) (s_start_ts s)
                  (s_end_ts s) 0 (s_invite_link s) 1 (s_group_id s) (s_payment_type s)
                  (s_current_period_month s) (s_current_period_year s) (s_part_paid s)
                  (s_next_payment_date s))) with (s_id s).
  destruct (existsb (Z.eqb (s_id s)) rest); reflexivity.
Qed.

(** The database after the loop: the rows whose id was fetched are
    revoked, nothing else changes. *)
Lemma revoke_all_db now notice fetched : forall db,
  fst (revoke_all db now notice fetched)
  = with_subscriptions db (map (revoke_if (map s_id fetched)) (subscriptions db))
      (subscriptions_seq db).
Proof.
  induction fetched as [|x rest IH]; intros db; cbn [revoke_all map].
  - cbn [fst]. rewrite (map_ext (revoke_if []) (fun s => s)) by reflexivity.
    rewrite map_id. symmetry. apply with_subscriptions_same.
  - destruct (revoke_all _ now notice rest) as [db2 sent] eqn:Hrest. cbn [fst].
    change db2 with (fst (db2, sent)). rewrite <- Hrest, IH.
    cbn [subscriptions subscriptions_seq with_subscriptions plans users promo_codes
           promo_usage promo_usage_seq manual_payments].
    rewrite revoke_if_step. reflexivity.
Qed.

(** What a pass comes to, at any time: some ids are revoked. *)
Lemma check_expirations_pass_db db now :
  exists ids,
    fst (check_expirations_pass db now)
    = with_subscriptions db (map (revoke_if ids) (subscriptions db)) (subscriptions_seq db).
Proof.
  assert (Hnone : exists ids,
             fst (db, @nil Request)
             = with_subscriptions db (map (revoke_if ids) (subscriptions db))
                 (subscriptions_seq db)).
  { exists []. cbn [fst]. rewrite (map_ext (revoke_if []) (fun s => s)) by reflexivity.
    rewrite map_id. symmetry. apply with_subscriptions_same. }
  unfold check_expirations_pass, get_current_period.
  destruct ((day now =? 6) && (hour now =? 0) && (minute now =? 0));
    [destruct (execute _ _); [eexists; apply revoke_all_db | exact Hnone]|].
  destruct ((day now =? 21) && (hour now =? 0) && (minute now =? 0));
    [destruct (execute _ _); [eexists; apply revoke_all_db | exact Hnone]|].
  destruct ((hour now =? 1) && (minute now =? 0));
    [destruct (execute _ _); [eexists; apply revoke_all_db | exact Hnone]|].
  exact Hnone.
Qed.

(** X16: a pass of the expiration loop, at any time, only revokes: it
    neither adds nor removes rows, leaves the payment fields of every row
    (payer, plan, start and end, payment type, period, part paid) as they
    were, never turns a revoked row active again, and leaves the plans, the
    users, the promo tables and the manual payments untouched. *)
Theorem X16_pass_only_revokes db now :
  let db' := fst (check_expirations_pass db now) in
  map payment_state (subscriptions db') = map payment_state (subscriptions db)
  /\ (forall s', In s' (subscriptions db') -> s_active s' = 1 -> In s' (subscriptions db))
  /\ plans db' = plans db /\ users db' = users db
  /\ promo_codes db' = promo_codes db /\ promo_usage db' = promo_usage db
  /\ manual_payments db' = manual_payments db.
Proof.
  cbn zeta. destruct (check_expirations_pass_db db now) as [ids ->].
  cbn [subscriptions with_subscriptions plans users promo_codes promo_usage
         manual_payments].
  split; [|split; [|repeat split]].
  - rewrite map_map. apply map_ext. intros s. unfold revoke_if.
    destruct (existsb (Z.eqb (s_id s)) ids); reflexivity.
  - intros s' Hs' Ha. apply in_map_iff in Hs'. destruct Hs' as (s & <- & Hs).
    unfold revoke_if in *. destruct (existsb (Z.eqb (s_id s)) ids); [discriminate Ha|].
    exact Hs.
Qed.

Lemma filter_nil_forall {A} (f : A -> bool) l :
  (forall x, In x l -> f x = false) -> filter f l = [].
Proof.
  induction l as [|x l IH]; cbn; intros H; [reflexivity|].
  rewrite (H x (or_introl eq_refl)). apply IH. intros y Hy. apply H. right. exact Hy.
Qed.


Lemma daily_pass_eq db now :
  hour now = 1 -> minute now = 0 ->
  check_expirations_pass db now
  = revoke_all db now None (select_expired db (time_time now)).
Proof.
  intros Hh Hm. unfold check_expirations_pass, get_current_period.
  rewrite Hh, Hm. cbn [Z.eqb]. rewrite !andb_false_r. cbn [andb].
  destruct (sweep_statements (select_expired db (time_time now))) as (_ & _ & ->).
  reflexivity.
Qed.



(** X18: the daily pass is idempotent: run again at the same moment it
    finds nothing to revoke, changes nothing and sends nothing. *)
Theorem X18_daily_pass_idempotent db now :
  hour now = 1 -> minute now = 0 ->
  check_expirations_pass (fst (check_expirations_pass db now)) now
  = (fst (check_expirations_pass db now), []).
Proof.
  intros Hh Hm. rewrite (daily_pass_eq _ now Hh Hm).
  assert (Hnone : select_expired (fst (check_expirations_pass db now)) (time_time now) = []).
  { rewrite (daily_pass_eq db now Hh Hm), revoke_all_db.
    unfold select_expired at 1.
    cbn [subscriptions with_subscriptions].
    apply filter_nil_forall. intros s' Hs'.
    apply in_map_iff in Hs'. destruct Hs' as (s & <- & Hs).
    unfold revoke_if.
    destruct (existsb (Z.eqb (s_id s)) (map s_id (select_expired db (time_time now))))
      eqn:Hex.
    - rewrite andb_false_iff. left. rewrite andb_false_iff. right. reflexivity.
    - match goal with
      | |- context [joined ?d s] => change (joined d s) with (joined db s)
      end.
      destruct (joined db s && (s_active s =? 1) && (s_end_ts s <? time_time now)) eqn:Hp;
        [|reflexivity].
      exfalso.
      assert (Hsel : In s (select_expired db (time_time now)))
        by (unfold select_expired; apply filter_In; split; assumption).
      assert (Hin : existsb (Z.eqb (s_id s))
                      (map s_id (select_expired db (time_time now))) = true).
      { apply existsb_exists. exists (s_id s). split; [apply in_map; exact Hsel|].
        apply Z.eqb_refl. }
      congruence. }
  rewrite Hnone. reflexivity.
Qed.

Lemma X18_daily_pass_idempotent_witness :
  check_expirations_pass
    (fst (check_expirations_pass sample_db_first_part (nov2026 16 1 0))) (nov2026 16 1 0)
  = (fst (check_expirations_pass sample_db_first_part (nov2026 16 1 0)), []).
Proof.
  apply X18_daily_pass_idempotent; reflexivity.
Defined.

(** ** Promo codes and the payment handlers *)

Lemma limit_reached_false (limit : option Z) (count : Z) :
  truthy limit && (count >=? match limit with Some m => m | None => 0 end) = false
  <-> forall m, limit = Some m -> m <> 0 -> count < m.
Proof.
  destruct limit as [m|]; cbn [truthy].
  - destruct (Z.eqb_spec m 0) as [->|Hnz]; cbn [negb andb].
    + split; [intros _ m' [= <-] H; contradiction | reflexivity].
    + rewrite Z.geb_leb. destruct (Z.leb_spec m count) as [Hle|Hlt].
      * split; [discriminate | intros H; specialize (H m eq_refl Hnz); lia].
      * split; [intros _ m' [= <-] _; exact Hlt | reflexivity].
  - split; [intros _ m [=] | reflexivity].
Qed.

Lemma expired_false (expires : option Z) (now_ts : Z) :
  truthy expires && (match expires with Some e => e | None => 0 end <? now_ts) = false
  <-> forall e, expires = Some e -> e <> 0 -> now_ts <= e.
Proof.
  destruct expires as [e|]; cbn [truthy].
  - destruct (Z.eqb_spec e 0) as [->|Hnz]; cbn [negb andb].
    + split; [intros _ e' [= <-] H; contradiction | reflexivity].
    + destruct (Z.ltb_spec e now_ts) as [Hlt|Hle].
      * split; [discriminate | intros H; specialize (H e eq_refl Hnz); lia].
      * split; [intros _ e' [= <-] _; exact Hle | reflexivity].
  - split; [intros _ e [=] | reflexivity].
Qed.

(** X19: [can_use_promo_code] accepts a code for a user exactly when the
    user has no usage row for it, the code exists and is active, its use
    count is below its limit (if it has one) and its expiry (if it has one)
    has not passed. *)
Theorem X19_can_use_promo_code_iff db now promo_id user_id :
  fst (can_use_promo_code db now promo_id user_id) = true
  <-> usage_count db promo_id user_id = 0%nat
      /\ exists promo,
           get_promo_code_by_id db promo_id = Some promo
           /\ pc_is_active promo <> 0
           /\ (forall m, pc_max_uses promo = Some m -> m <> 0 -> pc_used_count promo < m)
           /\ (forall e, pc_expires_ts promo = Some e -> e <> 0 -> time_time now <= e).
Proof.
  unfold can_use_promo_code, usage_count.
  destruct (select_promo_usage db promo_id user_id) as [|x rest]; cbn [List.length fst].
  2:{ split; [discriminate | intros [H _]; discriminate H]. }
  destruct (get_promo_code_by_id db promo_id) as [promo|]; cbn [fst].
  2:{ split; [discriminate | intros [_ (p & [=] & _)]]. }
  destruct (Z.eqb_spec (pc_is_active promo) 0) as [Hact|Hact]; cbn [fst].
  { split; [discriminate | intros [_ (p & [= <-] & H & _)]; contradiction]. }
  pose proof (limit_reached_false (pc_max_uses promo) (pc_used_count promo)) as Hmax.
  pose proof (expired_false (pc_expires_ts promo) (time_time now)) as Hexp.
  destruct (truthy (pc_max_uses promo) && _); cbn [fst].
  { split; [discriminate|]. intros [_ (p & [= <-] & _ & Hm & _)].
    apply Hmax in Hm. discriminate Hm. }
  destruct (truthy (pc_expires_ts promo) && _); cbn [fst].
  { split; [discriminate|]. intros [_ (p & [= <-] & _ & _ & He)].
    apply Hexp in He. discriminate He. }
  split; [|reflexivity]. intros _. split; [reflexivity|].
  exists promo. repeat split; [exact Hact | apply Hmax | apply Hexp]; reflexivity.
Qed.

Lemma find_map_same {A} (p : A -> bool) (g : A -> A) l :
  (forall x, p (g x) = p x) -> find p (map g l) = option_map g (find p l).
Proof.
  intros Hp. induction l as [|x l IH]; cbn; [reflexivity|].
  rewrite Hp. destruct (p x); [reflexivity | exact IH].
Qed.

(** X20: once a usage is recorded for a user and a code,
    [can_use_promo_code] refuses that code to that user at any later time;
    the usage rows of every other user, and of every other code, are as
    they were. *)
Theorem X20_recorded_usage_blocks_the_user db now promo_id user_id :
  (forall now', fst (can_use_promo_code (record_promo_usage db now promo_id user_id) now'
                       promo_id user_id) = false)
  /\ (forall p u, p <> promo_id \/ u <> user_id ->
        select_promo_usage (record_promo_usage db now promo_id user_id) p u
        = select_promo_usage db p u).
Proof.
  split.
  - intros now'. apply can_use_promo_code_refuses_used.
    rewrite record_promo_usage_appends. lia.
  - intros p u Hne. unfold select_promo_usage, record_promo_usage. cbn [promo_usage].
    rewrite filter_app. cbn [filter pu_promo_id pu_user_id].
    destruct (Z.eqb_spec promo_id p) as [->|_]; destruct (Z.eqb_spec user_id u) as [->|_];
      cbn [andb]; try apply app_nil_r.
    destruct Hne as [H|H]; contradiction.
Qed.

(** X21: recording a usage raises the counter of the code by one; when
    that reaches the limit of the code, the code is refused to every user
    from then on. *)
Theorem X21_limit_reached_blocks_everyone db now promo_id user_id promo m :
  get_promo_code_by_id db promo_id = Some promo ->
  pc_max_uses promo = Some m -> m <> 0 -> m <= pc_used_count promo + 1 ->
  let db' := record_promo_usage db now promo_id user_id in
  (exists promo', get_promo_code_by_id db' promo_id = Some promo'
                  /\ pc_used_count promo' = pc_used_count promo + 1
                  /\ pc_max_uses promo' = Some m)
  /\ forall u now', fst (can_use_promo_code db' now' promo_id u) = false.
Proof.
  intros Hget Hmax Hnz Hle. cbn zeta.
  assert (Hget' :
    get_promo_code_by_id (record_promo_usage db now promo_id user_id) promo_id
    = Some (mkPromoCode (pc_id promo) (pc_code promo) (pc_discount_percent promo)
              (pc_discount_fixed_cents promo) (pc_is_active promo) (pc_used_count promo + 1)
              (pc_max_uses promo) (pc_expires_ts promo))).
  { unfold get_promo_code_by_id in *. unfold record_promo_usage. cbn [promo_codes].
    rewrite find_map_same.
    - rewrite Hget. cbn [option_map].
      apply find_some in Hget. destruct Hget as [_ Hid]. rewrite Hid. reflexivity.
    - intros x. destruct (pc_id x =? promo_id) eqn:E; cbn [pc_id]; exact E. }
  split.
  - eexists. split; [exact Hget'|]. split; [reflexivity | exact Hmax].
  - intros u now'. unfold can_use_promo_code.
    destruct (select_promo_usage _ promo_id u); [|reflexivity].
    rewrite Hget'. cbn [pc_is_active pc_max_uses pc_used_count].
    destruct (pc_is_active promo =? 0); [reflexivity|].
    rewrite Hmax. cbn [truthy].
    destruct (Z.eqb_spec m 0) as [E|_]; [contradiction|]. cbn [negb andb].
    rewrite Z.geb_leb. destruct (Z.leb_spec m (pc_used_count promo + 1)); [reflexivity|lia].
Qed.

Lemma X21_limit_reached_blocks_everyone_witness :
  fst (can_use_promo_code
         (record_promo_usage
            (mkDB [] [] [] 0 [mkPromoCode 7 "ONCE" (Some 10) (Some 0) 1 0 (Some 1) None]
               [] 0 [])
            (nov2026 3 10 0) 7 42)
         (nov2026 4 10 0) 7 43) = false.
Proof.
  exact (proj2 (X21_limit_reached_blocks_everyone
                  (mkDB [] [] [] 0
                     [mkPromoCode 7 "ONCE" (Some 10) (Some 0) 1 0 (Some 1) None] [] 0 [])
                  (nov2026 3 10 0) 7 42
                  (mkPromoCode 7 "ONCE" (Some 10) (Some 0) 1 0 (Some 1) None) 1
                  eq_refl eq_refl ltac:(discriminate) ltac:(cbn; lia))
               43 (nov2026 4 10 0)).
Defined.

(** Only the subscriptions and their counter change in an activation. *)
Lemma activation_other_tables db now invite uid pid payment_type gid :
  let db' := snd (fst (activate_subscription db now invite uid pid payment_type gid)) in
  plans db' = plans db /\ users db' = users db
  /\ promo_codes db' = promo_codes db /\ promo_usage db' = promo_usage db
  /\ promo_usage_seq db' = promo_usage_seq db
  /\ manual_payments db' = manual_payments db.
Proof.
  cbn zeta.
  destruct (activate_subscription_cases db now invite uid pid payment_type gid)
    as [E|[link E]]; [rewrite E; repeat split|].
  destruct (activate_subscription db now invite uid pid payment_type gid)
    as [[result db'] sent] eqn:Hact.
  cbn [fst snd] in *. subst result.
  destruct (activate_subscription_db _ _ _ _ _ _ _ _ _ _ Hact)
    as (plan & end_ts & pp & _ & _ & _ & ->).
  destruct (active_row db uid pid); repeat split.
Qed.

(** X22: [got_payment] records a promo usage only for a payment it has
    activated.  When the activation does not succeed the database is left as
    it was; when it succeeds, the usage table gains exactly one row (this
    user, this code, this moment) if the payload carries a positive promo id,
    and none otherwise. *)
Theorem X22_got_payment_records_usage_on_success db now invite user_id payload :
  let result :=
    fst (fst (activate_subscription db now invite user_id (pl_plan_id payload)
                (pl_payment_type payload) None)) in
  let db' := fst (got_payment db now invite user_id payload) in
  ((forall link, result <> Activated link) -> db' = db)
  /\ ((exists link, result = Activated link) ->
      promo_usage db'
      = promo_usage db
        ++ match pl_promo_id payload with
           | Some promo_id =>
               if 0 <? promo_id
               then [mkPromoUsage (promo_usage_seq db + 1) promo_id user_id (time_time now)]
               else []
           | None => []
           end).
Proof.
  cbn zeta. unfold got_payment.
  pose proof (activation_other_tables db now invite user_id (pl_plan_id payload)
                (pl_payment_type payload) None) as Htab.
  pose proof (activate_subscription_writes_only_on_success db now invite user_id
                (pl_plan_id payload) (pl_payment_type payload) None) as Hfail.
  cbn zeta in Htab.
  destruct (activate_subscription db now invite user_id (pl_plan_id payload)
              (pl_payment_type payload) None) as [[result db1] sent].
  cbn [fst snd] in *. destruct Htab as (_ & _ & _ & Hu & Hseq & _).
  split.
  - intros Hnot. destruct result as [link|msg|exc]; cbn [fst].
    + destruct (Hnot link eq_refl).
    + apply Hfail. exact Hnot.
    + apply Hfail. exact Hnot.
  - intros [link ->].
    destruct (pl_promo_id payload) as [p|]; cbn [fst]; [|rewrite Hu, app_nil_r; reflexivity].
    destruct (Z.eqb_spec p 0) as [->|Hp]; cbn [negb andb fst].
    + rewrite Hu, app_nil_r. reflexivity.
    + rewrite Z.gtb_ltb. destruct (0 <? p); cbn [fst].
      * unfold record_promo_usage. cbn [promo_usage]. rewrite Hu, Hseq. reflexivity.
      * rewrite Hu, app_nil_r. reflexivity.
Qed.

Lemma select_pending_payment_ext d1 d2 q :
  manual_payments d1 = manual_payments d2 ->
  select_pending_payment d1 q = select_pending_payment d2 q.
Proof. unfold select_pending_payment. intros ->. reflexivity. Qed.

Lemma select_pending_payment_approved db payment_id admin_id ts :
  select_pending_payment (approve_manual_payment db payment_id admin_id ts) payment_id = None.
Proof.
  unfold select_pending_payment, approve_manual_payment. cbn [manual_payments].
  induction (manual_payments db) as [|m l IH]; cbn [map find]; [reflexivity|].
  destruct (mp_id m =? payment_id) eqn:E.
  - cbn [mp_id mp_status]. rewrite E. cbn [andb]. exact IH.
  - rewrite E. cbn [andb]. exact IH.
Qed.

Lemma select_pending_payment_other db payment_id admin_id ts q :
  q <> payment_id ->
  select_pending_payment (approve_manual_payment db payment_id admin_id ts) q
  = select_pending_payment db q.
Proof.
  intros Hq. unfold select_pending_payment, approve_manual_payment. cbn [manual_payments].
  induction (manual_payments db) as [|m l IH]; cbn [map find]; [reflexivity|].
  destruct (Z.eqb_spec (mp_id m) payment_id) as [E|E].
  - cbn [mp_id mp_status]. destruct (Z.eqb_spec (mp_id m) q) as [E'|_]; [congruence|].
    cbn [andb]. exact IH.
  - destruct (_ && _); [reflexivity | exact IH].
Qed.

(** The manual payments after the callback: those of the database with the
    payment approved when the activation succeeded, unchanged otherwise. *)
Lemma callback_approve_payment_payments ADMIN_IDS db now invite from_user payment_id payment :
  existsb (Z.eqb from_user) ADMIN_IDS = true ->
  select_pending_payment db payment_id = Some payment ->
  let result :=
    fst (fst (activate_subscription db now invite (mp_user_id payment) (mp_plan_id payment)
                (mp_payment_type payment) None)) in
  let db' := fst (callback_approve_payment ADMIN_IDS db now invite from_user payment_id) in
  ((exists link, result = Activated link) ->
   manual_payments db'
   = manual_payments (approve_manual_payment db payment_id from_user (time_time now)))
  /\ ((forall link, result <> Activated link) -> db' = db).
Proof.
  intros Hadmin Hsel. cbn zeta. unfold callback_approve_payment.
  rewrite Hadmin, Hsel. cbn [negb].
  pose proof (activation_other_tables db now invite (mp_user_id payment) (mp_plan_id payment)
                (mp_payment_type payment) None) as Htab.
  pose proof (activate_subscription_writes_only_on_success db now invite (mp_user_id payment)
                (mp_plan_id payment) (mp_payment_type payment) None) as Hfail.
  cbn zeta in Htab.
  destruct (activate_subscription db now invite (mp_user_id payment) (mp_plan_id payment)
              (mp_payment_type payment) None) as [[result db1] sent].
  cbn [fst snd] in *. destruct Htab as (_ & _ & _ & _ & _ & Hm).
  split.
  - intros [link ->].
    destruct (truthy (mp_promo_id payment));
      match goal with |- context [select_plan ?d ?p] => destruct (select_plan d p) end;
      cbn [fst record_promo_usage approve_manual_payment manual_payments];
      rewrite Hm; reflexivity.
  - intros Hnot. destruct result as [link|msg|exc]; cbn [fst].
    + destruct (Hnot link eq_refl).
    + apply Hfail. exact Hnot.
    + apply Hfail. exact Hnot.
Qed.

(** X23: an administrator's approval of a pending manual payment.  When the
    activation succeeds the payment is no longer pending, so approving it
    again, by any administrator at any time, changes nothing and sends
    nothing; when the activation fails the database is as it was and the
    payment stays pending.  In both cases the other payments are pending or
    not as before. *)
Theorem X23_approval_settles_the_payment ADMIN_IDS db now invite from_user payment_id payment :
  existsb (Z.eqb from_user) ADMIN_IDS = true ->
  select_pending_payment db payment_id = Some payment ->
  let result :=
    fst (fst (activate_subscription db now invite (mp_user_id payment) (mp_plan_id payment)
                (mp_payment_type payment) None)) in
  let db' := fst (callback_approve_payment ADMIN_IDS db now invite from_user payment_id) in
  ((exists link, result = Activated link) ->
   select_pending_payment db' payment_id = None
   /\ forall now' invite' from_user',
        callback_approve_payment ADMIN_IDS db' now' invite' from_user' payment_id = (db', []))
  /\ ((forall link, result <> Activated link) ->
      db' = db /\ select_pending_payment db' payment_id = Some payment)
  /\ (forall q, q <> payment_id ->
        select_pending_payment db' q = select_pending_payment db q).
Proof.
  intros Hadmin Hsel. cbn zeta.
  destruct (callback_approve_payment_payments ADMIN_IDS db now invite from_user payment_id
              payment Hadmin Hsel) as [Hok Hfail].
  cbn zeta in Hok, Hfail.
  set (db' := fst (callback_approve_payment ADMIN_IDS db now invite from_user payment_id)) in *.
  assert (Hnone : (exists link,
             fst (fst (activate_subscription db now invite (mp_user_id payment)
                         (mp_plan_id payment) (mp_payment_type payment) None))
             = Activated link) ->
          select_pending_payment db' payment_id = None).
  { intros H. rewrite (select_pending_payment_ext _ _ _ (Hok H)).
    apply select_pending_payment_approved. }
  split; [|split].
  - intros H. split; [exact (Hnone H)|].
    intros now' invite' from_user'. unfold callback_approve_payment at 1.
    rewrite (Hnone H). destruct (negb _); reflexivity.
  - intros H. rewrite (Hfail H). split; [reflexivity | exact Hsel].
  - intros q Hq.
    destruct (fst (fst (activate_subscription db now invite (mp_user_id payment)
                          (mp_plan_id payment) (mp_payment_type payment) None)))
      as [link|msg|exc].
    + rewrite (select_pending_payment_ext _ _ _ (Hok (ex_intro _ link eq_refl))).
      apply select_pending_payment_other. exact Hq.
    + rewrite Hfail; [reflexivity | intros link; discriminate].
    + rewrite Hfail; [reflexivity | intros link; discriminate].
Qed.

Lemma X23_approval_settles_the_payment_witness :
  select_pending_payment
    (fst (callback_approve_payment [1000] sample_db_two_pending (nov2026 3 10 0)
            (Some sample_link) 1000 1)) 1 = None.
Proof.
  assert (H : exists link,
             fst (fst (activate_subscription sample_db_two_pending (nov2026 3 10 0)
                         (Some sample_link)
                         (mp_user_id (mkManualPayment 1 42 1 st_pending None None full (Some 7)))
                         (mp_plan_id (mkManualPayment 1 42 1 st_pending None None full (Some 7)))
                         (mp_payment_type
                            (mkManualPayment 1 42 1 st_pending None None full (Some 7)))
                         None))
             = Activated link)
    by (exists sample_link; vm_compute; reflexivity).
  exact (proj1 (proj1 (X23_approval_settles_the_payment [1000] sample_db_two_pending
                         (nov2026 3 10 0) (Some sample_link) 1000 1
                         (mkManualPayment 1 42 1 st_pending None None full (Some 7))
                         eq_refl eq_refl) H)).
Defined.

(** ** Managed groups *)

Lemma get_default_group_none managed_groups :
  get_default_group managed_groups = None -> managed_groups = [].
Proof.
  unfold get_default_group. destruct (find _ _); [discriminate|].
  destruct managed_groups; [reflexivity | discriminate].
Qed.

Lemma set_default_group_find managed_groups chat_id :
  find (fun g => g_is_default g =? 1) (set_default_group managed_groups chat_id)
  = option_map
      (fun g => mkGroup (g_chat_id g) (g_title g) 1 (g_type g) (g_added_date g))
      (find (fun g => g_chat_id g =? chat_id) managed_groups).
Proof.
  unfold set_default_group.
  induction managed_groups as [|g l IH]; cbn [map find]; [reflexivity|].
  cbn [g_is_default]. destruct (g_chat_id g =? chat_id); cbn; [reflexivity | exact IH].
Qed.

(** X24: [set_default_group] followed by [get_default_group].  Afterwards
    the groups marked default are exactly those with the given chat id, and
    the chat ids of the table are as before; [get_default_group] then
    returns that chat id when the table has it, and otherwise (no group is
    marked) the chat id of the first group, or [None] on an empty table. *)
Theorem X24_set_then_get_default_group managed_groups chat_id :
  let groups' := set_default_group managed_groups chat_id in
  map g_chat_id groups' = map g_chat_id managed_groups
  /\ (forall g, In g groups' -> g_is_default g = 1 <-> g_chat_id g = chat_id)
  /\ (In chat_id (map g_chat_id managed_groups) -> get_default_group groups' = Some chat_id)
  /\ (~ In chat_id (map g_chat_id managed_groups) ->
      get_default_group groups' = hd_error (map g_chat_id managed_groups)).
Proof.
  cbn zeta. split; [|split; [|split]].
  - unfold set_default_group. rewrite map_map. reflexivity.
  - intros g Hin. unfold set_default_group in Hin. apply in_map_iff in Hin.
    destruct Hin as (g0 & <- & _). cbn [g_is_default g_chat_id].
    destruct (Z.eqb_spec (g_chat_id g0) chat_id); split; intros H;
      first [assumption | reflexivity | discriminate | contradiction].
  - intros Hin. unfold get_default_group. rewrite set_default_group_find.
    destruct (find (fun g => g_chat_id g =? chat_id) managed_groups) as [g|] eqn:E.
    + apply find_some in E. destruct E as [_ E]. apply Z.eqb_eq in E.
      cbn. rewrite E. reflexivity.
    + exfalso. apply in_map_iff in Hin. destruct Hin as (g & Hid & Hg).
      apply (find_none _ _ E) in Hg. rewrite Hid, Z.eqb_refl in Hg. discriminate.
  - intros Hnot. unfold get_default_group. rewrite set_default_group_find.
    destruct (find (fun g => g_chat_id g =? chat_id) managed_groups) as [g|] eqn:E.
    + exfalso. apply find_some in E. destruct E as [Hg E]. apply Z.eqb_eq in E.
      apply Hnot. apply in_map_iff. exists g. split; assumption.
    + cbn [option_map]. destruct managed_groups; reflexivity.
Qed.

Lemma insert_or_replace_ids g rows c :
  In c (map g_chat_id (insert_or_replace g rows)) <-> c = g_chat_id g \/ In c (map g_chat_id rows).
Proof.
  induction rows as [|h t IH]; cbn [insert_or_replace].
  - cbn. intuition congruence.
  - destruct (Z.ltb_spec (g_chat_id g) (g_chat_id h)).
    + cbn [map In]. intuition congruence.
    + destruct (Z.eqb_spec (g_chat_id g) (g_chat_id h)) as [E|E].
      * cbn [map In]. rewrite E. intuition congruence.
      * cbn [map In]. rewrite IH. intuition congruence.
Qed.

Lemma insert_or_replace_in g rows : In g (insert_or_replace g rows).
Proof.
  induction rows as [|h t IH]; cbn [insert_or_replace]; [left; reflexivity|].
  destruct (_ <? _); [left; reflexivity|].
  destruct (_ =? _); [left; reflexivity | right; exact IH].
Qed.

Lemma insert_or_replace_others g rows x :
  g_chat_id x <> g_chat_id g ->
  In x (insert_or_replace g rows) <-> In x rows.
Proof.
  intros Hne. induction rows as [|h t IH]; cbn [insert_or_replace].
  - cbn. intuition congruence.
  - destruct (Z.ltb_spec (g_chat_id g) (g_chat_id h)).
    + cbn [In]. intuition congruence.
    + destruct (Z.eqb_spec (g_chat_id g) (g_chat_id h)) as [E|E].
      * cbn [In]. intuition congruence.
      * cbn [In]. rewrite IH. reflexivity.
Qed.

Lemma insert_or_replace_increasing g rows :
  chat_ids_increasing rows -> chat_ids_increasing (insert_or_replace g rows).
Proof.
  unfold chat_ids_increasing.
  induction rows as [|h t IH]; cbn [insert_or_replace]; intros Hs.
  - cbn. constructor; constructor.
  - cbn [map] in Hs. apply StronglySorted_inv in Hs. destruct Hs as [Ht Hh].
    destruct (Z.ltb_spec (g_chat_id g) (g_chat_id h)).
    + cbn [map]. constructor; [constructor; assumption|].
      constructor; [assumption|].
      eapply Forall_impl; [|exact Hh]. cbn. intros; lia.
    + destruct (Z.eqb_spec (g_chat_id g) (g_chat_id h)) as [E|E].
      * cbn [map]. constructor; [assumption|]. rewrite E. exact Hh.
      * cbn [map]. constructor; [apply IH; exact Ht|].
        apply Forall_forall. intros c Hc. apply insert_or_replace_ids in Hc.
        destruct Hc as [->|Hc]; [lia|].
        rewrite Forall_forall in Hh. apply Hh. exact Hc.
Qed.

Lemma length_one_same {A} (l : list A) a b :
  List.length l = 1%nat -> In a l -> In b l -> a = b.
Proof.
  destruct l as [|x [|y t]]; cbn; try discriminate.
  intros _ [<-|[]] [<-|[]]. reflexivity.
Qed.

(** X25: [add_group_to_db] on a table in key order.  The table stays in key
    order (one row per chat id), its chat ids are the old ones and the new
    one, the rows of the other chats are as they were, and
    [get_default_group] finds a group afterwards. *)
Theorem X25_add_group_to_db_keeps_the_table managed_groups now chat_id title chat_type :
  chat_ids_increasing managed_groups ->
  let groups' := add_group_to_db managed_groups now chat_id title chat_type in
  chat_ids_increasing groups'
  /\ (forall c, In c (map g_chat_id groups')
                <-> c = chat_id \/ In c (map g_chat_id managed_groups))
  /\ (forall g, g_chat_id g <> chat_id -> In g groups' <-> In g managed_groups)
  /\ get_default_group groups' <> None.
Proof.
  intros Hs. cbn zeta. unfold add_group_to_db.
  set (new := mkGroup chat_id title 0 chat_type (Some (time_time now))).
  set (mark := fun g =>
         if g_chat_id g =? chat_id
         then mkGroup (g_chat_id g) (g_title g) 1 (g_type g) (g_added_date g) else g).
  assert (Hid : forall l, map g_chat_id (map mark l) = map g_chat_id l).
  { intros l. rewrite map_map. apply map_ext. intros g. unfold mark.
    destruct (_ =? _); reflexivity. }
  assert (Hin : In chat_id (map g_chat_id (insert_or_replace new managed_groups))).
  { apply insert_or_replace_ids. left. reflexivity. }
  assert (Hmark : forall g l, g_chat_id g <> chat_id -> In g (map mark l) <-> In g l).
  { intros g l Hne. rewrite in_map_iff. split.
    - intros (x & Hx & Hl). unfold mark in Hx.
      destruct (Z.eqb_spec (g_chat_id x) chat_id) as [E|E].
      + subst g. cbn in Hne. contradiction.
      + subst x. exact Hl.
    - intros Hl. exists g. split; [|exact Hl]. unfold mark.
      destruct (Z.eqb_spec (g_chat_id g) chat_id); [contradiction | reflexivity]. }
  destruct (List.length (insert_or_replace new managed_groups) =? 1)%nat.
  - split; [|split; [|split]].
    + unfold chat_ids_increasing. rewrite Hid. apply insert_or_replace_increasing. exact Hs.
    + intros c. rewrite Hid. apply (insert_or_replace_ids new).
    + intros g Hne. rewrite Hmark by exact Hne.
      apply (insert_or_replace_others new). exact Hne.
    + intros H. apply get_default_group_none in H.
      rewrite <- Hid, H in Hin. destruct Hin.
  - split; [|split; [|split]].
    + apply insert_or_replace_increasing. exact Hs.
    + intros c. apply (insert_or_replace_ids new).
    + intros g Hne. apply (insert_or_replace_others new). exact Hne.
    + intros H. apply get_default_group_none in H. rewrite H in Hin. destruct Hin.
Qed.

Lemma X25_add_group_to_db_keeps_the_table_witness :
  get_default_group
    (add_group_to_db [mkGroup (-100) (Some "A"%string) 1 "group"%string (Some 5)] (nov2026 3 10 0) (-200)
       (Some "B"%string) "supergroup"%string)
  <> None.
Proof.
  exact (proj2 (proj2 (proj2
    (X25_add_group_to_db_keeps_the_table [mkGroup (-100) (Some "A"%string) 1 "group"%string (Some 5)]
       (nov2026 3 10 0) (-200) (Some "B"%string) "supergroup"%string
       ltac:(constructor; constructor))))).
Defined.

(** X26: the default mark after [add_group_to_db].  The stored row of the
    chat has its mark reset by the [INSERT OR REPLACE]; it is marked again
    only when the table then holds this one group.  So when the table is
    empty or holds only this chat, the result is the single row, marked
    default; when the table holds another chat, the row of the added chat is
    stored unmarked, also when it was the default group before. *)
Theorem X26_add_group_to_db_default_mark managed_groups now chat_id title chat_type :
  chat_ids_increasing managed_groups ->
  let groups' := add_group_to_db managed_groups now chat_id title chat_type in
  ((forall g, In g managed_groups -> g_chat_id g = chat_id) ->
   groups' = [mkGroup chat_id title 1 chat_type (Some (time_time now))])
  /\ ((exists g, In g managed_groups /\ g_chat_id g <> chat_id) ->
      forall g, In g groups' -> g_chat_id g = chat_id ->
                g = mkGroup chat_id title 0 chat_type (Some (time_time now))).
Proof.
  intros Hs. cbn zeta. unfold add_group_to_db.
  set (new := mkGroup chat_id title 0 chat_type (Some (time_time now))).
  split.
  - intros Hall. destruct managed_groups as [|x [|y t]].
    + cbn. rewrite Z.eqb_refl. reflexivity.
    + cbn [insert_or_replace]. pose proof (Hall x (or_introl eq_refl)) as Hx.
      change (g_chat_id new) with chat_id. rewrite Hx, Z.ltb_irrefl, Z.eqb_refl.
      cbn. rewrite Z.eqb_refl. reflexivity.
    + exfalso. pose proof (Hall x (or_introl eq_refl)) as Hx.
      pose proof (Hall y (or_intror (or_introl eq_refl))) as Hy.
      unfold chat_ids_increasing in Hs. cbn [map] in Hs.
      apply StronglySorted_inv in Hs. destruct Hs as [_ Hs].
      apply Forall_inv in Hs. lia.
  - intros (x & Hx & Hne) g Hg Hid.
    assert (Hlen : (List.length (insert_or_replace new managed_groups) =? 1)%nat = false).
    { apply Nat.eqb_neq. intros Hlen. apply Hne.
      assert (E : x = new).
      { apply (length_one_same _ _ _ Hlen).
        - apply (insert_or_replace_others new); assumption.
        - apply insert_or_replace_in. }
      rewrite E. reflexivity. }
    rewrite Hlen in Hg.
    pose proof (insert_or_replace_increasing new _ Hs) as Hs'.
    pose proof (insert_or_replace_in new managed_groups) as Hnew.
    unfold chat_ids_increasing in Hs'.
    revert Hs' Hg Hnew. generalize (insert_or_replace new managed_groups) as l.
    induction l as [|h t IH]; intros Hs' Hg Hnew; [destruct Hg|].
    cbn [map] in Hs'. apply StronglySorted_inv in Hs'. destruct Hs' as [Ht Hh].
    rewrite Forall_forall in Hh.
    destruct Hg as [->|Hg], Hnew as [E|Hnew].
    + exact E.
    + exfalso. assert (g_chat_id g < g_chat_id new)
        by (apply Hh; apply in_map; exact Hnew).
      cbn in H. lia.
    + exfalso. subst h. assert (g_chat_id new < g_chat_id g)
        by (apply Hh; apply in_map; exact Hg).
      cbn in H. lia.
    + apply IH; assumption.
Qed.

Lemma X26_add_group_to_db_default_mark_witness :
  add_group_to_db [mkGroup (-100) (Some "A"%string) 1 "group"%string (Some 5)] (nov2026 3 10 0) (-100)
    (Some "A"%string) "group"%string
  = [mkGroup (-100) (Some "A"%string) 1 "group"%string (Some (time_time (nov2026 3 10 0)))].
Proof.
  apply (proj1 (X26_add_group_to_db_default_mark [mkGroup (-100) (Some "A"%string) 1 "group"%string (Some 5)]
                  (nov2026 3 10 0) (-100) (Some "A"%string) "group"%string
                  ltac:(constructor; constructor))).
  intros g [<-|[]]. reflexivity.
Defined.


(** * The ledger the bot can have *)

Lemma written_by_activation_later now later s :
  time_time now <= time_time later ->
  written_by_activation now s -> written_by_activation later s.
Proof.
  intros Hle (paid & Hcal & Hpaid & Hrest). exists paid.
  split; [exact Hcal|]. split; [lia | exact Hrest].
Qed.

Lemma written_by_activation_state now s s' :
  payment_state s' = payment_state s ->
  written_by_activation now s -> written_by_activation now s'.
Proof.
  unfold payment_state. intros E (paid & Hcal & Hpaid & Hm & Hy & Hpp).
  injection E as _ _ _ _ Eend _ Em Ey Epp.
  exists paid. rewrite Eend, Em, Ey, Epp. auto.
Qed.

(** The rows of the table after a successful activation: the rows it had,
    and one row credited for the current period with the end and the part the
    function computes for the payment type. *)
Lemma activation_rows_written db now invite uid pid payment_type gid link db' sent :
  NoDup (map s_id (subscriptions db)) ->
  activate_subscription db now invite uid pid payment_type gid = (Activated link, db', sent) ->
  exists end_ts part_paid,
    end_ts_and_part_paid now payment_type false 0 0 = Some (end_ts, part_paid)
    /\ forall s', In s' (subscriptions db') ->
         In s' (subscriptions db)
         \/ (in_current_period s' now /\ s_end_ts s' = end_ts /\ s_part_paid s' = part_paid).
Proof.
  intros Hnd H.
  destruct (activate_subscription_db _ _ _ _ _ _ _ _ _ _ H)
    as (plan & end_ts & pp & _ & _ & Hb & Hdb).
  rewrite (end_ts_ignores_existing_row now payment_type _ _ false 0) in Hb.
  assert (Hb0 : end_ts_and_part_paid now payment_type false 0 0 = Some (end_ts, pp)).
  { rewrite end_ts_and_part_paid_eq in *. exact Hb. }
  exists end_ts, pp. split; [exact Hb0|].
  destruct (active_row db uid pid) as [e|] eqn:He.
  - destruct (select_subscription_sound _ _ _ _ _ He) as (Hin & _).
    assert (Hsame : forall s, In s (subscriptions db) -> s_id s = s_id e -> s = e).
    { intros s Hs Hid.
      apply (NoDup_map_injective s_id (subscriptions db)); assumption. }
    destruct (period_is e (month now) (year now)) eqn:Hper.
    + destruct (update_current_period_rewrite (subscriptions db) (s_id e) payment_type pp
                  end_ts link) as (g & Hg & Hrows & Hf).
      intros s' Hs'. rewrite Hdb in Hs'. cbn [subscriptions with_subscriptions] in Hs'.
      rewrite Hrows in Hs'. apply in_map_iff in Hs'. destruct Hs' as (s & <- & Hs).
      unfold rewrite_row. destruct (Z.eqb_spec (s_id s) (s_id e)) as [Hid|_];
        [|left; exact Hs].
      right. rewrite (Hsame s Hs Hid).
      destruct (Hf e) as (Hpp & Hend & Hm & Hy).
      destruct (period_is_in_current_period e now Hper) as [Hem Hey].
      repeat split; congruence.
    + destruct (update_new_period_rewrite (subscriptions db) (s_id e) payment_type pp
                  (month now) (year now) end_ts link) as (g & Hg & Hrows & Hf).
      intros s' Hs'. rewrite Hdb in Hs'. cbn [subscriptions with_subscriptions] in Hs'.
      rewrite Hrows in Hs'. apply in_map_iff in Hs'. destruct Hs' as (s & <- & Hs).
      unfold rewrite_row. destruct (Z.eqb_spec (s_id s) (s_id e)) as [Hid|_];
        [|left; exact Hs].
      right. destruct (Hf s) as (Hpp & Hend & Hm & Hy).
      repeat split; assumption.
  - intros s' Hs'. rewrite Hdb in Hs'. cbn [subscriptions with_subscriptions] in Hs'.
    apply in_app_or in Hs'. destruct Hs' as [Hs'|[<-|[]]]; [left; exact Hs'|].
    right. repeat split; reflexivity.
Qed.

(** An activation keeps the ids of the rows distinct and within the
    counter. *)
Lemma activation_ids_fresh db now invite uid pid payment_type gid :
  ids_fresh db ->
  ids_fresh (snd (fst (activate_subscription db now invite uid pid payment_type gid))).
Proof.
  intros [Hnd Hle].
  destruct (activate_subscription_rows db now invite uid pid payment_type gid)
    as [E|[(e & g & He & Hg & Hrows & Hseq)|(new & He & Hrows & Hid & _ & _ & _ & Hseq)]];
    cbn zeta in *.
  - rewrite E. split; assumption.
  - unfold ids_fresh. rewrite Hrows, Hseq, (map_rewrite_row_ids _ _ _ Hg).
    split; [exact Hnd|].
    intros s Hs. apply in_map_iff in Hs. destruct Hs as (s0 & <- & Hs0).
    unfold rewrite_row. destruct (s_id s0 =? s_id e);
      [rewrite (proj1 (Hg s0))|]; apply Hle; exact Hs0.
  - unfold ids_fresh. rewrite Hrows, Hseq, map_app. cbn [map]. split.
    + apply NoDup_snoc; [exact Hnd|].
      intros Hin. apply in_map_iff in Hin. destruct Hin as (s & Hs & Hsin).
      specialize (Hle s Hsin). lia.
    + intros s Hs. apply in_app_or in Hs. destruct Hs as [Hs|[<-|[]]];
        [specialize (Hle s Hs)|]; lia.
Qed.

Lemma payment_state_ids rows rows' :
  map payment_state rows' = map payment_state rows -> map s_id rows' = map s_id rows.
Proof.
  intros E.
  assert (H : forall l, map s_id l
                        = map (fun t : Z * Z * Z * Z * Z * PaymentType * Z * Z * PartPaid =>
                                 let '(i, _, _, _, _, _, _, _, _) := t in i)
                              (map payment_state l)).
  { intros l. rewrite map_map. reflexivity. }
  rewrite (H rows'), (H rows), E. reflexivity.
Qed.

Lemma payment_state_row rows : forall rows' s',
  map payment_state rows' = map payment_state rows ->
  In s' rows' -> exists s, In s rows /\ payment_state s' = payment_state s.
Proof.
  induction rows as [|x rows IH]; intros [|x' rows'] s' E Hin; try discriminate E.
  - destruct Hin.
  - cbn [map] in E.
    pose proof (f_equal (hd (payment_state x)) E) as Ex.
    pose proof (f_equal (@tl _) E) as Et. cbn [hd tl] in Ex, Et. clear E.
    destruct Hin as [<-|Hin].
    + exists x. split; [left; reflexivity | exact Ex].
    + destruct (IH rows' s' Et Hin) as (s & Hs & Hst). exists s. split; [right|]; assumption.
Qed.

(** What every ledger of a history has: the clock shows a date, the ids are
    distinct, and the payment fields of every row are as some activation has
    written them. *)
Lemma ledger_history_rows db now :
  ledger_history db now ->
  calendar_date now
  /\ ids_fresh db
  /\ forall s, In s (subscriptions db) -> written_by_activation now s.
Proof.
  induction 1 as [db now Hempty Hcal
                 |db now later _ (Hcal & Hfresh & Hrows) Hlater Hle
                 |db now invite uid pid payment_type gid _ (Hcal & Hfresh & Hrows)
                 |db db' now _ (Hcal & Hfresh & Hrows) Hstate Hseq].
  - split; [exact Hcal|]. unfold ids_fresh. rewrite Hempty.
    split; [split; [constructor | intros s []] | intros s []].
  - split; [exact Hlater|]. split; [exact Hfresh|].
    intros s Hs. apply (written_by_activation_later now); [exact Hle | apply Hrows; exact Hs].
  - split; [exact Hcal|]. split; [apply activation_ids_fresh; exact Hfresh|].
    destruct (activate_subscription db now invite uid pid payment_type gid)
      as [[result db'] sent] eqn:Hact.
    cbn [fst snd].
    destruct result as [link|msg|exc].
    + destruct (activation_rows_written _ _ _ _ _ _ _ _ _ _ (proj1 Hfresh) Hact)
        as (end_ts & pp & Hb & Hall).
      intros s' Hs'. destruct (Hall s' Hs') as [Hold|([Hm Hy] & Hend & Hpp)];
        [apply Hrows; exact Hold|].
      exists now. split; [exact Hcal|]. split; [lia|]. split; [exact Hm|]. split; [exact Hy|].
      rewrite end_ts_and_part_paid_eq in Hb.
      destruct payment_type; try discriminate Hb; injection Hb as <- <-;
        first [left; split; assumption | right; split; assumption].
    + pose proof (activate_subscription_writes_only_on_success db now invite uid pid
                    payment_type gid) as Hsame.
      rewrite Hact in Hsame. cbn [fst snd] in Hsame.
      rewrite Hsame by (intros link; discriminate). exact Hrows.
    + pose proof (activate_subscription_writes_only_on_success db now invite uid pid
                    payment_type gid) as Hsame.
      rewrite Hact in Hsame. cbn [fst snd] in Hsame.
      rewrite Hsame by (intros link; discriminate). exact Hrows.
  - split; [exact Hcal|]. split.
    + destruct Hfresh as [Hnd Hle]. unfold ids_fresh.
      rewrite (payment_state_ids _ _ Hstate), Hseq. split; [exact Hnd|].
      intros s' Hs'. destruct (payment_state_row _ _ _ Hstate Hs') as (s & Hs & E).
      unfold payment_state in E. injection E as -> _ _ _ _ _ _ _ _. apply Hle. exact Hs.
    + intros s' Hs'. destruct (payment_state_row _ _ _ Hstate Hs') as (s & Hs & E).
      apply (written_by_activation_state now s s' E). apply Hrows. exact Hs.
Qed.

(** The handlers and the expiration pass take a ledger of a history to a
    ledger of a history. *)
Lemma history_check_expirations_pass db now :
  ledger_history db now -> ledger_history (fst (check_expirations_pass db now)) now.
Proof.
  intros H. apply (history_other db); [exact H | |].
  - destruct (check_expirations_pass_db db now) as [ids ->].
    cbn [subscriptions with_subscriptions]. rewrite map_map. apply map_ext. intros s.
    unfold revoke_if. destruct (existsb (Z.eqb (s_id s)) ids); reflexivity.
  - destruct (check_expirations_pass_db db now) as [ids ->]. reflexivity.
Qed.

Lemma history_got_payment db now invite user_id payload :
  ledger_history db now -> ledger_history (fst (got_payment db now invite user_id payload)) now.
Proof.
  intros H.
  pose proof (history_activation db now invite user_id (pl_plan_id payload)
                (pl_payment_type payload) None H) as Hact.
  unfold got_payment.
  destruct (activate_subscription db now invite user_id (pl_plan_id payload)
              (pl_payment_type payload) None) as [[result db1] sent].
  cbn [fst snd] in Hact.
  destruct result as [link|msg|exc]; cbn [fst]; try exact Hact.
  destruct (pl_promo_id payload) as [promo_id|]; [|exact Hact].
  destruct (negb (promo_id =? 0) && (promo_id >? 0)); cbn [fst]; [|exact Hact].
  apply (history_other db1); [exact Hact | reflexivity | reflexivity].
Qed.

Lemma history_callback_approve_payment ADMIN_IDS db now invite from_user payment_id :
  ledger_history db now ->
  ledger_history (fst (callback_approve_payment ADMIN_IDS db now invite from_user payment_id))
    now.
Proof.
  intros H. unfold callback_approve_payment.
  destruct (negb (existsb (Z.eqb from_user) ADMIN_IDS)); [exact H|].
  destruct (select_pending_payment db payment_id) as [payment|]; [|exact H].
  pose proof (history_activation db now invite (mp_user_id payment) (mp_plan_id payment)
                (mp_payment_type payment) None H) as Hact.
  destruct (activate_subscription db now invite (mp_user_id payment) (mp_plan_id payment)
              (mp_payment_type payment) None) as [[result db1] sent].
  cbn [fst snd] in Hact.
  destruct result as [link|msg|exc]; cbn [fst]; try exact Hact.
  assert (H3 : ledger_history
                 (if truthy (mp_promo_id payment)
                  then record_promo_usage
                         (approve_manual_payment db1 payment_id from_user (time_time now)) now
                         (match mp_promo_id payment with Some p => p | None => 0 end)
                         (mp_user_id payment)
                  else approve_manual_payment db1 payment_id from_user (time_time now)) now).
  { destruct (truthy (mp_promo_id payment));
      apply (history_other db1); first [exact Hact | reflexivity]. }
  match goal with
  | |- context [select_plan ?d ?p] => destruct (select_plan d p)
  end; exact H3.
Qed.

(** C2: on a ledger the bot can have, when the active row of the pair is
    marked fully paid for the current period, no option is offered, on any
    day of the month: a row paid in full for a period runs until day 5 of
    the month after it. *)
Theorem C2_full_paid_current_period_no_options db now uid pid r :
  ledger_history db now ->
  active_row db uid pid = Some r ->
  s_part_paid r = pp_full ->
  in_current_period r now ->
  get_payment_options db now uid pid = [].
Proof.
  intros Hhist Hrow Hpp [Hm Hy].
  destruct (ledger_history_rows db now Hhist) as ([Hclock _] & _ & Hrows).
  destruct (select_subscription_sound _ _ _ _ _ Hrow) as (Hin & _).
  destruct (Hrows r Hin) as (paid & _ & _ & Hpm & Hpy & [[Hfirst _]|[_ Hend]]);
    [congruence|].
  apply (full_paid_running_no_options db now uid pid r Hrow Hpp).
  rewrite Hend. apply full_access_outlasts_period; [congruence | congruence | exact Hclock].
Qed.

Lemma C2_full_paid_current_period_no_options_witness :
  get_payment_options
    (snd (fst (activate_subscription sample_db (nov2026 3 10 0) (Some sample_link) 42 1 full
                 None)))
    (nov2026 17 12 0) 42 1 = [].
Proof.
  apply (C2_full_paid_current_period_no_options _ _ _ _
           (mkSubscription 1 42 1 (time_time (nov2026 3 10 0))
              (timestamp (mkdatetime 2026 12 5 23 59 59)) 1 (Some sample_link) 0
              (Some (-1001234567890)) full 11 2026 pp_full
              (Some (timestamp (mkdatetime 2026 12 5 23 59 59))))).
  - apply (history_clock _ (nov2026 3 10 0)).
    + apply history_activation. apply history_start; [reflexivity|].
      repeat split; cbn; lia.
    + repeat split; cbn; lia.
    + vm_compute. discriminate.
  - vm_compute. reflexivity.
  - reflexivity.
  - split; reflexivity.
Defined.

(** ** Renewal *)












(** The renewal of the example: the row that ran until 5 November runs
    until 5 December after the payment of 3 November. *)
Example renewal_of_october_row :
  map s_end_ts
    (subscriptions
       (snd (fst (activate_subscription sample_db_paid_october (nov2026 3 10 0)
                    (Some sample_link) 42 1 full None))))
  = [timestamp (mkdatetime 2026 12 5 23 59 59)].
Proof. vm_compute. reflexivity. Qed.
